(** * pixbin: the Pixbin Python SDK client, embedded and verified

    A shallow embedding of [src/pixbin/client.py]: the URL signer, the
    transport error mapping, the three-phase upload with its status poll,
    the transformed-variant download and the parameter builders.

    Conventions of the embedding.
    - A Python [str] is a Rocq [string] holding the UTF-8 bytes of the text,
      so [s.encode()] is the list of its bytes and f-string interpolation of
      strings is concatenation.
    - A Python [int] is a [Z]; clock readings and float durations are exact
      rationals ([Q], in seconds).
    - Effects go through an explicit [World]: a clock, a file system, the
      outcomes of the coming network exchanges, and a log of what was done.
    - The requests of the session go to the client's own base URL, with its
      own timeout. The storage request is made of what the server sent, so
      what [requests] does with a URL and with form fields before it sends
      anything is part of the model there. *)

From Stdlib Require Import ZArith QArith List Bool Lia Lqa.
From Stdlib.Strings Require Import String Ascii Byte.
From Stdlib Require Import DecimalString DecimalPos DecimalZ.
Import ListNotations.
Local Open Scope string_scope.
Local Open Scope Z_scope.

(** ** Strings and bytes *)

Module Str.

(** [str(n)] for a Python int. *)
Definition of_int (n : Z) : string := NilZero.string_of_int (Z.to_int n).

(** [s[:n]]. *)
Fixpoint take (n : nat) (s : string) : string :=
  match n, s with
  | S n', String c r => String c (take n' r)
  | _, _ => EmptyString
  end.

(** [s.rstrip("/")]: every trailing slash is removed. *)
Fixpoint rstrip_slash (s : string) : string :=
  match s with
  | EmptyString => EmptyString
  | String c r =>
      match rstrip_slash r with
      | EmptyString => if Ascii.eqb c "/" then EmptyString else String c EmptyString
      | r' => String c r'
      end
  end.

(** [s.encode()]: the UTF-8 bytes of the text. *)
Definition encode (s : string) : list byte := list_byte_of_string s.

(** [n] slashes. *)
Fixpoint slashes (n : nat) : string :=
  match n with
  | O => EmptyString
  | S n' => String "/" (slashes n')
  end.

Definition ends_with_slash (s : string) : Prop :=
  exists p, s = p ++ "/".

(** [all p s]: every character of [s] satisfies [p]. *)
Fixpoint all (p : ascii -> bool) (s : string) : bool :=
  match s with
  | EmptyString => true
  | String c r => p c && all p r
  end.

(** [sub in s]. *)
Fixpoint contains (sub s : string) : bool :=
  prefix sub s ||
  match s with
  | EmptyString => false
  | String _ r => contains sub r
  end.

End Str.

(** ** SHA-256 and HMAC (Python's [hashlib.sha256] and [hmac.new])

    The signer calls the standard library; the functions are written out
    after FIPS 180-4 and RFC 2104 on 32-bit words kept in [Z]. *)

Module SHA256.

Definition w32 (x : Z) : Z := x mod 2 ^ 32.
Definition add32 (x y : Z) : Z := w32 (x + y).
Definition rotr (n x : Z) : Z :=
  Z.lor (Z.shiftr x n) (w32 (Z.shiftl x (32 - n))).

Definition Ch (x y z : Z) : Z :=
  Z.lxor (Z.land x y) (Z.land (Z.lxor x (2 ^ 32 - 1)) z).
Definition Maj (x y z : Z) : Z :=
  Z.lxor (Z.lxor (Z.land x y) (Z.land x z)) (Z.land y z).
Definition Sigma0 (x : Z) : Z := Z.lxor (Z.lxor (rotr 2 x) (rotr 13 x)) (rotr 22 x).
Definition Sigma1 (x : Z) : Z := Z.lxor (Z.lxor (rotr 6 x) (rotr 11 x)) (rotr 25 x).
Definition sigma0 (x : Z) : Z := Z.lxor (Z.lxor (rotr 7 x) (rotr 18 x)) (Z.shiftr x 3).
Definition sigma1 (x : Z) : Z := Z.lxor (Z.lxor (rotr 17 x) (rotr 19 x)) (Z.shiftr x 10).

(** The first 64 primes. *)
Definition primes : list Z :=
  [2; 3; 5; 7; 11; 13; 17; 19; 23; 29; 31; 37; 41; 43; 47; 53; 59; 61; 67; 71; 73; 79; 83;
   89; 97; 101; 103; 107; 109; 113; 127; 131; 137; 139; 149; 151; 157; 163; 167; 173; 179;
   181; 191; 193; 197; 199; 211; 223; 227; 229; 233; 239; 241; 251; 257; 263; 269; 271; 277;
   281; 283; 293; 307; 311].

(** The integer cube root below [2 ^ n], one bit at a time from the top. *)
Fixpoint cube_root (n : nat) (x r : Z) : Z :=
  match n with
  | O => r
  | S n' =>
      let c := r + 2 ^ Z.of_nat n' in
      if c * c * c <=? x then cube_root n' x c else cube_root n' x r
  end.

(** The round constants: the first 32 bits of the fractional parts of the
    cube roots of the primes. *)
Definition K : list Z :=
  Eval vm_compute in map (fun p => w32 (cube_root 36 (p * 2 ^ 96) 0)) primes.

(** The eight working variables, also the chaining value. *)
Record state := State { sa : Z; sb : Z; sc : Z; sd : Z; se : Z; sf : Z; sg : Z; sh : Z }.

Definition H0 : state :=
  State 0x6a09e667 0xbb67ae85 0x3c6ef372 0xa54ff53a
        0x510e527f 0x9b05688c 0x1f83d9ab 0x5be0cd19.

Definition byte_val (b : byte) : Z := Z.of_N (Byte.to_N b).

Definition byte_of_Z (x : Z) : byte :=
  match Byte.of_N (Z.to_N (x mod 256)) with
  | Some b => b
  | None => x00
  end.

(** Big-endian bytes of a non-negative number, [n] of them. *)
Fixpoint be_bytes (n : nat) (x : Z) : list byte :=
  match n with
  | O => []
  | S n' => byte_of_Z (Z.shiftr x (8 * Z.of_nat n')) :: be_bytes n' x
  end.

(** Padding: a one bit, zeros up to 56 mod 64, the bit length on 8 bytes. *)
Definition pad (msg : list byte) : list byte :=
  let len := Z.of_nat (List.length msg) in
  let zeros := Z.to_nat ((55 - len) mod 64) in
  (msg ++ x80 :: repeat x00 zeros ++ be_bytes 8 (8 * len))%list.

Fixpoint words (fuel : nat) (bs : list byte) : list Z :=
  match fuel, bs with
  | S fuel', b0 :: b1 :: b2 :: b3 :: r =>
      (byte_val b0 * 2 ^ 24 + byte_val b1 * 2 ^ 16 + byte_val b2 * 2 ^ 8 + byte_val b3)
      :: words fuel' r
  | _, _ => []
  end.

(** The message schedule, newest word first. *)
Fixpoint extend (n : nat) (ws : list Z) : list Z :=
  match n with
  | O => ws
  | S n' =>
      let w := add32 (add32 (sigma1 (nth 1 ws 0)) (nth 6 ws 0))
                     (add32 (sigma0 (nth 14 ws 0)) (nth 15 ws 0)) in
      extend n' (w :: ws)
  end.

Definition schedule (block : list Z) : list Z := rev (extend 48 (rev block)).

Definition round (s : state) (kw : Z * Z) : state :=
  let t1 := add32 (add32 (add32 (sh s) (Sigma1 (se s))) (Ch (se s) (sf s) (sg s)))
                  (add32 (fst kw) (snd kw)) in
  let t2 := add32 (Sigma0 (sa s)) (Maj (sa s) (sb s) (sc s)) in
  State (add32 t1 t2) (sa s) (sb s) (sc s) (add32 (sd s) t1) (se s) (sf s) (sg s).

Definition compress (h : state) (block : list Z) : state :=
  let s := fold_left round (combine K (schedule block)) h in
  State (add32 (sa h) (sa s)) (add32 (sb h) (sb s)) (add32 (sc h) (sc s))
        (add32 (sd h) (sd s)) (add32 (se h) (se s)) (add32 (sf h) (sf s))
        (add32 (sg h) (sg s)) (add32 (sh h) (sh s)).

Fixpoint blocks (fuel : nat) (h : state) (ws : list Z) : state :=
  match fuel, ws with
  | S fuel', _ :: _ => blocks fuel' (compress h (firstn 16 ws)) (skipn 16 ws)
  | _, _ => h
  end.

Definition digest_of (s : state) : list byte :=
  (be_bytes 4 (sa s) ++ be_bytes 4 (sb s) ++ be_bytes 4 (sc s) ++ be_bytes 4 (sd s) ++
   be_bytes 4 (se s) ++ be_bytes 4 (sf s) ++ be_bytes 4 (sg s) ++ be_bytes 4 (sh s))%list.

(** [hashlib.sha256(msg).digest()]. *)
Definition sha256 (msg : list byte) : list byte :=
  let p := pad msg in
  let ws := words (List.length p) p in
  digest_of (blocks (List.length ws) H0 ws).

Definition block_size : nat := 64.

Definition xor_byte (x : Z) (b : byte) : byte := byte_of_Z (Z.lxor x (byte_val b)).

(** [hmac.new(key, msg, hashlib.sha256).digest()]. *)
Definition hmac (key msg : list byte) : list byte :=
  let k := if Nat.ltb block_size (List.length key) then sha256 key else key in
  let k := (k ++ repeat x00 (block_size - List.length k))%list in
  sha256 (map (xor_byte 0x5c) k ++ sha256 (map (xor_byte 0x36) k ++ msg))%list.

Definition hex_digit (x : Z) : ascii :=
  nth (Z.to_nat x)
      ["0"; "1"; "2"; "3"; "4"; "5"; "6"; "7"; "8"; "9"; "a"; "b"; "c"; "d"; "e"; "f"]%char
      "0"%char.

(** [.hexdigest()]: two lowercase hexadecimal digits a byte. *)
Fixpoint hex (bs : list byte) : string :=
  match bs with
  | [] => EmptyString
  | b :: r =>
      String (hex_digit (byte_val b / 16)) (String (hex_digit (byte_val b mod 16)) (hex r))
  end.

End SHA256.

(** ** Python values *)

(** What [json.loads] produces, also used for the JSON bodies the client
    sends. A dict is an association list in insertion order, looked up by
    its first matching key; a float is kept as the text of its [repr]. *)
#[warnings="-register-all"] Inductive Json : Type :=
| JNull
| JBool (b : bool)
| JInt (n : Z)
| JFloat (r : string)
| JStr (s : string)
| JList (l : list Json)
| JDict (d : list (string * Json)).

Fixpoint dict_get (d : list (string * Json)) (k : string) : option Json :=
  match d with
  | [] => None
  | (k', v) :: r => if String.eqb k' k then Some v else dict_get r k
  end.

(** [d[k] = v]: the value of an existing key is replaced in place, a new key
    goes last. *)
Fixpoint dict_set (d : list (string * Json)) (k : string) (v : Json) : list (string * Json) :=
  match d with
  | [] => [(k, v)]
  | (k', v') :: r => if String.eqb k' k then (k', v) :: r else (k', v') :: dict_set r k v
  end.

(** [v == s] for a str literal [s]: only an equal str compares equal. *)
Definition is_str (v : Json) (s : string) : bool :=
  match v with
  | JStr t => String.eqb t s
  | _ => false
  end.

(** What [requests] makes of the URL of a call before anything is sent. *)
Inductive UrlCheck : Type :=
| UrlOk
| UrlInvalid (msg : string)     (* MissingSchema, InvalidURL *)
| UrlNoAdapter (msg : string).  (* InvalidSchema *)

(** What the encoding of form fields raises when it fails: a [ValueError],
    a [TypeError] or an [AttributeError]. *)
Inductive EncodingError : Type :=
| BadValue (msg : string)
| BadType
| BadAttribute.

(** The parts of the Python installation the client relies on and that are
    not its own code. *)
Record Runtime := {
  (** [repr(s)] of a str: its quoting and escaping. *)
  repr_str : string -> string;
  (** [mimetypes.guess_type(name)[0]]. *)
  guess_type : string -> option string;
  (** [None] when [from PIL import Image] fails; otherwise
      [Image.open(io.BytesIO(data)).size], [None] when that raises. *)
  PILImage : option (list byte -> option (Z * Z));
  (** What [requests] makes of a URL, given by its [str]: [UrlInvalid]
      with the message of the [MissingSchema] or [InvalidURL] that preparing
      the request raises, [UrlNoAdapter] with that of the [InvalidSchema]
      raised when no adapter is mounted for the URL, [UrlOk] when the
      request goes out. *)
  check_url : string -> UrlCheck;
  (** What [requests] raises when it encodes a non-empty list as the form
      fields of a multipart body, [None] when it encodes it: the list must
      hold pairs of a name and a value. *)
  encode_pairs : list Json -> option EncodingError
}.

Section PyStr.
Variable rt : Runtime.

Definition join_comma (l : list string) : string := String.concat ", " l.

(** [repr(v)]. *)
Fixpoint py_repr (v : Json) : string :=
  match v with
  | JNull => "None"
  | JBool true => "True"
  | JBool false => "False"
  | JInt n => Str.of_int n
  | JFloat r => r
  | JStr s => repr_str rt s
  | JList l => "[" ++ join_comma (map py_repr l) ++ "]"
  | JDict d =>
      "{" ++ join_comma (map (fun kv => repr_str rt (fst kv) ++ ": " ++ py_repr (snd kv)) d)
          ++ "}"
  end.

(** [str(v)], which is what an f-string interpolates. *)
Definition py_str (v : Json) : string :=
  match v with
  | JStr s => s
  | _ => py_repr v
  end.
End PyStr.

(** ** Exceptions, responses and the world *)

Inductive Exn : Type :=
| PixbinError (msg : string)
| PixbinAuthError (msg : string)
| PixbinQuotaError (msg : string)
| PixbinUploadError (msg : string)
| RequestException (msg : string)  (* requests: ConnectionError, Timeout, ... *)
| HTTPError (msg : string)         (* requests.HTTPError, a RequestException *)
| JSONDecodeError                  (* raised by response.json() *)
| KeyError (key : string)
| TypeError
| AttributeError
| ValueError (msg : string)
| OSError (msg : string).

(** A [requests.Response], by the attributes the client reads. [json] is the
    result of [response.json()], [None] when it raises. *)
Record Response := {
  status_code : Z;
  reason : string;
  url : string;
  text : string;
  content : list byte;
  json : option Json
}.

Inductive Method := GET | POST.

Inductive Body : Type :=
| NoBody
| JsonBody (j : Json)
| MultipartBody (data : Json) (files : list (string * (string * list byte * string))).

(** A request as handed to [requests]. [headers] are those the caller adds
    to the library's defaults; [target] is the URL argument as passed. *)
Record Request := {
  method : Method;
  target : Json;
  headers : list (string * string);
  body : Body;
  req_timeout : Z
}.

Inductive Event : Type :=
| Sent (r : Request)
| Slept (d : Q).

(** The outcome of one network exchange: a response, or a failure of the
    transport itself (no connection, timeout), after [latency] seconds. *)
Inductive Reply : Type :=
| Answers (r : Response)
| Fails (msg : string).

Record Exchange := { latency : Q; reply : Reply }.

Inductive FsEntry : Type :=
| RegularFile (data : list byte)
| Directory.

(** [pending] lists the outcomes of the coming exchanges in order; once it
    is used up the transport fails to connect. [log] is chronological. *)
Record World := {
  clock : Q;
  fs : string -> option FsEntry;
  pending : list Exchange;
  log : list Event
}.

Inductive Result (A : Type) : Type :=
| Ok (a : A)
| Raise (e : Exn).
Arguments Ok {A} a.
Arguments Raise {A} e.

(** Computations: state passing over the world, with exceptions. *)
Definition M (A : Type) : Type := World -> Result A * World.

Definition ret {A} (a : A) : M A := fun w => (Ok a, w).
Definition raise {A} (e : Exn) : M A := fun w => (Raise e, w).
Definition bind {A B} (c : M A) (k : A -> M B) : M B :=
  fun w =>
    match c w with
    | (Ok a, w') => k a w'
    | (Raise e, w') => (Raise e, w')
    end.

Notation "x <- c ;; k" := (bind c (fun x => k))
  (at level 61, c at next level, right associativity).
Notation "c ;;; k" := (bind c (fun _ => k))
  (at level 61, right associativity).

(** [try: c except requests.RequestException as e: h e]. *)
Definition try_RequestException {A} (c : M A) (h : string -> M A) : M A :=
  fun w =>
    match c w with
    | (Raise (RequestException msg), w') => h msg w'
    | (Raise (HTTPError msg), w') => h msg w'
    | r => r
    end.

Definition record (e : Event) (w : World) : World :=
  {| clock := clock w; fs := fs w; pending := pending w; log := (log w ++ [e])%list |}.

(** [time.time()]. *)
Definition time_time : M Q := fun w => (Ok (clock w), w).

(** [time.sleep(d)]: a negative length is a [ValueError]. *)
Definition time_sleep (d : Q) : M unit :=
  fun w =>
    if Qle_bool 0 d
    then (Ok tt, {| clock := clock w + d; fs := fs w; pending := pending w;
                    log := (log w ++ [Slept d])%list |})
    else (Raise (ValueError "sleep length must be non-negative"), w).

Definition connection_failed : string := "Connection aborted.".

(** One call into [requests]: the request is logged, then the next pending
    exchange decides the outcome. *)
Definition send (r : Request) : M Response :=
  fun w =>
    let w1 := record (Sent r) w in
    match pending w1 with
    | [] => (Raise (RequestException connection_failed), w1)
    | x :: rest =>
        let w2 := {| clock := clock w1 + latency x; fs := fs w1; pending := rest;
                     log := log w1 |} in
        match reply x with
        | Answers resp => (Ok resp, w2)
        | Fails msg => (Raise (RequestException msg), w2)
        end
    end.

(** [response.json()]. *)
Definition response_json (r : Response) : M Json :=
  match json r with
  | Some j => ret j
  | None => raise JSONDecodeError
  end.

(** [response.raise_for_status()] of [requests]: an [HTTPError] for the
    client-error and server-error classes, nothing otherwise. *)
Definition raise_for_status (r : Response) : M unit :=
  if (400 <=? status_code r) && (status_code r <? 500) then
    raise (HTTPError (Str.of_int (status_code r) ++ " Client Error: " ++ reason r
                      ++ " for url: " ++ url r))
  else if (500 <=? status_code r) && (status_code r <? 600) then
    raise (HTTPError (Str.of_int (status_code r) ++ " Server Error: " ++ reason r
                      ++ " for url: " ++ url r))
  else ret tt.

Definition encoding_exn (e : EncodingError) : Exn :=
  match e with
  | BadValue msg => ValueError msg
  | BadType => TypeError
  | BadAttribute => AttributeError
  end.

(** [bool(v)]: [None], [False], zero and what is empty are false. *)
Definition py_truth (v : Json) : bool :=
  match v with
  | JNull => false
  | JBool b => b
  | JInt n => negb (n =? 0)
  | JFloat r => negb (String.eqb r "0.0" || String.eqb r "-0.0")
  | JStr s => negb (String.eqb s "")
  | JList l => match l with [] => false | _ => true end
  | JDict d => match d with [] => false | _ => true end
  end.

(** How [requests] turns [data] into the form fields of a multipart body,
    by what it raises. The call goes on with [data or {}], so a false value
    stands for no field. Otherwise a str is refused, and so is a bool or an
    int; a float cannot be iterated; a dict gives the fields of its keys. *)
Definition encode_fields (rt : Runtime) (data : Json) : option Exn :=
  if negb (py_truth data) then None
  else
    match data with
    | JStr _ => Some (ValueError "Data must not be a string.")
    | JBool _ | JInt _ => Some (ValueError "cannot encode objects that are not 2-tuples")
    | JFloat _ => Some TypeError
    | JList l => option_map encoding_exn (encode_pairs rt l)
    | JNull | JDict _ => None
    end.

(** [requests.post(url, data=data, files=files, timeout=timeout)]: the
    request is prepared, its URL first and its body next, then an adapter
    is looked up for the URL, and only then it is sent. The errors of
    [requests] about the URL are [RequestException]s, those of the encoding
    are not. *)
Definition requests_post (rt : Runtime) (url data : Json)
    (files : list (string * (string * list byte * string))) (timeout : Z) : M Response :=
  match check_url rt (py_str rt url) with
  | UrlInvalid msg => raise (RequestException msg)
  | checked =>
      match encode_fields rt data with
      | Some e => raise e
      | None =>
          match checked with
          | UrlNoAdapter msg => raise (RequestException msg)
          | _ => send {| method := POST; target := url; headers := [];
                         body := MultipartBody data files; req_timeout := timeout |}
          end
      end
  end.

(** [v.get(k, default)]: only a dict has [get]. *)
Definition py_get (v : Json) (k : string) (default : Json) : M Json :=
  match v with
  | JDict d => ret (match dict_get d k with Some x => x | None => default end)
  | _ => raise AttributeError
  end.

(** [v[k]] for a str key: a missing key of a dict is a [KeyError], anything
    else cannot be indexed by a str. *)
Definition py_index (v : Json) (k : string) : M Json :=
  match v with
  | JDict d => match dict_get d k with Some x => ret x | None => raise (KeyError k) end
  | _ => raise TypeError
  end.

Definition Qlt_bool (x y : Q) : bool := negb (Qle_bool y x).

(** ** The client *)

(** What [upload_file] accepts as [file_path]. A str is wrapped in [Path]
    first; a path is kept by what the code reads of it, [str(p)] and
    [p.name]. A file-like object is kept by its [name] attribute and by what
    [read()] returns. *)
Record PyPath := { path_str : string; path_name : string }.

(** The [name] attribute of a file-like object. *)
Inductive FileName : Type :=
| NoName                      (* no such attribute: io.BytesIO *)
| StrName (s : string)        (* a file opened by its path *)
| BytesName (b : list byte)   (* a file opened by a bytes path *)
| IntName (fd : Z)            (* a file opened by its descriptor: tempfile.TemporaryFile *)
| NoneName.                   (* tempfile.SpooledTemporaryFile *)

Inductive Source : Type :=
| PathSource (p : PyPath)
| FileObject (name : FileName) (data : list byte).

Module PixbinClient.

Record t := {
  api_token : string;
  base_url : string;
  timeout : Z;
  session_headers : list (string * string)
}.

Definition __init__ (api_token base_url : string) (timeout : Z) : t :=
  {| api_token := api_token;
     base_url := Str.rstrip_slash base_url;
     timeout := timeout;
     session_headers :=
       [("Authorization", "Bearer " ++ api_token); ("Content-Type", "application/json")] |}.

Section Methods.
Variable rt : Runtime.
Variable self : t.

Definition _handle_errors (response : Response) : M unit :=
  if status_code response =? 401 then
    raise (PixbinAuthError ("Authentication failed: " ++ text response))
  else if status_code response =? 413 then
    raise (PixbinQuotaError ("Quota exceeded: " ++ text response))
  else if status_code response >=? 400 then
    let error_msg :=
      match json response with
      | Some (JDict d) =>
          match dict_get d "error" with
          | Some v => py_str rt v
          | None => text response
          end
      | _ => text response
      end in
    raise (PixbinError ("API error (" ++ Str.of_int (status_code response) ++ "): " ++ error_msg))
  else ret tt.

Definition _get (endpoint : string) : M Response :=
  let url := base_url self ++ endpoint in
  response <- send {| method := GET; target := JStr url; headers := session_headers self;
                      body := NoBody; req_timeout := timeout self |} ;;
  _handle_errors response ;;;
  ret response.

Definition _post (endpoint : string) (payload : Json) : M Response :=
  let url := base_url self ++ endpoint in
  response <- send {| method := POST; target := JStr url; headers := session_headers self;
                      body := JsonBody payload; req_timeout := timeout self |} ;;
  _handle_errors response ;;;
  ret response.

Definition HAS_PIL : bool :=
  match PILImage rt with
  | Some _ => true
  | None => false
  end.

Definition _extract_dimensions (file_data : list byte) : Z * Z :=
  if negb HAS_PIL then (0, 0)
  else
    match PILImage rt with
    | Some size_of =>
        match size_of file_data with
        | Some size => size
        | None => (0, 0)
        end
    | None => (0, 0)
    end.

(** [guess_type(name)[0] or "application/octet-stream"]. *)
Definition content_type_of (name : string) : string :=
  match guess_type rt name with
  | Some ty => if String.eqb ty "" then "application/octet-stream" else ty
  | None => "application/octet-stream"
  end.

(** The first statement of [upload_file]: file name, size, content type and
    bytes of the source. *)
Definition open_source (file_path : Source) : M (string * Z * string * list byte) :=
  match file_path with
  | PathSource p =>
      fun w =>
        match fs w (path_str p) with
        | None => (Raise (PixbinUploadError ("File not found: " ++ path_str p)), w)
        | Some (RegularFile file_data) =>
            (Ok (path_name p, Z.of_nat (List.length file_data),
                 content_type_of (path_str p), file_data), w)
        | Some Directory =>
            (Raise (OSError ("[Errno 21] Is a directory: " ++ repr_str rt (path_str p))), w)
        end
  | FileObject name file_data =>
      let filename := match name with NoName => StrName "image.jpg" | _ => name end in
      let file_size := Z.of_nat (List.length file_data) in
      match filename with
      | StrName filename => ret (filename, file_size, content_type_of filename, file_data)
      | _ => raise TypeError  (* [mimetypes.guess_type] takes a str *)
      end
  end.

Definition get_status (image_id : Json) : M Json :=
  response <- _get ("/api/v1/image/" ++ py_str rt image_id ++ "/status") ;;
  data <- response_json response ;;
  py_get data "data" (JDict []).

(** The body of the polling loop: [true] when it returns, [false] when it
    has slept and goes round again. *)
Definition poll_once (image_id : Json) (poll_interval : Q) : M bool :=
  status_data <- get_status image_id ;;
  processing_status <- py_get status_data "processing_status" JNull ;;
  if is_str processing_status "completed" then ret true
  else if is_str processing_status "failed" || is_str processing_status "expired" then
    raise (PixbinUploadError ("Processing failed: " ++ py_str rt processing_status))
  else
    time_sleep poll_interval ;;;
    ret false.

(** [while time.time() - start_time < max_wait: ...], then the timeout.
    [None] only when [fuel] iterations did not finish the loop. *)
Fixpoint wait_loop (fuel : nat) (image_id : Json) (poll_interval : Q) (max_wait : Z)
    (start_time : Q) (w : World) : option (Result unit * World) :=
  match fuel with
  | O => None
  | S fuel' =>
      if Qlt_bool (clock w - start_time) (inject_Z max_wait) then
        match poll_once image_id poll_interval w with
        | (Ok true, w') => Some (Ok tt, w')
        | (Ok false, w') => wait_loop fuel' image_id poll_interval max_wait start_time w'
        | (Raise e, w') => Some (Raise e, w')
        end
      else
        Some (Raise (PixbinUploadError
                       ("Processing timeout after " ++ Str.of_int max_wait ++ "s")), w)
  end.

(** Every round of the loop uses up one pending exchange or ends the loop,
    so one more round than there are pending exchanges is enough. *)
Definition _wait_for_completion (image_id : Json) (poll_interval : Q) (max_wait : Z) : M unit :=
  start_time <- time_time ;;
  fun w =>
    match wait_loop (S (List.length (pending w))) image_id poll_interval max_wait start_time w
    with
    | Some r => r
    | None => (Raise (RequestException connection_failed), w)
    end.

(** [upload_file] is embedded block by block, along the comments that
    divide its body. *)

(** "Phase 1: Start upload": the session the server opens, as
    [(image_id, upload_url, upload_fields)]. *)
Definition start_upload (filename : string) (file_size : Z) (content_type caption : string)
    (private : bool) (retention_hours : Z) : M (Json * Json * Json) :=
  start_response <- _post "/api/v1/upload/start"
    (JDict [("filename", JStr filename); ("content_type", JStr content_type);
            ("file_size", JInt file_size); ("caption", JStr caption);
            ("private", JBool private); ("retention_hours", JInt retention_hours)]) ;;
  start_data <- response_json start_response ;;
  status <- py_get start_data "status" JNull ;;
  if negb (is_str status "success") then
    raise (PixbinUploadError ("Upload start failed: " ++ py_str rt start_data))
  else
  data <- py_index start_data "data" ;;
  image_id <- py_index data "image_id" ;;
  data <- py_index start_data "data" ;;
  upload_url <- py_index data "upload_url" ;;
  data <- py_index start_data "data" ;;
  upload_fields <- py_index data "upload_fields" ;;
  ret (image_id, upload_url, upload_fields).

(** "Phase 2: Upload to S3". *)
Definition upload_to_s3 (upload_url upload_fields : Json) (filename : string)
    (file_data : list byte) (content_type : string) : M unit :=
  try_RequestException
    (let files := [("file", (filename, file_data, content_type))] in
     s3_response <- requests_post rt upload_url upload_fields files (timeout self) ;;
     raise_for_status s3_response)
    (fun e => raise (PixbinUploadError ("S3 upload failed: " ++ e))).

(** What is posted to the complete endpoint. *)
Definition complete_payload (image_id : Json) (file_data : list byte) : list (string * Json) :=
  let '(width, height) := _extract_dimensions file_data in
  let complete_payload := [("image_id", image_id)] in
  if (width >? 0) && (height >? 0)
  then dict_set (dict_set complete_payload "width" (JInt width)) "height" (JInt height)
  else complete_payload.

(** "Phase 3: Complete upload with dimensions". *)
Definition complete_upload (image_id : Json) (file_data : list byte) : M unit :=
  complete_response <- _post "/api/v1/upload/complete"
                         (JDict (complete_payload image_id file_data)) ;;
  complete_data <- response_json complete_response ;;
  status <- py_get complete_data "status" JNull ;;
  if negb (is_str status "success") then
    raise (PixbinUploadError ("Upload completion failed: " ++ py_str rt complete_data))
  else ret tt.

(** "Poll for completion". *)
Definition poll_for_completion (image_id : Json) (poll_interval : Q) (max_wait : Z) : M unit :=
  if max_wait >? 0 then _wait_for_completion image_id poll_interval max_wait else ret tt.

(** Everything before the poll: the image id once the upload is completed. *)
Definition upload_phases (file_path : Source) (caption : string) (private : bool)
    (retention_hours : Z) : M Json :=
  src <- open_source file_path ;;
  let '(filename, file_size, content_type, file_data) := src in
  session <- start_upload filename file_size content_type caption private retention_hours ;;
  let '(image_id, upload_url, upload_fields) := session in
  upload_to_s3 upload_url upload_fields filename file_data content_type ;;;
  complete_upload image_id file_data ;;;
  ret image_id.

Definition upload_file (file_path : Source) (caption : string) (private : bool)
    (retention_hours : Z) (poll_interval : Q) (max_wait : Z) : M Json :=
  image_id <- upload_phases file_path caption private retention_hours ;;
  poll_for_completion image_id poll_interval max_wait ;;;
  ret image_id.

Definition _generate_signature (image_id params : string) : string :=
  let message := image_id ++ ":" ++ params in
  let signature :=
    SHA256.hex (SHA256.hmac (Str.encode (api_token self)) (Str.encode message)) in
  Str.take 16 signature.

Definition transform_url (image_id params : string) (include_host : bool) : string :=
  let signature := _generate_signature image_id params in
  let path := "/api/v1/image/" ++ signature ++ "/" ++ params ++ "/" ++ image_id in
  if include_host then base_url self ++ path else path.

(** [for attempt in range(max_retries): ...], then the final raise;
    [remaining] counts the rounds still to run. *)
Fixpoint download_loop (remaining : nat) (attempt : Z) (url : string) (max_retries : Z)
    (retry_delay : Q) : M (list byte) :=
  match remaining with
  | O => raise (PixbinError "Failed to download transformed image")
  | S remaining' =>
      response <- send {| method := GET; target := JStr url; headers := []; body := NoBody;
                          req_timeout := timeout self |} ;;
      if status_code response =? 200 then ret (content response)
      else if status_code response =? 202 then
        if attempt <? max_retries - 1 then
          time_sleep retry_delay ;;;
          download_loop remaining' (attempt + 1) url max_retries retry_delay
        else raise (PixbinError "Transformation timeout - variant still processing")
      else
        raise_for_status response ;;;
        download_loop remaining' (attempt + 1) url max_retries retry_delay
  end.

Definition download_transformed (image_id params : string) (max_retries : Z)
    (retry_delay : Q) : M (list byte) :=
  let url := transform_url image_id params true in
  download_loop (Z.to_nat max_retries) 0 url max_retries retry_delay.

Definition download_original (image_id : string) : M (list byte) :=
  response <- _get ("/api/v1/image/" ++ image_id) ;;
  ret (content response).

End Methods.
End PixbinClient.

(** ** Convenience builders for transformation parameters

    An argument with a default value is an [option]: [None] when the caller
    leaves it out. *)

Definition or_default {A} (d : A) (o : option A) : A :=
  match o with
  | Some a => a
  | None => d
  end.

Definition thumbnail (width height : Z) (quality : option Z) : string :=
  let quality := or_default 85 quality in
  "resize:" ++ Str.of_int width ++ "x" ++ Str.of_int height ++ ":fit,quality:"
    ++ Str.of_int quality.

Definition crop_square (size : Z) (mode : option string) : string :=
  let mode := or_default "center" mode in
  "crop:" ++ mode ++ ",resize:" ++ Str.of_int size ++ "x" ++ Str.of_int size ++ ":exact".

Definition optimize_web (max_width quality : option Z) : string :=
  let max_width := or_default 1920 max_width in
  let quality := or_default 85 quality in
  "resize:" ++ Str.of_int max_width ++ "x" ++ Str.of_int max_width ++ ":fit,quality:"
    ++ Str.of_int quality ++ ",format:webp".

(** ** Sample inputs

    A runtime, a client and a few server scripts on which the definitions
    are evaluated. *)

Module Sample.

(** Quotes without escaping; ".jpg" is the one known extension; the decoder
    of a toy image format whose first two bytes are width and height; a URL
    goes out when it starts with "http://" or "https://", has no adapter
    when it holds a colon, and no scheme otherwise; form fields given as a
    list are pairs of a str and a value. *)
Definition rt : Runtime :=
  {| repr_str := fun s => "'" ++ s ++ "'";
     guess_type := fun n =>
       if String.eqb (substring (String.length n - 4) 4 n) ".jpg"
       then Some "image/jpeg" else None;
     PILImage := Some (fun data =>
       match data with
       | b0 :: b1 :: _ => Some (SHA256.byte_val b0, SHA256.byte_val b1)
       | _ => None
       end);
     check_url := fun u =>
       if prefix "http://" u || prefix "https://" u then UrlOk
       else if Str.contains ":" u then
         UrlNoAdapter ("No connection adapters were found for '" ++ u ++ "'")
       else
         UrlInvalid ("Invalid URL '" ++ u ++ "': No scheme supplied. Perhaps you meant https://"
                     ++ u ++ "?");
     encode_pairs := fun l =>
       if forallb (fun e => match e with JList [JStr _; _] => true | _ => false end) l
       then None else Some BadType |}.

Definition rt_no_pil : Runtime :=
  {| repr_str := repr_str rt; guess_type := guess_type rt; PILImage := None;
     check_url := check_url rt; encode_pairs := encode_pairs rt |}.

Definition client : PixbinClient.t :=
  PixbinClient.__init__ "secret-token" "https://pixbin.net/" 30.

Definition response (code : Z) (body : string) (j : option Json) : Response :=
  {| status_code := code; reason := "R"; url := "U"; text := body;
     content := Str.encode body; json := j |}.

Definition answers (r : Response) : Exchange := {| latency := 0; reply := Answers r |}.

Definition json_ok (j : Json) : Exchange := answers (response 200 "" (Some j)).

Definition start_ok : Exchange :=
  json_ok (JDict [("status", JStr "success");
                  ("data", JDict [("image_id", JStr "img-1");
                                  ("upload_url", JStr "https://s3.example/bucket");
                                  ("upload_fields", JDict [("key", JStr "k")])])]).

Definition store (code : Z) : Exchange := answers (response code "" None).

Definition complete_ok : Exchange := json_ok (JDict [("status", JStr "success")]).

Definition status (s : string) : Exchange :=
  json_ok (JDict [("data", JDict [("processing_status", JStr s)])]).

Definition world (script : list Exchange) : World :=
  {| clock := 0; fs := fun _ => None; pending := script; log := [] |}.

Definition photo : Source := FileObject (StrName "photo.jpg") ["003"; "002"; "a"]%byte.
Definition blob : Source := FileObject NoName ["a"; "b"]%byte.


End Sample.

(** * Vocabulary of the properties *)

Definition is_lower_hex (c : ascii) : bool :=
  let n := N_of_ascii c in
  ((48 <=? n)%N && (n <=? 57)%N) || ((97 <=? n)%N && (n <=? 102)%N).

(** The [processing_status] of a status record, [None] (Python's) when the
    record has no such key; nothing at all when the record is not a dict. *)
Definition processing_status_of (status_data : Json) : option Json :=
  match status_data with
  | JDict d => Some (match dict_get d "processing_status" with Some v => v | None => JNull end)
  | _ => None
  end.

(** The polling phase in the specification's words: poll the status
    accessor until the status is "completed" (success), "failed" or
    "expired" (an upload error naming it), or until the time since
    [start_time] has reached [max_wait] (the timeout error), sleeping
    [poll_interval] between two polls; a failure of the status call or of
    the sleep itself goes to the caller. *)
Inductive Polling (rt : Runtime) (self : PixbinClient.t) (image_id : Json)
    (poll_interval : Q) (max_wait : Z) (start_time : Q) :
    World -> Result unit -> World -> Prop :=
| Polling_timeout w :
    (inject_Z max_wait <= clock w - start_time)%Q ->
    Polling rt self image_id poll_interval max_wait start_time w
      (Raise (PixbinUploadError ("Processing timeout after " ++ Str.of_int max_wait ++ "s"))) w
| Polling_completed w status_data w' :
    (clock w - start_time < inject_Z max_wait)%Q ->
    PixbinClient.get_status rt self image_id w = (Ok status_data, w') ->
    processing_status_of status_data = Some (JStr "completed") ->
    Polling rt self image_id poll_interval max_wait start_time w (Ok tt) w'
| Polling_failed w status_data w' s :
    (clock w - start_time < inject_Z max_wait)%Q ->
    PixbinClient.get_status rt self image_id w = (Ok status_data, w') ->
    processing_status_of status_data = Some (JStr s) ->
    s = "failed" \/ s = "expired" ->
    Polling rt self image_id poll_interval max_wait start_time w
      (Raise (PixbinUploadError ("Processing failed: " ++ s))) w'
| Polling_again w status_data w' v w'' r w3 :
    (clock w - start_time < inject_Z max_wait)%Q ->
    PixbinClient.get_status rt self image_id w = (Ok status_data, w') ->
    processing_status_of status_data = Some v ->
    v <> JStr "completed" -> v <> JStr "failed" -> v <> JStr "expired" ->
    time_sleep poll_interval w' = (Ok tt, w'') ->
    Polling rt self image_id poll_interval max_wait start_time w'' r w3 ->
    Polling rt self image_id poll_interval max_wait start_time w r w3
| Polling_status_raises w e w' :
    (clock w - start_time < inject_Z max_wait)%Q ->
    PixbinClient.get_status rt self image_id w = (Raise e, w') ->
    Polling rt self image_id poll_interval max_wait start_time w (Raise e) w'
| Polling_no_record w status_data w' :
    (clock w - start_time < inject_Z max_wait)%Q ->
    PixbinClient.get_status rt self image_id w = (Ok status_data, w') ->
    processing_status_of status_data = None ->
    Polling rt self image_id poll_interval max_wait start_time w (Raise AttributeError) w'
| Polling_sleep_raises w status_data w' v e w'' :
    (clock w - start_time < inject_Z max_wait)%Q ->
    PixbinClient.get_status rt self image_id w = (Ok status_data, w') ->
    processing_status_of status_data = Some v ->
    v <> JStr "completed" -> v <> JStr "failed" -> v <> JStr "expired" ->
    time_sleep poll_interval w' = (Raise e, w'') ->
    Polling rt self image_id poll_interval max_wait start_time w (Raise e) w''.

Fixpoint requests_sent (l : list Event) : nat :=
  match l with
  | [] => 0
  | Sent _ :: r => S (requests_sent r)
  | Slept _ :: r => requests_sent r
  end.

(** The exchange answers with a response of the given status. *)
Definition answers_with (code : Z) (x : Exchange) : Prop :=
  exists resp, reply x = Answers resp /\ status_code resp = code.

(** The world after a request [r] was answered by [x]. *)
Definition answered (r : Request) (x : Exchange) (rest : list Exchange) (w : World) : World :=
  {| clock := clock w + latency x; fs := fs w; pending := rest;
     log := (log w ++ [Sent r])%list |}.

Definition download_request (self : PixbinClient.t) (url : string) : Request :=
  {| method := GET; target := JStr url; headers := []; body := NoBody;
     req_timeout := PixbinClient.timeout self |}.

(** The world after a sleep of [d] seconds. *)
Definition slept (d : Q) (w : World) : World :=
  {| clock := clock w + d; fs := fs w; pending := pending w;
     log := (log w ++ [Slept d])%list |}.

Definition variant_timeout : Exn :=
  PixbinError "Transformation timeout - variant still processing".

(** The last part of C4 as the specification states it: whatever response
    outside the 2xx class answers the first attempt, the call raises with
    that one request made. *)
Definition other_status_raises_at_once (self : PixbinClient.t) : Prop :=
  forall image_id params max_retries retry_delay w x rest resp,
    0 < max_retries -> pending w = x :: rest -> reply x = Answers resp ->
    ~ (200 <= status_code resp < 300) ->
    exists e,
      PixbinClient.download_transformed self image_id params max_retries retry_delay w
      = (Raise e,
         answered (download_request self (PixbinClient.transform_url self image_id params true))
           x rest w).

Definition start_request (self : PixbinClient.t) (filename : string) (file_size : Z)
    (content_type caption : string) (private : bool) (retention_hours : Z) : Request :=
  {| method := POST;
     target := JStr (PixbinClient.base_url self ++ "/api/v1/upload/start");
     headers := PixbinClient.session_headers self;
     body := JsonBody
       (JDict [("filename", JStr filename); ("content_type", JStr content_type);
               ("file_size", JInt file_size); ("caption", JStr caption);
               ("private", JBool private); ("retention_hours", JInt retention_hours)]);
     req_timeout := PixbinClient.timeout self |}.

Definition store_request (self : PixbinClient.t) (upload_url upload_fields : Json)
    (filename : string) (file_data : list byte) (content_type : string) : Request :=
  {| method := POST; target := upload_url; headers := [];
     body := MultipartBody upload_fields [("file", (filename, file_data, content_type))];
     req_timeout := PixbinClient.timeout self |}.

Definition complete_request (self : PixbinClient.t) (payload : list (string * Json)) : Request :=
  {| method := POST;
     target := JStr (PixbinClient.base_url self ++ "/api/v1/upload/complete");
     headers := PixbinClient.session_headers self;
     body := JsonBody (JDict payload);
     req_timeout := PixbinClient.timeout self |}.

(** C6 as the specification states it: whatever response outside the 2xx
    class answers the storage request, the store phase raises the upload
    error "S3 upload failed". *)
Definition non_2xx_store_is_upload_error (rt : Runtime) (self : PixbinClient.t) : Prop :=
  forall upload_url upload_fields filename file_data content_type w x rest resp,
    pending w = x :: rest -> reply x = Answers resp ->
    ~ (200 <= status_code resp < 300) ->
    exists msg,
      fst (PixbinClient.upload_to_s3 rt self upload_url upload_fields filename file_data
             content_type w) = Raise (PixbinUploadError msg)
      /\ Str.contains "S3 upload failed" msg = true.

(** A URL and form fields that [requests] takes as they are. *)
Definition postable (rt : Runtime) (upload_url upload_fields : Json) : Prop :=
  check_url rt (py_str rt upload_url) = UrlOk /\ encode_fields rt upload_fields = None.

(** The shape the specification requires of a start response. *)
Definition start_shape (j : Json) : Prop :=
  exists d data image_id upload_url upload_fields,
    j = JDict d /\ dict_get d "status" = Some (JStr "success")
    /\ dict_get d "data" = Some (JDict data)
    /\ dict_get data "image_id" = Some image_id
    /\ dict_get data "upload_url" = Some upload_url
    /\ dict_get data "upload_fields" = Some upload_fields.

(** C5 as the specification states it: a start response of any other shape
    ends the upload with an upload error. *)
Definition bad_start_is_upload_error (rt : Runtime) (self : PixbinClient.t) : Prop :=
  forall file_path caption private retention_hours poll_interval max_wait w x rest resp j src,
    PixbinClient.open_source rt file_path w = (Ok src, w) ->
    pending w = x :: rest -> reply x = Answers resp -> json resp = Some j ->
    ~ start_shape j ->
    exists msg,
      fst (PixbinClient.upload_file rt self file_path caption private retention_hours
             poll_interval max_wait w) = Raise (PixbinUploadError msg).



(** [e] is not the error of the file-existence check. *)
Definition not_file_not_found (e : Exn) : bool :=
  match e with
  | PixbinUploadError msg => negb (prefix "File not found" msg)
  | _ => true
  end.

(** A computation that leaves the world as it is. *)
Definition pure {A} (c : M A) : Prop := forall w, snd (c w) = w.

(** A computation that only adds to the log and never raises the error of
    the file-existence check. *)
Definition tidy {A} (c : M A) : Prop :=
  forall w,
    (exists more, log (snd (c w)) = (log w ++ more)%list)
    /\ match fst (c w) with
       | Raise e => not_file_not_found e = true
       | Ok _ => True
       end.

(** ** Classes of exceptions and of logged events *)

(** The class of an exception, as an [except] clause tells them apart. *)
Inductive Kind : Type :=
| KPixbin | KAuth | KQuota | KUpload | KRequest | KHTTP | KJSONDecode
| KKey | KType | KAttribute | KValue | KOS.

Definition kind_of (e : Exn) : Kind :=
  match e with
  | PixbinError _ => KPixbin
  | PixbinAuthError _ => KAuth
  | PixbinQuotaError _ => KQuota
  | PixbinUploadError _ => KUpload
  | RequestException _ => KRequest
  | HTTPError _ => KHTTP
  | JSONDecodeError => KJSONDecode
  | KeyError _ => KKey
  | TypeError => KType
  | AttributeError => KAttribute
  | ValueError _ => KValue
  | OSError _ => KOS
  end.

(** A computation that adds to the log only events satisfying [L] and
    raises only exceptions of the kinds [ks]. *)
Definition emits {A} (L : Event -> Prop) (ks : list Kind) (c : M A) : Prop :=
  forall w,
    (exists more, log (snd (c w)) = (log w ++ more)%list /\ Forall L more)
    /\ match fst (c w) with
       | Raise e => In (kind_of e) ks
       | Ok _ => True
       end.

(** The requests of the two accessors. *)
Definition status_request (rt : Runtime) (self : PixbinClient.t) (image_id : Json) : Request :=
  {| method := GET;
     target := JStr (PixbinClient.base_url self ++ "/api/v1/image/" ++ py_str rt image_id
                     ++ "/status");
     headers := PixbinClient.session_headers self;
     body := NoBody;
     req_timeout := PixbinClient.timeout self |}.

Definition original_request (self : PixbinClient.t) (image_id : string) : Request :=
  {| method := GET;
     target := JStr (PixbinClient.base_url self ++ "/api/v1/image/" ++ image_id);
     headers := PixbinClient.session_headers self;
     body := NoBody;
     req_timeout := PixbinClient.timeout self |}.

(** What the transport can raise: the classes of [_handle_errors] and a
    failure of the connection. *)
Definition transport_kinds : list Kind := [KRequest; KAuth; KQuota; KPixbin].

(** A request of the session: its headers, to an endpoint of the API host. *)
Definition session_request (self : PixbinClient.t) (r : Request) : Prop :=
  headers r = PixbinClient.session_headers self
  /\ exists endpoint, target r = JStr (PixbinClient.base_url self ++ endpoint).

(** A multipart POST without headers of the caller's. *)
Definition storage_request (r : Request) : Prop :=
  headers r = [] /\ method r = POST
  /\ exists data files, body r = MultipartBody data files.

(** What [upload_file] may log: requests of the session, the storage
    request, sleeps of [poll_interval]. *)
Definition upload_event (self : PixbinClient.t) (poll_interval : Q) (e : Event) : Prop :=
  match e with
  | Sent r => session_request self r \/ storage_request r
  | Slept d => d = poll_interval
  end.

(** What [upload_file] may raise: every class but [HTTPError]. *)
Definition upload_kinds : list Kind :=
  [KPixbin; KAuth; KQuota; KUpload; KRequest; KJSONDecode; KKey; KType; KAttribute;
   KValue; KOS].

Definition is_request (e : Event) : Prop := exists r, e = Sent r.

(** ** The polling phase, by its log and its clock *)

(** The log of a polling phase: polls of the status URL, with a sleep of [d]
    between one and the next. *)
Fixpoint poll_log (q : Request) (d : Q) (l : list Event) : Prop :=
  match l with
  | [] => True
  | Sent r :: l' =>
      r = q
      /\ match l' with
         | [] => True
         | Slept d' :: l'' => d' = d /\ poll_log q d l''
         | Sent _ :: _ => False
         end
  | Slept _ :: _ => False
  end.

(** The exchange answers the status call with a record whose
    [processing_status] is [v]. *)
Definition status_answer (v : Json) (x : Exchange) : Prop :=
  exists resp d data,
    reply x = Answers resp /\ status_code resp < 400 /\ json resp = Some (JDict d)
    /\ dict_get d "data" = Some (JDict data)
    /\ dict_get data "processing_status" = Some v.

(** The status is none of the three that end the poll. *)
Definition in_progress (x : Exchange) : Prop :=
  exists v, status_answer v x
            /\ v <> JStr "completed" /\ v <> JStr "failed" /\ v <> JStr "expired".

Definition prompt (x : Exchange) : Prop := (0 <= latency x)%Q.

(** The time the polls of [script] take, each followed by a sleep of [d]. *)
Fixpoint poll_time (d : Q) (script : list Exchange) : Q :=
  match script with
  | [] => 0
  | x :: r => latency x + d + poll_time d r
  end.

(** [n] sleeps of [d] seconds. *)
Fixpoint sleeps (n : nat) (d : Q) : Q :=
  match n with
  | O => 0
  | S n' => d + sleeps n' d
  end.

(** ** A server that lets an upload through *)

(** The exchange answers the start request with a success envelope holding
    the session. *)
Definition start_answer (image_id upload_url upload_fields : Json) (x : Exchange) : Prop :=
  exists resp d data,
    reply x = Answers resp /\ status_code resp < 400 /\ json resp = Some (JDict d)
    /\ dict_get d "status" = Some (JStr "success")
    /\ dict_get d "data" = Some (JDict data)
    /\ dict_get data "image_id" = Some image_id
    /\ dict_get data "upload_url" = Some upload_url
    /\ dict_get data "upload_fields" = Some upload_fields.

(** The storage host answers, and not with a client or server error. *)
Definition store_answer (x : Exchange) : Prop :=
  exists resp, reply x = Answers resp /\ ~ (400 <= status_code resp < 600).

(** The exchange answers the complete request with a success envelope. *)
Definition complete_answer (x : Exchange) : Prop :=
  exists resp d,
    reply x = Answers resp /\ status_code resp < 400 /\ json resp = Some (JDict d)
    /\ dict_get d "status" = Some (JStr "success").

(** What [download_transformed] may raise: the authentication and quota
    errors of the transport are not among them. *)
Definition download_kinds : list Kind := [KPixbin; KRequest; KHTTP; KValue].

(** What [download_transformed] may log: the one signed request, sleeps of
    [retry_delay]. *)
Definition download_event (q : Request) (retry_delay : Q) (e : Event) : Prop :=
  e = Sent q \/ e = Slept retry_delay.

(** ** Characters of the parameter strings *)

Definition is_digit (c : ascii) : bool :=
  let n := N_of_ascii c in (48 <=? n)%N && (n <=? 57)%N.

(** A character of the decimal text of an integer. *)
Definition is_decimal_char (c : ascii) : bool := is_digit c || Ascii.eqb c "-".

(** The alphabet of the presets: digits, lowercase letters, colon, comma
    and minus. *)
Definition is_param_char (c : ascii) : bool :=
  let n := N_of_ascii c in
  is_digit c || ((97 <=? n)%N && (n <=? 122)%N)
  || Ascii.eqb c ":" || Ascii.eqb c "," || Ascii.eqb c "-".

Definition no_comma (c : ascii) : bool := negb (Ascii.eqb c ",").

(** * Properties *)

(** ** Strings *)


Lemma prefix_app (s a b : string) : prefix s a = true -> prefix s (a ++ b) = true.
Proof.
  revert a; induction s as [|c s IH]; intros a H.
  - destruct (a ++ b); reflexivity.
  - destruct a as [|c' a]; simpl in *; [discriminate|].
    destruct (ascii_dec c c'); [apply IH; exact H | discriminate].
Qed.

Lemma contains_app_r (sub a b : string) :
  Str.contains sub a = true -> Str.contains sub (a ++ b) = true.
Proof.
  induction a as [|c a IH]; simpl; intros H.
  - rewrite orb_false_r in H. destruct sub; [|discriminate].
    destruct b; reflexivity.
  - apply orb_true_iff in H. apply orb_true_iff. destruct H as [H|H].
    + left. apply (prefix_app sub (String c a) b H).
    + right. apply IH, H.
Qed.



Lemma append_nil_r (s : string) : s ++ "" = s.
Proof. induction s; simpl; congruence. Qed.


Lemma append_not_nil (p : string) (c : ascii) : p ++ String c "" <> "".
Proof. destruct p; discriminate. Qed.

Lemma rstrip_slash_spec (s : string) :
  exists n, s = Str.rstrip_slash s ++ Str.slashes n.
Proof.
  induction s as [|c s [n IH]]; [exists 0%nat; reflexivity|].
  simpl. destruct (Str.rstrip_slash s) as [|a t] eqn:E.
  - simpl in IH. destruct (Ascii.eqb_spec c "/") as [->|_].
    + exists (S n). simpl. congruence.
    + exists n. simpl. congruence.
  - exists n. simpl. f_equal. exact IH.
Qed.

Lemma rstrip_slash_no_trailing (s : string) : ~ Str.ends_with_slash (Str.rstrip_slash s).
Proof.
  unfold Str.ends_with_slash.
  induction s as [|c s IH]; intros [p Hp]; simpl in Hp.
  - symmetry in Hp. exact (append_not_nil p _ Hp).
  - destruct (Str.rstrip_slash s) as [|a t] eqn:E.
    + destruct (Ascii.eqb_spec c "/") as [->|Hc].
      * symmetry in Hp. exact (append_not_nil p _ Hp).
      * destruct p as [|c' p]; simpl in Hp; inversion Hp; subst.
        -- apply Hc; reflexivity.
        -- symmetry in H1. exact (append_not_nil p _ H1).
    + destruct p as [|c' p]; simpl in Hp; inversion Hp; subst.
      apply IH. exists p. assumption.
Qed.

Lemma take_length (n : nat) (s : string) :
  (n <= String.length s)%nat -> String.length (Str.take n s) = n.
Proof.
  revert s; induction n as [|n IH]; intros s H; [reflexivity|].
  destruct s as [|c s]; simpl in *; [lia|]. rewrite IH; lia.
Qed.

Lemma take_all (p : ascii -> bool) (n : nat) (s : string) :
  Str.all p s = true -> Str.all p (Str.take n s) = true.
Proof.
  revert s; induction n as [|n IH]; intros s H; [reflexivity|].
  destruct s as [|c s]; simpl in *; [reflexivity|].
  apply andb_true_iff in H. destruct H as [H1 H2]. rewrite H1, (IH s H2). reflexivity.
Qed.

(** ** The digest *)

Lemma hex_digit_lower (x : Z) : is_lower_hex (SHA256.hex_digit x) = true.
Proof.
  unfold SHA256.hex_digit. generalize (Z.to_nat x) as n. intros n.
  do 16 (destruct n as [|n]; [reflexivity|]). destruct n; reflexivity.
Qed.

Lemma hex_length (bs : list byte) :
  String.length (SHA256.hex bs) = (2 * List.length bs)%nat.
Proof. induction bs as [|b bs IH]; simpl; [reflexivity | rewrite IH; lia]. Qed.

Lemma hex_lower (bs : list byte) : Str.all is_lower_hex (SHA256.hex bs) = true.
Proof.
  induction bs as [|b bs IH]; [reflexivity|].
  cbn [SHA256.hex Str.all]. rewrite !hex_digit_lower, IH. reflexivity.
Qed.

Lemma sha256_length (msg : list byte) : List.length (SHA256.sha256 msg) = 32%nat.
Proof. reflexivity. Qed.

Lemma hmac_length (key msg : list byte) : List.length (SHA256.hmac key msg) = 32%nat.
Proof. unfold SHA256.hmac. apply sha256_length. Qed.

(** ** The parameter builders *)

Lemma to_int_proper (n : Z) : Z.to_int n <> Decimal.Pos Decimal.Nil /\ Z.to_int n <> Decimal.Neg Decimal.Nil.
Proof.
  destruct n as [|p|p]; simpl; split; try discriminate;
    intros H; injection H as H; exact (DecimalPos.Unsigned.to_uint_nonnil p H).
Qed.

Lemma of_int_roundtrip (n : Z) :
  option_map Z.of_int (NilZero.int_of_string (Str.of_int n)) = Some n.
Proof.
  unfold Str.of_int. destruct (to_int_proper n) as [H1 H2].
  rewrite (NilZero.isi _ H1 H2). simpl. f_equal. apply DecimalZ.of_to.
Qed.

(** C9. The builders are total functions of their arguments producing the
    three templates, with the defaults 85, "center", 1920 and 85; every
    integer, negative and zero included, is rendered by its decimal text,
    from which it can be read back. *)
Theorem builders_format (width height size quality max_width : Z) (mode : string) :
  thumbnail width height (Some quality)
    = "resize:" ++ Str.of_int width ++ "x" ++ Str.of_int height
        ++ ":fit,quality:" ++ Str.of_int quality
  /\ thumbnail width height None = thumbnail width height (Some 85)
  /\ crop_square size (Some mode)
    = "crop:" ++ mode ++ ",resize:" ++ Str.of_int size ++ "x" ++ Str.of_int size ++ ":exact"
  /\ crop_square size None = crop_square size (Some "center")
  /\ optimize_web (Some max_width) (Some quality)
    = "resize:" ++ Str.of_int max_width ++ "x" ++ Str.of_int max_width
        ++ ":fit,quality:" ++ Str.of_int quality ++ ",format:webp"
  /\ optimize_web None (Some quality) = optimize_web (Some 1920) (Some quality)
  /\ optimize_web (Some max_width) None = optimize_web (Some max_width) (Some 85)
  /\ optimize_web None None = "resize:1920x1920:fit,quality:85,format:webp"
  /\ thumbnail 300 300 (Some 85) = "resize:300x300:fit,quality:85"
  /\ crop_square 200 None = "crop:center,resize:200x200:exact"
  /\ thumbnail (-300) 0 (Some (-1)) = "resize:-300x0:fit,quality:-1"
  /\ crop_square (-7) (Some "") = "crop:,resize:-7x-7:exact"
  /\ option_map Z.of_int (NilZero.int_of_string (Str.of_int width)) = Some width.
Proof.
  repeat split; try reflexivity. apply of_int_roundtrip.
Qed.

(** ** The signer *)

(** C2. The signature is the first 16 characters of the lowercase
    hexadecimal HMAC-SHA256 of "{image_id}:{params}" under the token's
    bytes: 16 characters, all of them lowercase hexadecimal digits, and the
    same for any two clients holding the same token. *)
Theorem generate_signature_hmac_prefix (self : PixbinClient.t) (image_id params : string) :
  let sig := PixbinClient._generate_signature self image_id params in
  sig = Str.take 16 (SHA256.hex (SHA256.hmac (Str.encode (PixbinClient.api_token self))
                                             (Str.encode (image_id ++ ":" ++ params))))
  /\ String.length sig = 16%nat
  /\ Str.all is_lower_hex sig = true
  /\ forall other : PixbinClient.t,
       PixbinClient.api_token other = PixbinClient.api_token self ->
       PixbinClient._generate_signature other image_id params = sig.
Proof.
  cbv zeta. unfold PixbinClient._generate_signature.
  split; [reflexivity|]. split; [|split].
  - apply take_length. rewrite hex_length, hmac_length. lia.
  - apply take_all, hex_lower.
  - intros other ->. reflexivity.
Qed.

Example round_constants :
  nth 0 SHA256.K 0 = 0x428a2f98 /\ nth 1 SHA256.K 0 = 0x71374491
  /\ nth 63 SHA256.K 0 = 0xc67178f2 /\ List.length SHA256.K = 64%nat.
Proof. repeat split. Qed.

(** The model of the digest agrees with RFC 4231's second test case. *)
Example hmac_rfc4231_case2 :
  SHA256.hex (SHA256.hmac (Str.encode "Jefe") (Str.encode "what do ya want for nothing?"))
  = "5bdcc146bf60754e6a042426089575c75a003f089d2739839dec58b964ec3843".
Proof. vm_compute. reflexivity. Qed.

Lemma generate_signature_hmac_prefix_witness :
  PixbinClient._generate_signature
    (PixbinClient.__init__ "secret-token" "http://localhost:8000/" 5)
    "img-1" "resize:300x300:fit" = "9cc046af272d5018".
Proof.
  destruct (generate_signature_hmac_prefix Sample.client "img-1" "resize:300x300:fit")
    as (_ & _ & _ & H).
  rewrite (H (PixbinClient.__init__ "secret-token" "http://localhost:8000/" 5) eq_refl).
  vm_compute. reflexivity.
Defined.

(** ** Transformation URLs *)

(** C7. Without the host the URL is the signed path alone; with it, the
    path follows the base URL the client keeps, which is the constructor's
    argument less its trailing slashes and so never ends in a slash. *)
Theorem transform_url_shape (api_token base_url : string) (timeout : Z)
    (image_id params : string) :
  let self := PixbinClient.__init__ api_token base_url timeout in
  let path := "/api/v1/image/" ++ PixbinClient._generate_signature self image_id params
              ++ "/" ++ params ++ "/" ++ image_id in
  PixbinClient.transform_url self image_id params false = path
  /\ prefix "/api/v1/image/" (PixbinClient.transform_url self image_id params false) = true
  /\ PixbinClient.transform_url self image_id params true = PixbinClient.base_url self ++ path
  /\ (exists n, base_url = PixbinClient.base_url self ++ Str.slashes n)
  /\ ~ Str.ends_with_slash (PixbinClient.base_url self).
Proof.
  cbv zeta. unfold PixbinClient.transform_url. cbn [PixbinClient.base_url PixbinClient.__init__].
  split; [reflexivity|]. split; [|split; [reflexivity|split]].
  - apply (prefix_app "/api/v1/image/" "/api/v1/image/"). reflexivity.
  - apply rstrip_slash_spec.
  - apply rstrip_slash_no_trailing.
Qed.

Lemma transform_url_shape_witness :
  PixbinClient.transform_url Sample.client "img-1" "resize:300x300:fit" true
  = "https://pixbin.net/api/v1/image/9cc046af272d5018/resize:300x300:fit/img-1".
Proof.
  destruct (transform_url_shape "secret-token" "https://pixbin.net/" 30
              "img-1" "resize:300x300:fit") as (_ & _ & H & _).
  unfold Sample.client. rewrite H. vm_compute. reflexivity.
Defined.

(** ** The transport's error mapping *)

Lemma run_bind {A B} (c : M A) (k : A -> M B) (w : World) :
  bind c k w = match c w with
               | (Ok a, w') => k a w'
               | (Raise e, w') => (Raise e, w')
               end.
Proof. reflexivity. Qed.

Lemma send_answers (r : Request) (w : World) (x : Exchange) (rest : list Exchange)
    (resp : Response) :
  pending w = x :: rest -> reply x = Answers resp ->
  send r w = (Ok resp, {| clock := clock w + latency x; fs := fs w; pending := rest;
                          log := (log w ++ [Sent r])%list |}).
Proof. intros Hp Hr. unfold send, record. simpl. rewrite Hp, Hr. reflexivity. Qed.

Lemma handle_errors_pure (rt : Runtime) (response : Response) :
  exists r, forall w, PixbinClient._handle_errors rt response w = (r, w).
Proof.
  unfold PixbinClient._handle_errors.
  repeat match goal with |- context [if ?b then _ else _] => destruct b end;
    eexists; intros w; reflexivity.
Qed.


(** ** The polling phase *)

Lemma is_str_spec (v : Json) (s : string) : reflect (v = JStr s) (is_str v s).
Proof.
  destruct v; simpl; try (constructor; discriminate).
  destruct (String.eqb_spec s0 s); constructor; congruence.
Qed.

Lemma Qlt_bool_spec (x y : Q) : reflect (x < y)%Q (Qlt_bool x y).
Proof.
  unfold Qlt_bool. destruct (Qle_bool y x) eqn:E; constructor.
  - apply Qle_bool_iff in E. apply Qle_not_lt, E.
  - apply Qnot_le_lt. intros H. apply Qle_bool_iff in H. congruence.
Qed.

Lemma send_pending (r : Request) (w w' : World) (resp : Response) :
  send r w = (Ok resp, w') -> S (List.length (pending w')) = List.length (pending w).
Proof.
  unfold send, record. simpl. destruct (pending w) as [|x rest]; [discriminate|].
  destruct (reply x); intros H; inversion H; reflexivity.
Qed.

Lemma get_status_pending (rt : Runtime) (self : PixbinClient.t) (image_id data : Json)
    (w w' : World) :
  PixbinClient.get_status rt self image_id w = (Ok data, w') ->
  S (List.length (pending w')) = List.length (pending w).
Proof.
  unfold PixbinClient.get_status, PixbinClient._get. rewrite !run_bind.
  destruct (send _ w) as [[resp|e] w1] eqn:Hs; [|discriminate].
  apply send_pending in Hs. rewrite !run_bind.
  destruct (handle_errors_pure rt resp) as [r Hr]. rewrite Hr.
  destruct r; [|discriminate]. unfold ret, response_json.
  destruct (json resp) as [j|]; [|discriminate].
  unfold ret, py_get. destruct j; intros H; inversion H; subst; exact Hs.
Qed.

Lemma time_sleep_pending (d : Q) (w w' : World) (r : Result unit) :
  time_sleep d w = (r, w') -> pending w' = pending w.
Proof.
  unfold time_sleep. destruct (Qle_bool 0 d); intros H; inversion H; reflexivity.
Qed.

(** With more fuel than pending exchanges the loop finishes, and it runs as
    the specification says. *)
Lemma wait_loop_polling (rt : Runtime) (self : PixbinClient.t) (image_id : Json)
    (poll_interval : Q) (max_wait : Z) (start_time : Q) (fuel : nat) :
  forall w, (List.length (pending w) < fuel)%nat ->
  exists r w',
    PixbinClient.wait_loop rt self fuel image_id poll_interval max_wait start_time w
    = Some (r, w')
    /\ Polling rt self image_id poll_interval max_wait start_time w r w'.
Proof.
  induction fuel as [|fuel IH]; intros w Hfuel; [lia|].
  cbn [PixbinClient.wait_loop].
  destruct (Qlt_bool_spec (clock w - start_time) (inject_Z max_wait)) as [Hlt|Hge].
  2:{ eexists _, _. split; [reflexivity|]. apply Polling_timeout. apply Qnot_lt_le, Hge. }
  unfold PixbinClient.poll_once. rewrite run_bind.
  destruct (PixbinClient.get_status rt self image_id w) as [[data|e] w1] eqn:Hst.
  2:{ eexists _, _. split; [reflexivity|]. eapply Polling_status_raises; eassumption. }
  rewrite run_bind. unfold py_get.
  destruct (processing_status_of data) as [v|] eqn:Hv.
  2:{ destruct data; try discriminate; eexists _, _; (split; [reflexivity|]);
      eapply Polling_no_record; eassumption. }
  destruct data; try discriminate. unfold ret at 1. cbv beta iota.
  simpl in Hv. injection Hv as Hv. rewrite Hv.
  destruct (is_str_spec v "completed") as [->|Hc].
  { eexists _, _. split; [reflexivity|]. eapply Polling_completed; try eassumption.
    simpl. rewrite Hv. reflexivity. }
  destruct (is_str_spec v "failed") as [->|Hf].
  { eexists _, _. split; [reflexivity|].
    eapply (Polling_failed _ _ _ _ _ _ _ _ _ "failed"); try eassumption.
    - simpl. rewrite Hv. reflexivity.
    - left; reflexivity. }
  destruct (is_str_spec v "expired") as [->|He].
  { eexists _, _. split; [reflexivity|].
    eapply (Polling_failed _ _ _ _ _ _ _ _ _ "expired"); try eassumption.
    - simpl. rewrite Hv. reflexivity.
    - right; reflexivity. }
  cbn [orb]. rewrite run_bind.
  destruct (time_sleep poll_interval w1) as [[[]|e] w2] eqn:Hsl.
  - unfold ret.
    destruct (IH w2) as (r & w3 & Hloop & Hpoll).
    { rewrite (time_sleep_pending _ _ _ _ Hsl).
      pose proof (get_status_pending _ _ _ _ _ _ Hst). lia. }
    exists r, w3. split; [exact Hloop|].
    eapply Polling_again; try eassumption. simpl. rewrite Hv. reflexivity.
  - eexists _, _. split; [reflexivity|].
    eapply Polling_sleep_raises; try eassumption. simpl. rewrite Hv. reflexivity.
Qed.

Lemma wait_for_completion_polling (rt : Runtime) (self : PixbinClient.t) (image_id : Json)
    (poll_interval : Q) (max_wait : Z) (w : World) :
  exists r w',
    PixbinClient._wait_for_completion rt self image_id poll_interval max_wait w = (r, w')
    /\ Polling rt self image_id poll_interval max_wait (clock w) w r w'.
Proof.
  unfold PixbinClient._wait_for_completion, bind, time_time.
  destruct (wait_loop_polling rt self image_id poll_interval max_wait (clock w)
              (S (List.length (pending w))) w (Nat.lt_succ_diag_r _)) as (r & w' & -> & H).
  exists r, w'. split; [reflexivity | exact H].
Qed.

(** The rules of [Polling] leave no choice: a run has one outcome. *)
Lemma Polling_deterministic (rt : Runtime) (self : PixbinClient.t) (image_id : Json)
    (poll_interval : Q) (max_wait : Z) (start_time : Q) (w : World)
    (r1 r2 : Result unit) (w1 w2 : World) :
  Polling rt self image_id poll_interval max_wait start_time w r1 w1 ->
  Polling rt self image_id poll_interval max_wait start_time w r2 w2 ->
  r1 = r2 /\ w1 = w2.
Proof.
  intros Hrun1. revert r2 w2.
  induction Hrun1; intros r2 w2 Hrun2; inversion Hrun2; subst;
    repeat match goal with
    | Hle : (?a <= ?b)%Q, Hlt : (?b < ?a)%Q |- _ =>
        exfalso; exact (Qle_not_lt _ _ Hle Hlt)
    | Ha : ?f = (?x, ?y), Hb : ?f = (?x', ?y') |- _ =>
        rewrite Ha in Hb; inversion Hb; subst; clear Hb
    | Ha : processing_status_of ?d = _, Hb : processing_status_of ?d = _ |- _ =>
        rewrite Ha in Hb; inversion Hb; subst; clear Hb
    end;
    try (split; reflexivity); try congruence;
    try (repeat match goal with H : _ \/ _ |- _ => destruct H; subst end; congruence).
  apply IHHrun1. assumption.
Qed.

(** C1. Once the upload is completed: with [max_wait <= 0] the image id is
    returned at once, in the very world the complete phase left; with
    [max_wait > 0] the call ends as the polling phase does, success turning
    into the image id. The timeout and failure messages name what the
    specification says they name. *)
Theorem upload_file_polling (rt : Runtime) (self : PixbinClient.t) (file_path : Source)
    (caption : string) (private : bool) (retention_hours : Z) (poll_interval : Q)
    (max_wait : Z) (w : World) (image_id : Json) (w1 : World) :
  PixbinClient.upload_phases rt self file_path caption private retention_hours w
  = (Ok image_id, w1) ->
  (max_wait <= 0 ->
   PixbinClient.upload_file rt self file_path caption private retention_hours
     poll_interval max_wait w = (Ok image_id, w1))
  /\ (0 < max_wait ->
      exists r w2,
        Polling rt self image_id poll_interval max_wait (clock w1) w1 r w2
        /\ (forall r' w', Polling rt self image_id poll_interval max_wait (clock w1) w1 r' w' ->
            r' = r /\ w' = w2)
        /\ PixbinClient.upload_file rt self file_path caption private retention_hours
             poll_interval max_wait w
           = (match r with Ok _ => Ok image_id | Raise e => Raise e end, w2))
  /\ Str.contains "timeout" ("Processing timeout after " ++ Str.of_int max_wait ++ "s") = true
  /\ Str.contains "failed" ("Processing failed: " ++ "failed") = true
  /\ Str.contains "expired" ("Processing failed: " ++ "expired") = true.
Proof.
  intros Hphases. unfold PixbinClient.upload_file, PixbinClient.poll_for_completion.
  rewrite run_bind, Hphases, run_bind.
  split; [|split; [|split; [|split]]]; try reflexivity.
  - intros Hle. destruct (Z.gtb_spec max_wait 0) as [Hgt|_]; [lia|]. reflexivity.
  - intros Hlt. destruct (Z.gtb_spec max_wait 0) as [_|Hle]; [|lia].
    destruct (wait_for_completion_polling rt self image_id poll_interval max_wait w1)
      as (r & w2 & Hrun & Hpoll).
    exists r, w2. split; [exact Hpoll|]. split.
    + intros r' w' H'.
      exact (Polling_deterministic _ _ _ _ _ _ _ _ _ _ _ H' Hpoll).
    + rewrite Hrun. destruct r; reflexivity.
Qed.

Lemma upload_file_polling_witness :
  let w := Sample.world [Sample.start_ok; Sample.store 204; Sample.complete_ok;
                         Sample.status "pending"; Sample.status "completed"] in
  let w1 := snd (PixbinClient.upload_phases Sample.rt Sample.client Sample.photo "c" false (-1)
                   w) in
  exists r w2,
    Polling Sample.rt Sample.client (JStr "img-1") (1 # 100) 60 (clock w1) w1 r w2
    /\ (forall r' w', Polling Sample.rt Sample.client (JStr "img-1") (1 # 100) 60 (clock w1)
                        w1 r' w' -> r' = r /\ w' = w2)
    /\ PixbinClient.upload_file Sample.rt Sample.client Sample.photo "c" false (-1)
         (1 # 100) 60 w
       = (match r with Ok _ => Ok (JStr "img-1") | Raise e => Raise e end, w2).
Proof.
  intros w w1.
  refine (proj1 (proj2 (upload_file_polling Sample.rt Sample.client Sample.photo "c" false (-1)
                          (1 # 100) 60 w (JStr "img-1") w1 _)) _).
  - vm_compute. reflexivity.
  - reflexivity.
Defined.

(** The three ways the poll ends, on sample servers. *)
Example upload_polls_until_completed :
  fst (PixbinClient.upload_file Sample.rt Sample.client Sample.photo "" false (-1) (1 # 100) 60
         (Sample.world [Sample.start_ok; Sample.store 200; Sample.complete_ok;
                        Sample.status "pending"; Sample.status "processing";
                        Sample.status "completed"; Sample.status "failed"]))
  = Ok (JStr "img-1").
Proof. vm_compute. reflexivity. Qed.

Example upload_poll_failed :
  fst (PixbinClient.upload_file Sample.rt Sample.client Sample.photo "" false (-1) (1 # 100) 60
         (Sample.world [Sample.start_ok; Sample.store 200; Sample.complete_ok;
                        Sample.status "pending"; Sample.status "failed"]))
  = Raise (PixbinUploadError "Processing failed: failed").
Proof. vm_compute. reflexivity. Qed.

Example upload_poll_timeout :
  fst (PixbinClient.upload_file Sample.rt Sample.client Sample.photo "" false (-1) 1 2
         (Sample.world [Sample.start_ok; Sample.store 200; Sample.complete_ok;
                        Sample.status "pending"; Sample.status "pending";
                        Sample.status "pending"]))
  = Raise (PixbinUploadError "Processing timeout after 2s").
Proof. vm_compute. reflexivity. Qed.


(** ** Downloading a transformed variant *)

Lemma requests_sent_app (a b : list Event) :
  requests_sent (a ++ b) = (requests_sent a + requests_sent b)%nat.
Proof. induction a as [|[]]; simpl; congruence. Qed.

Lemma send_log (r : Request) (w : World) :
  log (snd (send r w)) = (log w ++ [Sent r])%list.
Proof.
  unfold send, record. simpl. destruct (pending w) as [|x rest]; [reflexivity|].
  destruct (reply x); reflexivity.
Qed.

Lemma time_sleep_requests (d : Q) (w : World) :
  requests_sent (log (snd (time_sleep d w))) = requests_sent (log w).
Proof.
  unfold time_sleep. destruct (Qle_bool 0 d); simpl; [|reflexivity].
  rewrite requests_sent_app. simpl. lia.
Qed.

Lemma raise_for_status_pure (resp : Response) :
  exists r, forall w, raise_for_status resp w = (r, w).
Proof.
  unfold raise_for_status.
  repeat match goal with |- context [if ?b then _ else _] => destruct b end;
    eexists; intros w; reflexivity.
Qed.

(** No round of the loop sends more than one request. *)
Lemma download_loop_requests (self : PixbinClient.t) (url : string) (max_retries : Z)
    (retry_delay : Q) (remaining : nat) :
  forall attempt w,
    (requests_sent (log (snd (PixbinClient.download_loop self remaining attempt url
                                max_retries retry_delay w)))
     <= requests_sent (log w) + remaining)%nat.
Proof.
  induction remaining as [|n IH]; intros attempt w; [simpl; lia|].
  cbn [PixbinClient.download_loop]. rewrite run_bind.
  pose proof (send_log (download_request self url) w) as Hlog.
  unfold download_request in Hlog.
  destruct (send _ w) as [[resp|e] w1]; simpl in Hlog.
  2:{ simpl. rewrite Hlog, requests_sent_app. simpl. lia. }
  assert (Hw1 : requests_sent (log w1) = S (requests_sent (log w)))
    by (rewrite Hlog, requests_sent_app; simpl; lia).
  destruct (status_code resp =? 200); [simpl; lia|].
  destruct (status_code resp =? 202).
  - destruct (attempt <? max_retries - 1); [|simpl; lia].
    rewrite run_bind. pose proof (time_sleep_requests retry_delay w1) as Hsl.
    destruct (time_sleep retry_delay w1) as [[[]|e] w2]; simpl in Hsl.
    + specialize (IH (attempt + 1) w2). lia.
    + simpl. lia.
  - rewrite run_bind. destruct (raise_for_status_pure resp) as [r Hr]. rewrite Hr.
    destruct r as [[]|e]; [|simpl; lia].
    specialize (IH (attempt + 1) w1). lia.
Qed.

Lemma time_sleep_ok (d : Q) (w : World) : (0 <= d)%Q -> time_sleep d w = (Ok tt, slept d w).
Proof.
  intros H. unfold time_sleep. apply Qle_bool_iff in H. rewrite H. reflexivity.
Qed.

(** When every remaining round is answered 202, the last one raises the
    timeout, one request a round. *)
Lemma download_loop_all_202 (self : PixbinClient.t) (url : string) (max_retries : Z)
    (retry_delay : Q) (Hdelay : (0 <= retry_delay)%Q) (script : list Exchange) :
  forall attempt w rest,
    script <> [] ->
    Z.of_nat (List.length script) + attempt = max_retries ->
    pending w = (script ++ rest)%list ->
    Forall (answers_with 202) script ->
    let run := PixbinClient.download_loop self (List.length script) attempt url max_retries
                 retry_delay w in
    fst run = Raise variant_timeout
    /\ requests_sent (log (snd run)) = (requests_sent (log w) + List.length script)%nat.
Proof.
  induction script as [|x script IH]; intros attempt w rest Hne Hsum Hpend Hall;
    [congruence|].
  apply Forall_cons_iff in Hall. destruct Hall as [(resp & Hreply & Hcode) Hall'].
  cbv zeta. cbn [List.length PixbinClient.download_loop]. rewrite run_bind.
  rewrite (send_answers _ w x (script ++ rest)%list resp Hpend Hreply).
  rewrite Hcode. cbn [Z.eqb Pos.eqb]. cbv beta iota.
  destruct (Z.ltb_spec attempt (max_retries - 1)) as [Hlt|Hge].
  - rewrite run_bind, (time_sleep_ok _ _ Hdelay).
    assert (Hne' : script <> [])
      by (destruct script; [cbn [List.length] in Hsum; lia | discriminate]).
    destruct (IH (attempt + 1) (slept retry_delay
                (answered (download_request self url) x (script ++ rest)%list w)) rest Hne')
      as [Hr Hn]; [cbn [List.length] in Hsum; lia | reflexivity | exact Hall' |].
    split; [exact Hr|]. cbv zeta in Hn. unfold download_request, answered in Hn.
    rewrite Hn. simpl. rewrite !requests_sent_app. simpl. lia.
  - destruct script; [|cbn [List.length] in Hsum; lia].
    split; [reflexivity|]. simpl. rewrite requests_sent_app. simpl. lia.
Qed.

(** C4, as the code has it. A round answered 200 returns the body; a round
    answered 202 sleeps [retry_delay] (not negative) and goes round again
    unless it was the last, which raises the timeout; a round answered with
    a client or server error status, 400 to 599, raises at once; after any
    other answer the loop goes round again without a sleep, and it raises
    when no round is left. No call sends more than [max_retries] requests,
    and a server answering 202 throughout gets exactly that many before the
    timeout. *)
Theorem download_transformed_retry (self : PixbinClient.t) (image_id params : string)
    (max_retries : Z) (retry_delay : Q) :
  let url := PixbinClient.transform_url self image_id params true in
  (forall remaining attempt w x rest resp,
     pending w = x :: rest -> reply x = Answers resp ->
     let w1 := answered (download_request self url) x rest w in
     let run := PixbinClient.download_loop self (S remaining) attempt url max_retries
                  retry_delay w in
     (status_code resp = 200 -> run = (Ok (content resp), w1))
     /\ (status_code resp = 202 -> attempt < max_retries - 1 -> (0 <= retry_delay)%Q ->
         run = PixbinClient.download_loop self remaining (attempt + 1) url max_retries
                 retry_delay (slept retry_delay w1))
     /\ (status_code resp = 202 -> max_retries - 1 <= attempt ->
         run = (Raise variant_timeout, w1))
     /\ (400 <= status_code resp < 600 -> exists msg, run = (Raise (HTTPError msg), w1))
     /\ (status_code resp <> 200 -> status_code resp <> 202 ->
         ~ (400 <= status_code resp < 600) ->
         run = PixbinClient.download_loop self remaining (attempt + 1) url max_retries
                 retry_delay w1))
  /\ (forall attempt w,
        PixbinClient.download_loop self 0 attempt url max_retries retry_delay w
        = (Raise (PixbinError "Failed to download transformed image"), w))
  /\ (forall w,
        (requests_sent (log (snd (PixbinClient.download_transformed self image_id params
                                    max_retries retry_delay w)))
         <= requests_sent (log w) + Z.to_nat max_retries)%nat)
  /\ (forall w script rest,
        0 < max_retries -> (0 <= retry_delay)%Q ->
        pending w = (script ++ rest)%list -> List.length script = Z.to_nat max_retries ->
        Forall (answers_with 202) script ->
        let run := PixbinClient.download_transformed self image_id params max_retries
                     retry_delay w in
        fst run = Raise variant_timeout
        /\ requests_sent (log (snd run)) = (requests_sent (log w) + Z.to_nat max_retries)%nat)
  /\ match variant_timeout with
     | PixbinError msg => Str.contains "timeout" msg = true
     | _ => False
     end.
Proof.
  cbv zeta. split; [|split; [reflexivity|split; [|split]]].
  - intros remaining attempt w x rest resp Hpend Hreply.
    cbn [PixbinClient.download_loop]. rewrite run_bind.
    rewrite (send_answers _ w x rest resp Hpend Hreply).
    fold (download_request self (PixbinClient.transform_url self image_id params true)).
    fold (answered (download_request self (PixbinClient.transform_url self image_id params true))
            x rest w).
    split; [|split; [|split; [|split]]].
    + intros ->. reflexivity.
    + intros -> Hlt Hdelay. cbn [Z.eqb Pos.eqb]. cbv beta iota.
      destruct (Z.ltb_spec attempt (max_retries - 1)); [|lia].
      rewrite run_bind, (time_sleep_ok _ _ Hdelay). reflexivity.
    + intros -> Hge. cbn [Z.eqb Pos.eqb]. cbv beta iota.
      destruct (Z.ltb_spec attempt (max_retries - 1)); [lia|]. reflexivity.
    + intros [Hlo Hhi].
      destruct (Z.eqb_spec (status_code resp) 200); [lia|].
      destruct (Z.eqb_spec (status_code resp) 202); [lia|].
      rewrite run_bind. unfold raise_for_status.
      destruct (Z.leb_spec 400 (status_code resp)); [|lia].
      destruct (Z.ltb_spec (status_code resp) 500); cbn [andb].
      * eexists. reflexivity.
      * destruct (Z.leb_spec 500 (status_code resp)); [|lia].
        destruct (Z.ltb_spec (status_code resp) 600); [|lia]. eexists. reflexivity.
    + intros H200 H202 Hother.
      destruct (Z.eqb_spec (status_code resp) 200); [contradiction|].
      destruct (Z.eqb_spec (status_code resp) 202); [contradiction|].
      rewrite run_bind. unfold raise_for_status.
      destruct (Z.leb_spec 400 (status_code resp));
        destruct (Z.ltb_spec (status_code resp) 500);
        destruct (Z.leb_spec 500 (status_code resp));
        destruct (Z.ltb_spec (status_code resp) 600); cbn [andb];
        first [reflexivity | exfalso; apply Hother; lia | lia].
  - intros w. unfold PixbinClient.download_transformed. apply download_loop_requests.
  - intros w script rest Hpos Hdelay Hpend Hlen Hall.
    unfold PixbinClient.download_transformed. cbv zeta. rewrite <- Hlen.
    apply (download_loop_all_202 self _ max_retries retry_delay Hdelay script 0 w rest);
      try assumption.
    + destruct script; [simpl in Hlen; lia | discriminate].
    + lia.
  - reflexivity.
Qed.

Lemma download_transformed_retry_witness :
  fst (PixbinClient.download_transformed Sample.client "img-1" "p" 3 2
         (Sample.world [Sample.store 202; Sample.store 202; Sample.store 202]))
  = Raise variant_timeout.
Proof.
  destruct (download_transformed_retry Sample.client "img-1" "p" 3 2) as (_ & _ & _ & H & _).
  destruct (H (Sample.world [Sample.store 202; Sample.store 202; Sample.store 202])
              [Sample.store 202; Sample.store 202; Sample.store 202] []) as [Hr _].
  - reflexivity.
  - unfold Qle. simpl. lia.
  - reflexivity.
  - reflexivity.
  - repeat constructor; eexists; split; reflexivity.
  - exact Hr.
Defined.

(** A 304 raises nothing: the loop goes to its next round, whose 200 is
    returned. *)
Lemma download_transformed_304_counterexample :
  fst (PixbinClient.download_transformed Sample.client "img-1" "p" 2 2
         (Sample.world [Sample.store 304; Sample.answers (Sample.response 200 "imgbytes" None)]))
  = Ok (Str.encode "imgbytes")
  /\ ~ other_status_raises_at_once Sample.client.
Proof.
  split; [vm_compute; reflexivity|].
  intros H.
  destruct (H "img-1" "p" 2 2%Q
              (Sample.world [Sample.store 304;
                             Sample.answers (Sample.response 200 "imgbytes" None)])
              (Sample.store 304) [Sample.answers (Sample.response 200 "imgbytes" None)]
              (Sample.response 304 "" None)) as [e He].
  - reflexivity.
  - reflexivity.
  - reflexivity.
  - simpl. lia.
  - vm_compute in He. discriminate He.
Qed.

(** ** The upload workflow *)

Lemma handle_errors_ok (rt : Runtime) (resp : Response) (w : World) :
  status_code resp < 400 -> PixbinClient._handle_errors rt resp w = (Ok tt, w).
Proof.
  intros Hlt. unfold PixbinClient._handle_errors.
  destruct (Z.eqb_spec (status_code resp) 401); [lia|].
  destruct (Z.eqb_spec (status_code resp) 413); [lia|].
  unfold Z.geb. destruct (Z.compare_spec (status_code resp) 400); try lia. reflexivity.
Qed.

Lemma send_fails (r : Request) (w : World) (x : Exchange) (rest : list Exchange)
    (msg : string) :
  pending w = x :: rest -> reply x = Fails msg ->
  send r w = (Raise (RequestException msg), answered r x rest w).
Proof. intros Hp Hr. unfold send, record, answered. simpl. rewrite Hp, Hr. reflexivity. Qed.

(** Opening the source reads the file system and nothing else. *)
Lemma open_source_world (rt : Runtime) (file_path : Source) (w w' : World)
    (r : Result (string * Z * string * list byte)) :
  PixbinClient.open_source rt file_path w = (r, w') -> w' = w.
Proof.
  destruct file_path as [p|name data]; simpl.
  - destruct (fs w (path_str p)) as [[]|]; intros H; inversion H; reflexivity.
  - destruct name; intros H; inversion H; reflexivity.
Qed.

(** How the phases chain: what [upload_phases] does once the source is
    open, the session started and the bytes stored. *)
Lemma upload_phases_run (rt : Runtime) (self : PixbinClient.t) (file_path : Source)
    (caption : string) (private : bool) (retention_hours : Z) (w : World)
    (filename : string) (file_size : Z) (content_type : string) (file_data : list byte) :
  PixbinClient.open_source rt file_path w
  = (Ok (filename, file_size, content_type, file_data), w) ->
  (forall e w1,
     PixbinClient.start_upload rt self filename file_size content_type caption private
       retention_hours w = (Raise e, w1) ->
     PixbinClient.upload_phases rt self file_path caption private retention_hours w
     = (Raise e, w1))
  /\ (forall image_id upload_url upload_fields w1,
        PixbinClient.start_upload rt self filename file_size content_type caption private
          retention_hours w = (Ok (image_id, upload_url, upload_fields), w1) ->
        (forall e w2,
           PixbinClient.upload_to_s3 rt self upload_url upload_fields filename file_data
             content_type w1 = (Raise e, w2) ->
           PixbinClient.upload_phases rt self file_path caption private retention_hours w
           = (Raise e, w2))
        /\ (forall w2,
              PixbinClient.upload_to_s3 rt self upload_url upload_fields filename file_data
                content_type w1 = (Ok tt, w2) ->
              PixbinClient.upload_phases rt self file_path caption private retention_hours w
              = match PixbinClient.complete_upload rt self image_id file_data w2 with
                | (Ok _, w3) => (Ok image_id, w3)
                | (Raise e, w3) => (Raise e, w3)
                end)).
Proof.
  intros Hopen. unfold PixbinClient.upload_phases. rewrite run_bind, Hopen.
  split.
  - intros e w1 Hstart. rewrite run_bind, Hstart. reflexivity.
  - intros image_id upload_url upload_fields w1 Hstart. rewrite run_bind, Hstart.
    split.
    + intros e w2 Hstore. rewrite run_bind, Hstore. reflexivity.
    + intros w2 Hstore. rewrite run_bind, Hstore, run_bind.
      destruct (PixbinClient.complete_upload rt self image_id file_data w2) as [[[]|e] w3];
        reflexivity.
Qed.

Lemma upload_file_raises (rt : Runtime) (self : PixbinClient.t) (file_path : Source)
    (caption : string) (private : bool) (retention_hours : Z) (poll_interval : Q)
    (max_wait : Z) (w w1 : World) (e : Exn) :
  PixbinClient.upload_phases rt self file_path caption private retention_hours w
  = (Raise e, w1) ->
  PixbinClient.upload_file rt self file_path caption private retention_hours poll_interval
    max_wait w = (Raise e, w1).
Proof. intros H. unfold PixbinClient.upload_file. rewrite run_bind, H. reflexivity. Qed.

(** What [requests.post] does, by what [requests] makes of its URL and of
    its form fields. *)
Lemma requests_post_invalid (rt : Runtime) (url data : Json)
    (files : list (string * (string * list byte * string))) (timeout : Z) (w : World)
    (msg : string) :
  check_url rt (py_str rt url) = UrlInvalid msg ->
  requests_post rt url data files timeout w = (Raise (RequestException msg), w).
Proof. intros Hurl. unfold requests_post. rewrite Hurl. reflexivity. Qed.

Lemma requests_post_unencodable (rt : Runtime) (url data : Json)
    (files : list (string * (string * list byte * string))) (timeout : Z) (w : World)
    (e : Exn) :
  (forall msg, check_url rt (py_str rt url) <> UrlInvalid msg) ->
  encode_fields rt data = Some e ->
  requests_post rt url data files timeout w = (Raise e, w).
Proof.
  intros Hurl Hdata. unfold requests_post. rewrite Hdata.
  destruct (check_url rt (py_str rt url)) as [|msg|msg]; try reflexivity.
  exfalso. exact (Hurl msg eq_refl).
Qed.

Lemma requests_post_no_adapter (rt : Runtime) (url data : Json)
    (files : list (string * (string * list byte * string))) (timeout : Z) (w : World)
    (msg : string) :
  check_url rt (py_str rt url) = UrlNoAdapter msg -> encode_fields rt data = None ->
  requests_post rt url data files timeout w = (Raise (RequestException msg), w).
Proof. intros Hurl Hdata. unfold requests_post. rewrite Hurl, Hdata. reflexivity. Qed.

Lemma requests_post_sends (rt : Runtime) (url data : Json)
    (files : list (string * (string * list byte * string))) (timeout : Z) :
  postable rt url data ->
  requests_post rt url data files timeout
  = send {| method := POST; target := url; headers := []; body := MultipartBody data files;
            req_timeout := timeout |}.
Proof. intros [Hurl Hdata]. unfold requests_post. rewrite Hurl, Hdata. reflexivity. Qed.

(** The encoding of form fields raises no error of [requests]. *)
Lemma encode_fields_kind (rt : Runtime) (data : Json) (e : Exn) :
  encode_fields rt data = Some e -> In (kind_of e) [KValue; KType; KAttribute].
Proof.
  unfold encode_fields. destruct (negb (py_truth data)); [discriminate|].
  destruct data as [|b|n|r|s|l|d]; try discriminate;
    try (intros H; injection H as <-; simpl; auto).
  destruct (encode_pairs rt l) as [[msg| |]|]; simpl; try discriminate;
    intros H; injection H as <-; simpl; auto.
Qed.

(** C6, as the code has it. The bytes go to [upload_url] in a multipart
    POST without the session's headers. A URL that [requests] refuses is
    the upload error "S3 upload failed" with nothing sent; form fields that
    it cannot encode, a str among them, are its own [ValueError],
    [TypeError] or [AttributeError], uncaught, with nothing sent. Once the
    request goes out, a client or server error status, 400 to 599, and a
    failure of the transport are the upload error "S3 upload failed";
    after any other answer the workflow goes on to the complete phase,
    which decides the outcome of the phases. *)
Theorem upload_to_s3_outcome (rt : Runtime) (self : PixbinClient.t)
    (upload_url upload_fields : Json) (filename : string) (file_data : list byte)
    (content_type : string) (w : World) :
  let request := store_request self upload_url upload_fields filename file_data content_type in
  let run := PixbinClient.upload_to_s3 rt self upload_url upload_fields filename file_data
               content_type w in
  headers request = [] /\ method request = POST /\ target request = upload_url
  /\ body request = MultipartBody upload_fields [("file", (filename, file_data, content_type))]
  /\ (forall msg, check_url rt (py_str rt upload_url) = UrlInvalid msg ->
      run = (Raise (PixbinUploadError ("S3 upload failed: " ++ msg)), w))
  /\ (forall e, (forall msg, check_url rt (py_str rt upload_url) <> UrlInvalid msg) ->
      encode_fields rt upload_fields = Some e ->
      run = (Raise e, w) /\ In (kind_of e) [KValue; KType; KAttribute])
  /\ (forall s, (forall msg, check_url rt (py_str rt upload_url) <> UrlInvalid msg) ->
      upload_fields = JStr s -> s <> "" ->
      run = (Raise (ValueError "Data must not be a string."), w))
  /\ (forall msg, check_url rt (py_str rt upload_url) = UrlNoAdapter msg ->
      encode_fields rt upload_fields = None ->
      run = (Raise (PixbinUploadError ("S3 upload failed: " ++ msg)), w))
  /\ (postable rt upload_url upload_fields ->
      forall x rest, pending w = x :: rest ->
      let w1 := answered request x rest w in
      snd run = w1
      /\ (forall resp, reply x = Answers resp -> 400 <= status_code resp < 600 ->
          exists msg, fst run = Raise (PixbinUploadError ("S3 upload failed: " ++ msg)))
      /\ (forall msg, reply x = Fails msg ->
          fst run = Raise (PixbinUploadError ("S3 upload failed: " ++ msg)))
      /\ (forall resp, reply x = Answers resp -> ~ (400 <= status_code resp < 600) ->
          fst run = Ok tt)
      /\ (forall file_path caption private retention_hours w0 file_size image_id,
            PixbinClient.open_source rt file_path w0
            = (Ok (filename, file_size, content_type, file_data), w0) ->
            PixbinClient.start_upload rt self filename file_size content_type caption private
              retention_hours w0 = (Ok (image_id, upload_url, upload_fields), w) ->
            (forall e, fst run = Raise e ->
               PixbinClient.upload_phases rt self file_path caption private retention_hours w0
               = (Raise e, w1))
            /\ (fst run = Ok tt ->
                PixbinClient.upload_phases rt self file_path caption private retention_hours
                  w0
                = match PixbinClient.complete_upload rt self image_id file_data w1 with
                  | (Ok _, w3) => (Ok image_id, w3)
                  | (Raise e, w3) => (Raise e, w3)
                  end))).
Proof.
  cbv zeta.
  assert (Hunenc : forall e,
             (forall msg, check_url rt (py_str rt upload_url) <> UrlInvalid msg) ->
             encode_fields rt upload_fields = Some e ->
             PixbinClient.upload_to_s3 rt self upload_url upload_fields filename file_data
               content_type w = (Raise e, w)).
  { intros e Hurl Hdata. pose proof (encode_fields_kind rt upload_fields e Hdata) as Hkind.
    unfold PixbinClient.upload_to_s3, try_RequestException. cbv zeta.
    rewrite run_bind, (requests_post_unencodable _ _ _ _ _ _ _ Hurl Hdata).
    destruct e; try reflexivity; simpl in Hkind; exfalso;
      repeat (destruct Hkind as [Hkind|Hkind]; [discriminate Hkind|]); exact Hkind. }
  repeat (split; [reflexivity|]).
  split; [|split; [|split; [|split]]].
  - intros msg Hurl. unfold PixbinClient.upload_to_s3, try_RequestException. cbv zeta.
    rewrite run_bind, (requests_post_invalid _ _ _ _ _ _ _ Hurl). reflexivity.
  - intros e Hurl Hdata. split; [exact (Hunenc e Hurl Hdata)|].
    exact (encode_fields_kind rt upload_fields e Hdata).
  - intros s Hurl -> Hs. apply (Hunenc _ Hurl). unfold encode_fields, py_truth.
    destruct (String.eqb_spec s ""); [contradiction | reflexivity].
  - intros msg Hurl Hdata. unfold PixbinClient.upload_to_s3, try_RequestException. cbv zeta.
    rewrite run_bind, (requests_post_no_adapter _ _ _ _ _ _ _ Hurl Hdata). reflexivity.
  - intros Hpost x rest Hpend.
    assert (Hrun :
      snd (PixbinClient.upload_to_s3 rt self upload_url upload_fields filename file_data
             content_type w)
      = answered (store_request self upload_url upload_fields filename file_data content_type)
          x rest w
      /\ (forall resp, reply x = Answers resp -> 400 <= status_code resp < 600 ->
          exists msg,
            fst (PixbinClient.upload_to_s3 rt self upload_url upload_fields filename file_data
                   content_type w)
            = Raise (PixbinUploadError ("S3 upload failed: " ++ msg)))
      /\ (forall msg, reply x = Fails msg ->
          fst (PixbinClient.upload_to_s3 rt self upload_url upload_fields filename file_data
                 content_type w)
          = Raise (PixbinUploadError ("S3 upload failed: " ++ msg)))
      /\ (forall resp, reply x = Answers resp -> ~ (400 <= status_code resp < 600) ->
          fst (PixbinClient.upload_to_s3 rt self upload_url upload_fields filename file_data
                 content_type w) = Ok tt)).
    { unfold PixbinClient.upload_to_s3, try_RequestException. cbv zeta.
      rewrite (requests_post_sends _ _ _ _ _ Hpost), run_bind.
      fold (store_request self upload_url upload_fields filename file_data content_type).
      destruct (reply x) as [resp|msg] eqn:Hreply.
      - rewrite (send_answers _ w x rest resp Hpend Hreply).
        fold (answered (store_request self upload_url upload_fields filename file_data
                          content_type) x rest w).
        unfold raise_for_status.
        destruct (Z.leb_spec 400 (status_code resp));
          destruct (Z.ltb_spec (status_code resp) 500);
          destruct (Z.leb_spec 500 (status_code resp));
          destruct (Z.ltb_spec (status_code resp) 600); cbn [andb]; try lia;
          (split; [reflexivity|]); (split; [|split]);
          try (intros msg' Hm; discriminate Hm);
          try (intros resp' Hr Hs; injection Hr as <-; try lia;
               try (eexists; reflexivity); try reflexivity;
               exfalso; apply Hs; lia).
      - rewrite (send_fails _ w x rest msg Hpend Hreply).
        split; [reflexivity|]. split; [|split].
        + intros resp Hr. discriminate Hr.
        + intros msg' Hm. injection Hm as <-. reflexivity.
        + intros resp Hr. discriminate Hr. }
    destruct Hrun as (Hw1 & H45 & Hfail & Hok).
    repeat (split; [assumption|]).
    intros file_path caption private retention_hours w0 file_size image_id Hopen Hstart.
    destruct (upload_phases_run rt self file_path caption private retention_hours w0
                filename file_size content_type file_data Hopen) as [_ Hrest].
    destruct (Hrest image_id upload_url upload_fields w Hstart) as [Hraise Hgo].
    destruct (PixbinClient.upload_to_s3 rt self upload_url upload_fields filename file_data
                content_type w) as [r w2] eqn:Hs3.
    simpl in Hw1. subst w2. split.
    + intros e He. simpl in He. subst r. apply Hraise. reflexivity.
    + intros He. simpl in He. subst r. apply Hgo. reflexivity.
Qed.

Lemma upload_to_s3_outcome_witness :
  exists msg,
    fst (PixbinClient.upload_to_s3 Sample.rt Sample.client (JStr "https://s3.example/bucket")
           (JDict [("key", JStr "k")]) "photo.jpg" ["a"%byte] "image/jpeg"
           (Sample.world [Sample.store 403]))
    = Raise (PixbinUploadError ("S3 upload failed: " ++ msg)).
Proof.
  destruct (upload_to_s3_outcome Sample.rt Sample.client (JStr "https://s3.example/bucket")
              (JDict [("key", JStr "k")]) "photo.jpg" ["a"%byte] "image/jpeg"
              (Sample.world [Sample.store 403]))
    as (_ & _ & _ & _ & _ & _ & _ & _ & H).
  destruct (H (conj eq_refl eq_refl) (Sample.store 403) [] eq_refl) as (_ & H4 & _).
  apply (H4 (Sample.response 403 "" None) eq_refl). simpl. lia.
Defined.

(** A session whose upload_fields is a str, or whose upload_url has no
    scheme, sends nothing to the storage host. *)
Example upload_to_s3_refusals :
  PixbinClient.upload_to_s3 Sample.rt Sample.client (JStr "https://s3.example/bucket")
    (JStr "key=k") "photo.jpg" ["a"%byte] "image/jpeg" (Sample.world [Sample.store 204])
  = (Raise (ValueError "Data must not be a string."), Sample.world [Sample.store 204])
  /\ PixbinClient.upload_to_s3 Sample.rt Sample.client (JStr "s3.example/bucket")
       (JDict [("key", JStr "k")]) "photo.jpg" ["a"%byte] "image/jpeg"
       (Sample.world [Sample.store 204])
     = (Raise (PixbinUploadError
                 ("S3 upload failed: Invalid URL 's3.example/bucket': No scheme supplied. "
                  ++ "Perhaps you meant https://s3.example/bucket?")),
        Sample.world [Sample.store 204]).
Proof. split; vm_compute; reflexivity. Qed.

(** A 304 from the storage host raises nothing, and the upload succeeds. *)
Lemma upload_to_s3_304_counterexample :
  PixbinClient.upload_file Sample.rt Sample.client Sample.photo "" false (-1) 1 0
    (Sample.world [Sample.start_ok; Sample.store 304; Sample.complete_ok])
  = (Ok (JStr "img-1"),
     snd (PixbinClient.upload_phases Sample.rt Sample.client Sample.photo "" false (-1)
            (Sample.world [Sample.start_ok; Sample.store 304; Sample.complete_ok])))
  /\ ~ non_2xx_store_is_upload_error Sample.rt Sample.client.
Proof.
  split; [vm_compute; reflexivity|].
  intros H.
  destruct (H (JStr "https://s3.example/bucket") (JDict []) "photo.jpg" ["a"%byte]
              "image/jpeg" (Sample.world [Sample.store 304]) (Sample.store 304) []
              (Sample.response 304 "" None) eq_refl eq_refl) as (msg & He & _).
  - simpl. lia.
  - vm_compute in He. discriminate He.
Qed.

(** ** The dimension probe *)

(** C8. The probe is a total function: without a decoder, or when decoding
    raises, it yields (0, 0). The payload of the complete request is the
    image id alone unless both dimensions are positive, in which case width
    and height follow it; the probe is all that happens between the store
    phase and that one request, so the phases end as the complete phase
    does. *)
Theorem dimension_probe_never_fails (rt : Runtime) (self : PixbinClient.t) (image_id : Json)
    (file_data : list byte) :
  (PILImage rt = None -> PixbinClient._extract_dimensions rt file_data = (0, 0))
  /\ (forall size_of, PILImage rt = Some size_of -> size_of file_data = None ->
      PixbinClient._extract_dimensions rt file_data = (0, 0))
  /\ (forall size_of size, PILImage rt = Some size_of -> size_of file_data = Some size ->
      PixbinClient._extract_dimensions rt file_data = size)
  /\ (forall width height,
        PixbinClient._extract_dimensions rt file_data = (width, height) ->
        (0 < width -> 0 < height ->
         PixbinClient.complete_payload rt image_id file_data
         = [("image_id", image_id); ("width", JInt width); ("height", JInt height)])
        /\ (width <= 0 \/ height <= 0 ->
            PixbinClient.complete_payload rt image_id file_data = [("image_id", image_id)]))
  /\ (forall w,
        log (snd (PixbinClient.complete_upload rt self image_id file_data w))
        = (log w ++ [Sent (complete_request self
                             (PixbinClient.complete_payload rt image_id file_data))])%list)
  /\ (forall file_path caption private retention_hours w filename file_size content_type
        upload_url upload_fields w1 w2,
        PixbinClient.open_source rt file_path w
        = (Ok (filename, file_size, content_type, file_data), w) ->
        PixbinClient.start_upload rt self filename file_size content_type caption private
          retention_hours w = (Ok (image_id, upload_url, upload_fields), w1) ->
        PixbinClient.upload_to_s3 rt self upload_url upload_fields filename file_data
          content_type w1 = (Ok tt, w2) ->
        PixbinClient.upload_phases rt self file_path caption private retention_hours w
        = match PixbinClient.complete_upload rt self image_id file_data w2 with
          | (Ok _, w3) => (Ok image_id, w3)
          | (Raise e, w3) => (Raise e, w3)
          end).
Proof.
  split; [|split; [|split; [|split; [|split]]]].
  - intros H. unfold PixbinClient._extract_dimensions, PixbinClient.HAS_PIL.
    rewrite H. reflexivity.
  - intros size_of H Hnone. unfold PixbinClient._extract_dimensions, PixbinClient.HAS_PIL.
    rewrite H, Hnone. reflexivity.
  - intros size_of size H Hsome. unfold PixbinClient._extract_dimensions, PixbinClient.HAS_PIL.
    rewrite H, Hsome. reflexivity.
  - intros width height Hdim. unfold PixbinClient.complete_payload. rewrite Hdim. split.
    + intros Hw Hh. destruct (Z.gtb_spec width 0); [|lia].
      destruct (Z.gtb_spec height 0); [|lia]. reflexivity.
    + intros Hor. destruct (Z.gtb_spec width 0); destruct (Z.gtb_spec height 0);
        try reflexivity; lia.
  - intros w. unfold PixbinClient.complete_upload, PixbinClient._post. rewrite !run_bind.
    fold (complete_request self (PixbinClient.complete_payload rt image_id file_data)).
    pose proof (send_log (complete_request self
                            (PixbinClient.complete_payload rt image_id file_data)) w) as Hlog.
    destruct (send _ w) as [[resp|e] w1]; simpl in Hlog; [|exact Hlog].
    rewrite run_bind. destruct (handle_errors_pure rt resp) as [r Hr]. rewrite Hr.
    destruct r as [[]|e]; [|exact Hlog].
    unfold ret at 1. cbv beta iota. rewrite run_bind. unfold response_json.
    destruct (json resp) as [j|]; [|exact Hlog].
    unfold ret at 1. cbv beta iota. rewrite run_bind. unfold py_get.
    destruct j; try exact Hlog. unfold ret at 1. cbv beta iota.
    destruct (negb _); exact Hlog.
  - intros file_path caption private retention_hours w filename file_size content_type
      upload_url upload_fields w1 w2 Hopen Hstart Hstore.
    destruct (upload_phases_run rt self file_path caption private retention_hours w
                filename file_size content_type file_data Hopen) as [_ Hrest].
    destruct (Hrest image_id upload_url upload_fields w1 Hstart) as [_ Hgo].
    apply Hgo, Hstore.
Qed.

Lemma dimension_probe_never_fails_witness :
  PixbinClient.complete_payload Sample.rt_no_pil (JStr "img-1") ["003"; "002"]%byte
  = [("image_id", JStr "img-1")].
Proof.
  destruct (dimension_probe_never_fails Sample.rt_no_pil Sample.client (JStr "img-1")
              ["003"; "002"]%byte) as (H1 & _ & _ & H4 & _).
  destruct (H4 0 0 (H1 eq_refl)) as [_ H]. apply H. left. lia.
Defined.

(** ** The start phase *)

Lemma post_answered (rt : Runtime) (self : PixbinClient.t) (endpoint : string)
    (payload : Json) (w : World) (x : Exchange) (rest : list Exchange) (resp : Response) :
  pending w = x :: rest -> reply x = Answers resp -> status_code resp < 400 ->
  PixbinClient._post rt self endpoint payload w
  = (Ok resp,
     answered {| method := POST; target := JStr (PixbinClient.base_url self ++ endpoint);
                 headers := PixbinClient.session_headers self; body := JsonBody payload;
                 req_timeout := PixbinClient.timeout self |} x rest w).
Proof.
  intros Hpend Hreply Hlt. unfold PixbinClient._post. cbv zeta.
  rewrite run_bind, (send_answers _ w x rest resp Hpend Hreply), run_bind.
  rewrite (handle_errors_ok rt resp _ Hlt). reflexivity.
Qed.

Ltac run_start Hpend Hreply Hlt Hjson :=
  unfold PixbinClient.start_upload;
  rewrite run_bind, (post_answered _ _ _ _ _ _ _ _ Hpend Hreply Hlt);
  unfold response_json; rewrite Hjson;
  unfold py_get, py_index; unfold bind, ret, raise; cbv beta iota.

(** C5, as the code has it. A start response that passes the error check
    and is a JSON object is the upload error "Upload start failed" exactly
    when its status is not "success". A success envelope is taken at its
    word: with [image_id], [upload_url] and [upload_fields] under [data] the
    session is open, and the first key that is missing is a [KeyError]. *)
Theorem start_response_shape (rt : Runtime) (self : PixbinClient.t) (file_path : Source)
    (caption : string) (private : bool) (retention_hours : Z) (poll_interval : Q)
    (max_wait : Z) (w : World) (filename : string) (file_size : Z) (content_type : string)
    (file_data : list byte) (x : Exchange) (rest : list Exchange) (resp : Response)
    (d : list (string * Json)) :
  PixbinClient.open_source rt file_path w
  = (Ok (filename, file_size, content_type, file_data), w) ->
  pending w = x :: rest -> reply x = Answers resp -> status_code resp < 400 ->
  json resp = Some (JDict d) ->
  let w1 := answered (start_request self filename file_size content_type caption private
                        retention_hours) x rest w in
  let run := PixbinClient.upload_file rt self file_path caption private retention_hours
               poll_interval max_wait w in
  (dict_get d "status" <> Some (JStr "success") ->
   run = (Raise (PixbinUploadError ("Upload start failed: " ++ py_str rt (JDict d))), w1))
  /\ (dict_get d "status" = Some (JStr "success") ->
      (dict_get d "data" = None -> run = (Raise (KeyError "data"), w1))
      /\ (forall data, dict_get d "data" = Some (JDict data) ->
          (dict_get data "image_id" = None -> run = (Raise (KeyError "image_id"), w1))
          /\ (dict_get data "image_id" <> None -> dict_get data "upload_url" = None ->
              run = (Raise (KeyError "upload_url"), w1))
          /\ (dict_get data "image_id" <> None -> dict_get data "upload_url" <> None ->
              dict_get data "upload_fields" = None ->
              run = (Raise (KeyError "upload_fields"), w1))
          /\ (forall image_id upload_url upload_fields,
                dict_get data "image_id" = Some image_id ->
                dict_get data "upload_url" = Some upload_url ->
                dict_get data "upload_fields" = Some upload_fields ->
                PixbinClient.start_upload rt self filename file_size content_type caption
                  private retention_hours w = (Ok (image_id, upload_url, upload_fields), w1)))).
Proof.
  intros Hopen Hpend Hreply Hlt Hjson. cbv zeta.
  destruct (upload_phases_run rt self file_path caption private retention_hours w
              filename file_size content_type file_data Hopen) as [Hraise _].
  assert (Hup : forall e,
    PixbinClient.start_upload rt self filename file_size content_type caption private
      retention_hours w
    = (Raise e, answered (start_request self filename file_size content_type caption private
                            retention_hours) x rest w) ->
    PixbinClient.upload_file rt self file_path caption private retention_hours
      poll_interval max_wait w
    = (Raise e, answered (start_request self filename file_size content_type caption private
                            retention_hours) x rest w)).
  { intros e He. apply upload_file_raises, Hraise, He. }
  split.
  - intros Hstatus. apply Hup. run_start Hpend Hreply Hlt Hjson.
    destruct (dict_get d "status") as [v|]; [|reflexivity].
    destruct (is_str_spec v "success") as [->|_]; [congruence | reflexivity].
  - intros Hstatus. split; [|intros data Hdata; split; [|split; [|split]]].
    + intros Hdata. apply Hup. run_start Hpend Hreply Hlt Hjson.
      rewrite Hstatus, Hdata. reflexivity.
    + intros Hid. apply Hup. run_start Hpend Hreply Hlt Hjson.
      rewrite Hstatus, Hdata. cbn [is_str String.eqb Ascii.eqb Bool.eqb negb].
      rewrite Hid. reflexivity.
    + intros Hid Hurl. apply Hup. run_start Hpend Hreply Hlt Hjson.
      rewrite Hstatus, Hdata. cbn [is_str String.eqb Ascii.eqb Bool.eqb negb].
      destruct (dict_get data "image_id"); [|congruence]. rewrite Hurl. reflexivity.
    + intros Hid Hurl Hfields. apply Hup. run_start Hpend Hreply Hlt Hjson.
      rewrite Hstatus, Hdata. cbn [is_str String.eqb Ascii.eqb Bool.eqb negb].
      destruct (dict_get data "image_id"); [|congruence].
      destruct (dict_get data "upload_url"); [|congruence]. rewrite Hfields. reflexivity.
    + intros image_id upload_url upload_fields Hid Hurl Hfields.
      run_start Hpend Hreply Hlt Hjson.
      rewrite Hstatus, Hdata. cbn [is_str String.eqb Ascii.eqb Bool.eqb negb].
      rewrite Hid, Hurl, Hfields. reflexivity.
Qed.

Lemma start_response_shape_witness :
  fst (PixbinClient.upload_file Sample.rt Sample.client Sample.blob "" false (-1) 1 60
         (Sample.world [Sample.json_ok (JDict [("status", JStr "error")])]))
  = Raise (PixbinUploadError "Upload start failed: {'status': 'error'}").
Proof.
  destruct (start_response_shape Sample.rt Sample.client Sample.blob "" false (-1) 1 60
              (Sample.world [Sample.json_ok (JDict [("status", JStr "error")])])
              "image.jpg" 2 "image/jpeg" ["a"; "b"]%byte
              (Sample.json_ok (JDict [("status", JStr "error")])) []
              (Sample.response 200 "" (Some (JDict [("status", JStr "error")])))
              [("status", JStr "error")]) as [H _].
  - reflexivity.
  - reflexivity.
  - reflexivity.
  - simpl. lia.
  - reflexivity.
  - rewrite H; [reflexivity | discriminate].
Defined.

(** A success envelope without [data] is a [KeyError]. *)
Lemma start_envelope_counterexample :
  fst (PixbinClient.upload_file Sample.rt Sample.client Sample.blob "" false (-1) 1 60
         (Sample.world [Sample.json_ok (JDict [("status", JStr "success")])]))
  = Raise (KeyError "data")
  /\ ~ bad_start_is_upload_error Sample.rt Sample.client.
Proof.
  split; [vm_compute; reflexivity|].
  intros H.
  destruct (H Sample.blob "" false (-1) 1%Q 60
              (Sample.world [Sample.json_ok (JDict [("status", JStr "success")])])
              (Sample.json_ok (JDict [("status", JStr "success")])) []
              (Sample.response 200 "" (Some (JDict [("status", JStr "success")])))
              (JDict [("status", JStr "success")])
              ("image.jpg", 2, "image/jpeg", ["a"; "b"]%byte))
    as [msg He].
  - reflexivity.
  - reflexivity.
  - reflexivity.
  - reflexivity.
  - intros (d & data & i & u & f & Hd & _ & Hdata & _).
    injection Hd as <-. discriminate Hdata.
  - vm_compute in He. discriminate He.
Qed.

(** ** What a computation may do to the world *)

Create HintDb effects.

Lemma pure_ret {A} (a : A) : pure (ret a).
Proof. intros w. reflexivity. Qed.

Lemma pure_raise {A} (e : Exn) : pure (@raise A e).
Proof. intros w. reflexivity. Qed.

Lemma pure_bind {A B} (c : M A) (k : A -> M B) :
  pure c -> (forall a, pure (k a)) -> pure (bind c k).
Proof.
  intros Hc Hk w. unfold bind. specialize (Hc w).
  destruct (c w) as [[a|e] w1]; simpl in Hc; subst; [apply Hk | reflexivity].
Qed.

Lemma pure_tidy {A} (c : M A) :
  pure c ->
  (forall w, match fst (c w) with Raise e => not_file_not_found e = true | Ok _ => True end) ->
  tidy c.
Proof.
  intros Hp He w. split; [|apply He]. exists []. rewrite Hp, app_nil_r. reflexivity.
Qed.

Lemma tidy_ret {A} (a : A) : tidy (ret a).
Proof. intros w. split; [exists []; simpl; rewrite app_nil_r; reflexivity | exact I]. Qed.

Lemma tidy_raise {A} (e : Exn) : not_file_not_found e = true -> tidy (@raise A e).
Proof.
  intros He w. split; [exists []; simpl; rewrite app_nil_r; reflexivity | exact He].
Qed.

Lemma tidy_bind {A B} (c : M A) (k : A -> M B) :
  tidy c -> (forall a, tidy (k a)) -> tidy (bind c k).
Proof.
  intros Hc Hk w. unfold bind. destruct (Hc w) as [[m1 Hl1] He1].
  destruct (c w) as [[a|e] w1]; simpl in *.
  - destruct (Hk a w1) as [[m2 Hl2] He2]. split; [|exact He2].
    exists (m1 ++ m2)%list. rewrite Hl2, Hl1, app_assoc. reflexivity.
  - split; [exists m1; exact Hl1 | exact He1].
Qed.

Lemma tidy_send (r : Request) : tidy (send r).
Proof.
  intros w. split; [exists [Sent r]; apply send_log|].
  unfold send, record. simpl. destruct (pending w) as [|x rest]; [reflexivity|].
  destruct (reply x); reflexivity.
Qed.

Lemma tidy_time_sleep (d : Q) : tidy (time_sleep d).
Proof.
  intros w. unfold time_sleep. destruct (Qle_bool 0 d); simpl.
  - split; [exists [Slept d]; reflexivity | exact I].
  - split; [exists []; rewrite app_nil_r; reflexivity | reflexivity].
Qed.

Lemma tidy_try {A} (c : M A) (h : string -> M A) :
  tidy c -> (forall msg, tidy (h msg)) -> tidy (try_RequestException c h).
Proof.
  intros Hc Hh w. unfold try_RequestException. destruct (Hc w) as [[m1 Hl1] He1].
  destruct (c w) as [[a|e] w1]; simpl in *.
  - split; [exists m1; exact Hl1 | exact I].
  - destruct e; simpl; try (split; [exists m1; exact Hl1 | exact He1]);
      (destruct (Hh msg w1) as [[m2 Hl2] He2]; split; [|exact He2];
       exists (m1 ++ m2)%list; rewrite Hl2, Hl1, app_assoc; reflexivity).
Qed.

Lemma pure_handle_errors (rt : Runtime) (resp : Response) :
  pure (PixbinClient._handle_errors rt resp).
Proof. intros w. destruct (handle_errors_pure rt resp) as [r Hr]. rewrite Hr. reflexivity. Qed.

Lemma tidy_handle_errors (rt : Runtime) (resp : Response) :
  tidy (PixbinClient._handle_errors rt resp).
Proof.
  apply pure_tidy; [apply pure_handle_errors|]. intros w.
  unfold PixbinClient._handle_errors.
  repeat match goal with |- context [if ?b then _ else _] => destruct b end; reflexivity.
Qed.

Lemma pure_response_json (resp : Response) : pure (response_json resp).
Proof. intros w. unfold response_json. destruct (json resp); reflexivity. Qed.

Lemma tidy_response_json (resp : Response) : tidy (response_json resp).
Proof.
  apply pure_tidy; [apply pure_response_json|]. intros w.
  unfold response_json. destruct (json resp); reflexivity.
Qed.

Lemma pure_py_get (v : Json) (k : string) (default : Json) : pure (py_get v k default).
Proof. intros w. destruct v; reflexivity. Qed.

Lemma tidy_py_get (v : Json) (k : string) (default : Json) : tidy (py_get v k default).
Proof. apply pure_tidy; [apply pure_py_get|]. intros w. destruct v; reflexivity. Qed.

Lemma pure_py_index (v : Json) (k : string) : pure (py_index v k).
Proof. intros w. destruct v; try reflexivity. simpl. destruct (dict_get d k); reflexivity. Qed.

Lemma tidy_py_index (v : Json) (k : string) : tidy (py_index v k).
Proof.
  apply pure_tidy; [apply pure_py_index|]. intros w.
  destruct v; try reflexivity. simpl. destruct (dict_get d k); reflexivity.
Qed.

Lemma tidy_raise_for_status (resp : Response) : tidy (raise_for_status resp).
Proof.
  unfold raise_for_status.
  repeat match goal with |- context [if ?b then _ else _] => destruct b end;
    first [apply tidy_ret | apply tidy_raise; reflexivity].
Qed.

#[local] Hint Resolve tidy_ret tidy_send tidy_time_sleep tidy_handle_errors
  tidy_response_json tidy_py_get tidy_py_index tidy_raise_for_status : effects.
#[local] Hint Resolve pure_ret pure_raise pure_handle_errors pure_response_json pure_py_get
  pure_py_index : effects.

(** Goes through a computation built from binds, conditionals and the
    primitives above. *)
Ltac effects :=
  repeat first
    [ apply tidy_bind; [|intros ?]
    | apply pure_bind; [|intros ?]
    | apply tidy_try; [|intros ?]
    | apply tidy_raise; reflexivity
    | solve [auto with effects]
    | match goal with
      | |- tidy (if ?b then _ else _) => destruct b
      | |- pure (if ?b then _ else _) => destruct b
      | |- tidy (let '(_, _) := ?p in _) => destruct p
      end ].

Lemma tidy_get (rt : Runtime) (self : PixbinClient.t) (endpoint : string) :
  tidy (PixbinClient._get rt self endpoint).
Proof. unfold PixbinClient._get. effects. Qed.

Lemma tidy_post (rt : Runtime) (self : PixbinClient.t) (endpoint : string) (payload : Json) :
  tidy (PixbinClient._post rt self endpoint payload).
Proof. unfold PixbinClient._post. effects. Qed.

Lemma tidy_get_status (rt : Runtime) (self : PixbinClient.t) (image_id : Json) :
  tidy (PixbinClient.get_status rt self image_id).
Proof. unfold PixbinClient.get_status. apply tidy_bind; [apply tidy_get|intros]. effects. Qed.

Lemma tidy_poll_once (rt : Runtime) (self : PixbinClient.t) (image_id : Json)
    (poll_interval : Q) :
  tidy (PixbinClient.poll_once rt self image_id poll_interval).
Proof.
  unfold PixbinClient.poll_once. apply tidy_bind; [apply tidy_get_status|intros].
  effects.
Qed.

Lemma tidy_wait_loop (rt : Runtime) (self : PixbinClient.t) (image_id : Json)
    (poll_interval : Q) (max_wait : Z) (start_time : Q) (fuel : nat) :
  forall w r w',
    PixbinClient.wait_loop rt self fuel image_id poll_interval max_wait start_time w
    = Some (r, w') ->
    (exists more, log w' = (log w ++ more)%list)
    /\ match r with
       | Raise e => not_file_not_found e = true
       | Ok _ => True
       end.
Proof.
  induction fuel as [|fuel IH]; intros w r w' Hrun; [discriminate|].
  cbn [PixbinClient.wait_loop] in Hrun.
  destruct (Qlt_bool (clock w - start_time) (inject_Z max_wait)).
  - destruct (tidy_poll_once rt self image_id poll_interval w) as [[m1 Hl1] He1].
    destruct (PixbinClient.poll_once rt self image_id poll_interval w) as [[[]|e] w1];
      simpl in Hl1, He1.
    + inversion Hrun; subst. split; [exists m1; exact Hl1 | exact I].
    + destruct (IH w1 r w' Hrun) as [[m2 Hl2] He2]. split; [|exact He2].
      exists (m1 ++ m2)%list. rewrite Hl2, Hl1, app_assoc. reflexivity.
    + inversion Hrun; subst. split; [exists m1; exact Hl1 | exact He1].
  - inversion Hrun; subst. split; [exists []; rewrite app_nil_r; reflexivity | reflexivity].
Qed.

Lemma tidy_wait_for_completion (rt : Runtime) (self : PixbinClient.t) (image_id : Json)
    (poll_interval : Q) (max_wait : Z) :
  tidy (PixbinClient._wait_for_completion rt self image_id poll_interval max_wait).
Proof.
  intros w. unfold PixbinClient._wait_for_completion, bind, time_time.
  destruct (PixbinClient.wait_loop rt self (S (List.length (pending w))) image_id
              poll_interval max_wait (clock w) w) as [[r w']|] eqn:Hrun.
  - apply tidy_wait_loop in Hrun. exact Hrun.
  - split; [exists []; simpl; rewrite app_nil_r; reflexivity | reflexivity].
Qed.

Lemma tidy_poll_for_completion (rt : Runtime) (self : PixbinClient.t) (image_id : Json)
    (poll_interval : Q) (max_wait : Z) :
  tidy (PixbinClient.poll_for_completion rt self image_id poll_interval max_wait).
Proof.
  unfold PixbinClient.poll_for_completion.
  destruct (max_wait >? 0); [apply tidy_wait_for_completion | apply tidy_ret].
Qed.

Lemma tidy_requests_post (rt : Runtime) (url data : Json)
    (files : list (string * (string * list byte * string))) (timeout : Z) :
  tidy (requests_post rt url data files timeout).
Proof.
  unfold requests_post.
  destruct (check_url rt (py_str rt url)) as [|msg|msg];
    try (apply tidy_raise; reflexivity);
    (destruct (encode_fields rt data) as [e|] eqn:Hdata;
     [|first [apply tidy_send | apply tidy_raise; reflexivity]]);
    apply tidy_raise; apply encode_fields_kind in Hdata;
    destruct e; try reflexivity; simpl in Hdata; exfalso;
    repeat (destruct Hdata as [Hdata|Hdata]; [discriminate Hdata|]); exact Hdata.
Qed.

Lemma tidy_upload_to_s3 (rt : Runtime) (self : PixbinClient.t)
    (upload_url upload_fields : Json) (filename : string) (file_data : list byte)
    (content_type : string) :
  tidy (PixbinClient.upload_to_s3 rt self upload_url upload_fields filename file_data
          content_type).
Proof.
  unfold PixbinClient.upload_to_s3. cbv zeta.
  apply tidy_try; [|intros; apply tidy_raise; reflexivity].
  apply tidy_bind; [apply tidy_requests_post | intros; apply tidy_raise_for_status].
Qed.

Lemma tidy_complete_upload (rt : Runtime) (self : PixbinClient.t) (image_id : Json)
    (file_data : list byte) :
  tidy (PixbinClient.complete_upload rt self image_id file_data).
Proof.
  unfold PixbinClient.complete_upload. apply tidy_bind; [apply tidy_post|intros]. effects.
Qed.

Lemma tidy_start_upload (rt : Runtime) (self : PixbinClient.t) (filename : string)
    (file_size : Z) (content_type caption : string) (private : bool) (retention_hours : Z) :
  tidy (PixbinClient.start_upload rt self filename file_size content_type caption private
          retention_hours).
Proof.
  unfold PixbinClient.start_upload. apply tidy_bind; [apply tidy_post|intros]. effects.
Qed.

(** After the request of the start phase nothing touches the world. *)
Lemma start_upload_world (rt : Runtime) (self : PixbinClient.t) (filename : string)
    (file_size : Z) (content_type caption : string) (private : bool) (retention_hours : Z)
    (w : World) :
  snd (PixbinClient.start_upload rt self filename file_size content_type caption private
         retention_hours w)
  = snd (send (start_request self filename file_size content_type caption private
                 retention_hours) w).
Proof.
  unfold PixbinClient.start_upload, PixbinClient._post. cbv zeta.
  fold (start_request self filename file_size content_type caption private retention_hours).
  rewrite !run_bind.
  destruct (send _ w) as [[resp|e] w1]; [|reflexivity].
  rewrite run_bind. pose proof (pure_handle_errors rt resp w1) as Hh.
  destruct (PixbinClient._handle_errors rt resp w1) as [[[]|e] w2]; simpl in Hh; subst w2;
    [|reflexivity].
  unfold ret at 1. cbv beta iota.
  match goal with |- snd (?k w1) = _ =>
    assert (Hp : pure k); [|exact (Hp w1)] end.
  effects.
Qed.

#[local] Hint Resolve tidy_requests_post tidy_start_upload tidy_upload_to_s3
  tidy_complete_upload tidy_poll_for_completion : effects.

(** ** File-like sources *)


(** The store phase either sends its one request, or is refused by
    [requests] and leaves the world as it is. *)
Lemma upload_to_s3_log (rt : Runtime) (self : PixbinClient.t)
    (upload_url upload_fields : Json) (filename : string) (file_data : list byte)
    (content_type : string) (w : World) :
  let run := PixbinClient.upload_to_s3 rt self upload_url upload_fields filename file_data
               content_type w in
  (postable rt upload_url upload_fields
   /\ log (snd run)
      = (log w ++ [Sent (store_request self upload_url upload_fields filename file_data
                           content_type)])%list)
  \/ (~ postable rt upload_url upload_fields /\ exists e, run = (Raise e, w)).
Proof.
  cbv zeta. unfold PixbinClient.upload_to_s3, try_RequestException. cbv zeta.
  rewrite run_bind. unfold postable, requests_post.
  destruct (check_url rt (py_str rt upload_url)) as [|msg|msg];
    try (right; split; [intros [H _]; discriminate H | eexists; reflexivity]);
    (destruct (encode_fields rt upload_fields) as [e|] eqn:Hdata;
     [right; split; [intros [_ H]; discriminate H|]
     |try (right; split; [intros [H _]; discriminate H | eexists; reflexivity])]).
  - apply encode_fields_kind in Hdata. exists e.
    destruct e; try reflexivity; simpl in Hdata; exfalso;
      repeat (destruct Hdata as [Hdata|Hdata]; [discriminate Hdata|]); exact Hdata.
  - left. split; [split; reflexivity|].
    fold (store_request self upload_url upload_fields filename file_data content_type).
    pose proof (send_log (store_request self upload_url upload_fields filename file_data
                            content_type) w) as Hlog.
    destruct (send _ w) as [[resp|e] w1]; simpl in Hlog.
    + destruct (raise_for_status_pure resp) as [r Hr]. rewrite Hr.
      destruct r as [[]|[]]; exact Hlog.
    + destruct e; exact Hlog.
  - apply encode_fields_kind in Hdata. exists e.
    destruct e; try reflexivity; simpl in Hdata; exfalso;
      repeat (destruct Hdata as [Hdata|Hdata]; [discriminate Hdata|]); exact Hdata.
Qed.





(** A stream without a name is sent as "image.jpg". *)
Example upload_unnamed_stream :
  hd_error (log (snd (PixbinClient.upload_file Sample.rt Sample.client Sample.blob "" false
                        (-1) 1 0 (Sample.world []))))
  = Some (Sent (start_request Sample.client "image.jpg" 2 "image/jpeg" "" false (-1))).
Proof. vm_compute. reflexivity. Qed.

(** * Further properties of the client *)

(** ** Events and exceptions of a computation *)

Lemma emits_weaken {A} (L L' : Event -> Prop) (ks ks' : list Kind) (c : M A) :
  (forall e, L e -> L' e) -> incl ks ks' -> emits L ks c -> emits L' ks' c.
Proof.
  intros HL Hk Hc w. destruct (Hc w) as [(more & Hlog & Hall) He]. split.
  - exists more. split; [exact Hlog|]. eapply Forall_impl; [exact HL | exact Hall].
  - destruct (fst (c w)); [exact I | apply Hk, He].
Qed.

Lemma emits_ret {A} (L : Event -> Prop) (ks : list Kind) (a : A) : emits L ks (ret a).
Proof.
  intros w. split; [|exact I]. exists []. simpl. rewrite app_nil_r. split; [reflexivity|].
  constructor.
Qed.

Lemma emits_raise {A} (L : Event -> Prop) (ks : list Kind) (e : Exn) :
  In (kind_of e) ks -> emits L ks (@raise A e).
Proof.
  intros He w. split; [|exact He]. exists []. simpl. rewrite app_nil_r.
  split; [reflexivity | constructor].
Qed.

Lemma emits_bind {A B} (L : Event -> Prop) (ks : list Kind) (c : M A) (k : A -> M B) :
  emits L ks c -> (forall a, emits L ks (k a)) -> emits L ks (bind c k).
Proof.
  intros Hc Hk w. unfold bind. destruct (Hc w) as [(m1 & Hl1 & Ha1) He1].
  destruct (c w) as [[a|e] w1]; simpl in *.
  - destruct (Hk a w1) as [(m2 & Hl2 & Ha2) He2]. split; [|exact He2].
    exists (m1 ++ m2)%list. rewrite Hl2, Hl1, app_assoc. split; [reflexivity|].
    apply Forall_app. split; assumption.
  - split; [|exact He1]. exists m1. split; assumption.
Qed.

Lemma emits_send (L : Event -> Prop) (ks : list Kind) (r : Request) :
  L (Sent r) -> In KRequest ks -> emits L ks (send r).
Proof.
  intros HL Hk w. split.
  - exists [Sent r]. split; [apply send_log | repeat constructor; exact HL].
  - unfold send, record. simpl. destruct (pending w) as [|x rest]; [exact Hk|].
    destruct (reply x); [exact I | exact Hk].
Qed.

Lemma emits_time_sleep (L : Event -> Prop) (ks : list Kind) (d : Q) :
  L (Slept d) -> In KValue ks -> emits L ks (time_sleep d).
Proof.
  intros HL Hk w. unfold time_sleep. destruct (Qle_bool 0 d); simpl.
  - split; [|exact I]. exists [Slept d]. split; [reflexivity | repeat constructor; exact HL].
  - split; [|exact Hk]. exists []. rewrite app_nil_r. split; [reflexivity | constructor].
Qed.

Lemma emits_pure {A} (L : Event -> Prop) (ks : list Kind) (c : M A) :
  pure c ->
  (forall w, match fst (c w) with Raise e => In (kind_of e) ks | Ok _ => True end) ->
  emits L ks c.
Proof.
  intros Hp He w. split; [|apply He]. exists []. rewrite Hp, app_nil_r.
  split; [reflexivity | constructor].
Qed.

Lemma emits_handle_errors (L : Event -> Prop) (ks : list Kind) (rt : Runtime)
    (resp : Response) :
  In KAuth ks -> In KQuota ks -> In KPixbin ks ->
  emits L ks (PixbinClient._handle_errors rt resp).
Proof.
  intros Ha Hq Hp. apply emits_pure; [apply pure_handle_errors|]. intros w.
  unfold PixbinClient._handle_errors.
  repeat match goal with |- context [if ?b then _ else _] => destruct b end;
    simpl; auto.
Qed.

Lemma emits_response_json (L : Event -> Prop) (ks : list Kind) (resp : Response) :
  In KJSONDecode ks -> emits L ks (response_json resp).
Proof.
  intros Hk. apply emits_pure; [apply pure_response_json|]. intros w.
  unfold response_json. destruct (json resp); simpl; auto.
Qed.

Lemma emits_py_get (L : Event -> Prop) (ks : list Kind) (v : Json) (k : string)
    (default : Json) :
  In KAttribute ks -> emits L ks (py_get v k default).
Proof.
  intros Hk. apply emits_pure; [apply pure_py_get|]. intros w. destruct v; simpl; auto.
Qed.

Lemma emits_py_index (L : Event -> Prop) (ks : list Kind) (v : Json) (k : string) :
  In KKey ks -> In KType ks -> emits L ks (py_index v k).
Proof.
  intros Hk Ht. apply emits_pure; [apply pure_py_index|]. intros w.
  destruct v; simpl; auto. destruct (dict_get d k); simpl; auto.
Qed.

Lemma emits_raise_for_status (L : Event -> Prop) (ks : list Kind) (resp : Response) :
  In KHTTP ks -> emits L ks (raise_for_status resp).
Proof.
  intros Hk. unfold raise_for_status.
  repeat match goal with |- context [if ?b then _ else _] => destruct b end;
    first [apply emits_ret | apply emits_raise; exact Hk].
Qed.

(** [try ... except RequestException] takes the two request classes away
    from what the body raises and puts the handler's in their place. *)
Lemma emits_try {A} (L : Event -> Prop) (ks' ks : list Kind) (c : M A) (h : string -> M A) :
  emits L ks' c -> (forall msg, emits L ks (h msg)) ->
  (forall k, In k ks' -> k <> KRequest -> k <> KHTTP -> In k ks) ->
  emits L ks (try_RequestException c h).
Proof.
  intros Hc Hh Hks w. unfold try_RequestException.
  destruct (Hc w) as [(m1 & Hl1 & Ha1) He1].
  destruct (c w) as [[a|e] w1]; simpl in *.
  - split; [|exact I]. exists m1. split; assumption.
  - destruct e; simpl in *;
      try (split; [exists m1; split; assumption | apply Hks; [exact He1 | discriminate..]]);
      (destruct (Hh msg w1) as [(m2 & Hl2 & Ha2) He2]; split; [|exact He2];
       exists (m1 ++ m2)%list; rewrite Hl2, Hl1, app_assoc; split; [reflexivity|];
       apply Forall_app; split; assumption).
Qed.

Lemma bind_pure_snd {A B} (c : M A) (k : A -> M B) (w : World) :
  (forall a, pure (k a)) -> snd (bind c k w) = snd (c w).
Proof.
  intros Hk. unfold bind. destruct (c w) as [[a|e] w1]; [apply Hk | reflexivity].
Qed.

Lemma in_transport_kinds (ks : list Kind) :
  incl transport_kinds ks -> In KRequest ks /\ In KAuth ks /\ In KQuota ks /\ In KPixbin ks.
Proof.
  intros H. repeat split; apply H; simpl; auto.
Qed.

Lemma emits_get (L : Event -> Prop) (ks : list Kind) (rt : Runtime) (self : PixbinClient.t)
    (endpoint : string) :
  L (Sent {| method := GET; target := JStr (PixbinClient.base_url self ++ endpoint);
             headers := PixbinClient.session_headers self; body := NoBody;
             req_timeout := PixbinClient.timeout self |}) ->
  incl transport_kinds ks ->
  emits L ks (PixbinClient._get rt self endpoint).
Proof.
  intros HL Hk. destruct (in_transport_kinds ks Hk) as (Hr & Ha & Hq & Hp).
  unfold PixbinClient._get. cbv zeta.
  apply emits_bind; [apply emits_send; assumption|]. intros resp.
  apply emits_bind; [apply emits_handle_errors; assumption|]. intros _. apply emits_ret.
Qed.

Lemma emits_post (L : Event -> Prop) (ks : list Kind) (rt : Runtime) (self : PixbinClient.t)
    (endpoint : string) (payload : Json) :
  L (Sent {| method := POST; target := JStr (PixbinClient.base_url self ++ endpoint);
             headers := PixbinClient.session_headers self; body := JsonBody payload;
             req_timeout := PixbinClient.timeout self |}) ->
  incl transport_kinds ks ->
  emits L ks (PixbinClient._post rt self endpoint payload).
Proof.
  intros HL Hk. destruct (in_transport_kinds ks Hk) as (Hr & Ha & Hq & Hp).
  unfold PixbinClient._post. cbv zeta.
  apply emits_bind; [apply emits_send; assumption|]. intros resp.
  apply emits_bind; [apply emits_handle_errors; assumption|]. intros _. apply emits_ret.
Qed.

Lemma get_answered (rt : Runtime) (self : PixbinClient.t) (endpoint : string)
    (w : World) (x : Exchange) (rest : list Exchange) (resp : Response) :
  pending w = x :: rest -> reply x = Answers resp -> status_code resp < 400 ->
  PixbinClient._get rt self endpoint w
  = (Ok resp,
     answered {| method := GET; target := JStr (PixbinClient.base_url self ++ endpoint);
                 headers := PixbinClient.session_headers self; body := NoBody;
                 req_timeout := PixbinClient.timeout self |} x rest w).
Proof.
  intros Hpend Hreply Hlt. unfold PixbinClient._get. cbv zeta.
  rewrite run_bind, (send_answers _ w x rest resp Hpend Hreply), run_bind.
  rewrite (handle_errors_ok rt resp _ Hlt). reflexivity.
Qed.

Lemma get_world (rt : Runtime) (self : PixbinClient.t) (endpoint : string) (w : World) :
  snd (PixbinClient._get rt self endpoint w)
  = snd (send {| method := GET; target := JStr (PixbinClient.base_url self ++ endpoint);
                 headers := PixbinClient.session_headers self; body := NoBody;
                 req_timeout := PixbinClient.timeout self |} w).
Proof.
  unfold PixbinClient._get. cbv zeta. apply bind_pure_snd. intros resp. effects.
Qed.

(** ** The status accessor *)

Lemma get_status_world (rt : Runtime) (self : PixbinClient.t) (image_id : Json) (w : World) :
  snd (PixbinClient.get_status rt self image_id w)
  = snd (send (status_request rt self image_id) w).
Proof.
  unfold PixbinClient.get_status.
  rewrite bind_pure_snd; [|intros resp; effects].
  rewrite get_world. reflexivity.
Qed.

Lemma emits_get_status (L : Event -> Prop) (ks : list Kind) (rt : Runtime)
    (self : PixbinClient.t) (image_id : Json) :
  L (Sent (status_request rt self image_id)) ->
  incl transport_kinds ks -> In KJSONDecode ks -> In KAttribute ks ->
  emits L ks (PixbinClient.get_status rt self image_id).
Proof.
  intros HL Hk Hj Ha. unfold PixbinClient.get_status.
  apply emits_bind.
  - apply emits_get; [exact HL | exact Hk].
  - intros resp. apply emits_bind; [apply emits_response_json; exact Hj|].
    intros data. apply emits_py_get; exact Ha.
Qed.

(** X1. [get_status] makes one authenticated GET of the status URL whatever
    comes back. From a response that passes the error check it returns the
    [data] member of a JSON object, the empty dict when there is none; a
    body that is not JSON is a [JSONDecodeError] and a JSON value that is
    not an object an [AttributeError]. Nothing else than these and the
    transport's errors is raised. *)
Theorem get_status_outcome (rt : Runtime) (self : PixbinClient.t) (image_id : Json)
    (w : World) :
  let run := PixbinClient.get_status rt self image_id w in
  log (snd run) = (log w ++ [Sent (status_request rt self image_id)])%list
  /\ (forall x rest resp,
        pending w = x :: rest -> reply x = Answers resp -> status_code resp < 400 ->
        (forall d, json resp = Some (JDict d) ->
           fst run = Ok (match dict_get d "data" with Some v => v | None => JDict [] end))
        /\ (json resp = None -> fst run = Raise JSONDecodeError)
        /\ (forall j, json resp = Some j -> (forall d, j <> JDict d) ->
            fst run = Raise AttributeError))
  /\ (forall e, fst run = Raise e ->
        In (kind_of e) [KRequest; KAuth; KQuota; KPixbin; KJSONDecode; KAttribute]).
Proof.
  cbv zeta. split; [|split].
  - rewrite get_status_world. apply send_log.
  - intros x rest resp Hpend Hreply Hlt.
    unfold PixbinClient.get_status.
    rewrite run_bind, (get_answered rt self _ w x rest resp Hpend Hreply Hlt), run_bind.
    unfold response_json. split; [|split].
    + intros d ->. reflexivity.
    + intros ->. reflexivity.
    + intros j -> Hj. destruct j; try reflexivity. exfalso. exact (Hj d eq_refl).
  - intros e He.
    destruct (emits_get_status (fun _ => True)
                [KRequest; KAuth; KQuota; KPixbin; KJSONDecode; KAttribute] rt self image_id
                I) with (w := w) as [_ Hk].
    + intros k Hk. simpl in *. tauto.
    + simpl. tauto.
    + simpl. tauto.
    + rewrite He in Hk. exact Hk.
Qed.

Lemma get_status_outcome_witness :
  fst (PixbinClient.get_status Sample.rt Sample.client (JStr "img-1")
         (Sample.world [Sample.json_ok (JDict [("status", JStr "success")])]))
  = Ok (JDict []).
Proof.
  destruct (get_status_outcome Sample.rt Sample.client (JStr "img-1")
              (Sample.world [Sample.json_ok (JDict [("status", JStr "success")])]))
    as (_ & H & _).
  destruct (H (Sample.json_ok (JDict [("status", JStr "success")])) []
              (Sample.response 200 "" (Some (JDict [("status", JStr "success")])))
              eq_refl eq_refl) as (Hd & _).
  - simpl. lia.
  - exact (Hd _ eq_refl).
Defined.

(** ** Downloading the original *)

(** X2. [download_original] makes one authenticated GET and never a
    second: whatever passes the error check is returned as it is, a 202 or
    a 304 like a 200, and what does not is one of the transport's errors,
    never the [HTTPError] of [requests]. *)
Theorem download_original_outcome (rt : Runtime) (self : PixbinClient.t) (image_id : string)
    (w : World) :
  let run := PixbinClient.download_original rt self image_id w in
  log (snd run) = (log w ++ [Sent (original_request self image_id)])%list
  /\ (forall x rest resp,
        pending w = x :: rest -> reply x = Answers resp -> status_code resp < 400 ->
        run = (Ok (content resp), answered (original_request self image_id) x rest w))
  /\ (forall x rest msg,
        pending w = x :: rest -> reply x = Fails msg ->
        run = (Raise (RequestException msg),
               answered (original_request self image_id) x rest w))
  /\ (forall e, fst run = Raise e -> In (kind_of e) transport_kinds).
Proof.
  cbv zeta. unfold PixbinClient.download_original. split; [|split; [|split]].
  - rewrite bind_pure_snd; [|intros resp; effects]. rewrite get_world. apply send_log.
  - intros x rest resp Hpend Hreply Hlt.
    rewrite run_bind, (get_answered rt self _ w x rest resp Hpend Hreply Hlt). reflexivity.
  - intros x rest msg Hpend Hreply. rewrite run_bind. unfold PixbinClient._get. cbv zeta.
    rewrite run_bind.
    fold (original_request self image_id).
    rewrite (send_fails _ w x rest msg Hpend Hreply). reflexivity.
  - intros e He.
    assert (Hem : emits (fun _ => True) transport_kinds
                    (PixbinClient.download_original rt self image_id)).
    { unfold PixbinClient.download_original. apply emits_bind.
      - apply emits_get; [exact I | apply incl_refl].
      - intros resp. apply emits_ret. }
    destruct (Hem w) as [_ Hk]. unfold PixbinClient.download_original in Hk.
    rewrite He in Hk. exact Hk.
Qed.

Lemma download_original_outcome_witness :
  fst (PixbinClient.download_original Sample.rt Sample.client "img-1"
         (Sample.world [Sample.answers (Sample.response 202 "pending" None)]))
  = Ok (Str.encode "pending").
Proof.
  destruct (download_original_outcome Sample.rt Sample.client "img-1"
              (Sample.world [Sample.answers (Sample.response 202 "pending" None)]))
    as (_ & H & _).
  rewrite (H (Sample.answers (Sample.response 202 "pending" None)) []
             (Sample.response 202 "pending" None) eq_refl eq_refl); [reflexivity|].
  simpl. lia.
Defined.

(** ** The upload: what it sends and what it raises *)

Lemma emits_wait_loop (L : Event -> Prop) (ks : list Kind) (rt : Runtime)
    (self : PixbinClient.t) (image_id : Json) (poll_interval : Q) (max_wait : Z)
    (start_time : Q) :
  emits L ks (PixbinClient.poll_once rt self image_id poll_interval) -> In KUpload ks ->
  forall fuel w r w',
    PixbinClient.wait_loop rt self fuel image_id poll_interval max_wait start_time w
    = Some (r, w') ->
    (exists more, log w' = (log w ++ more)%list /\ Forall L more)
    /\ match r with Raise e => In (kind_of e) ks | Ok _ => True end.
Proof.
  intros Honce Hup. induction fuel as [|fuel IH]; intros w r w' Hrun; [discriminate|].
  cbn [PixbinClient.wait_loop] in Hrun.
  destruct (Qlt_bool (clock w - start_time) (inject_Z max_wait)).
  - destruct (Honce w) as [(m1 & Hl1 & Ha1) He1].
    destruct (PixbinClient.poll_once rt self image_id poll_interval w) as [[[]|e] w1];
      simpl in Hl1, He1.
    + inversion Hrun; subst. split; [exists m1; split; assumption | exact I].
    + destruct (IH w1 r w' Hrun) as [(m2 & Hl2 & Ha2) He2]. split; [|exact He2].
      exists (m1 ++ m2)%list. rewrite Hl2, Hl1, app_assoc. split; [reflexivity|].
      apply Forall_app. split; assumption.
    + inversion Hrun; subst. split; [exists m1; split; assumption | exact He1].
  - inversion Hrun; subst. split; [|exact Hup].
    exists []. rewrite app_nil_r. split; [reflexivity | constructor].
Qed.

Lemma emits_poll_once (L : Event -> Prop) (ks : list Kind) (rt : Runtime)
    (self : PixbinClient.t) (image_id : Json) (poll_interval : Q) :
  L (Sent (status_request rt self image_id)) -> L (Slept poll_interval) ->
  incl transport_kinds ks -> In KJSONDecode ks -> In KAttribute ks -> In KUpload ks ->
  In KValue ks ->
  emits L ks (PixbinClient.poll_once rt self image_id poll_interval).
Proof.
  intros Hq Hs Hk Hj Ha Hu Hv. unfold PixbinClient.poll_once.
  apply emits_bind; [apply emits_get_status; assumption|]. intros status_data.
  apply emits_bind; [apply emits_py_get; assumption|]. intros processing_status.
  destruct (is_str processing_status "completed"); [apply emits_ret|].
  destruct (is_str processing_status "failed" || is_str processing_status "expired");
    [apply emits_raise; exact Hu|].
  apply emits_bind; [apply emits_time_sleep; assumption | intros _; apply emits_ret].
Qed.

Lemma emits_wait_for_completion (L : Event -> Prop) (ks : list Kind) (rt : Runtime)
    (self : PixbinClient.t) (image_id : Json) (poll_interval : Q) (max_wait : Z) :
  L (Sent (status_request rt self image_id)) -> L (Slept poll_interval) ->
  incl transport_kinds ks -> In KJSONDecode ks -> In KAttribute ks -> In KUpload ks ->
  In KValue ks ->
  emits L ks (PixbinClient._wait_for_completion rt self image_id poll_interval max_wait).
Proof.
  intros Hq Hs Hk Hj Ha Hu Hv w.
  unfold PixbinClient._wait_for_completion, bind, time_time.
  destruct (PixbinClient.wait_loop rt self (S (List.length (pending w))) image_id
              poll_interval max_wait (clock w) w) as [[r w']|] eqn:Hrun.
  - apply (emits_wait_loop L ks rt self image_id poll_interval max_wait (clock w)) in Hrun;
      [exact Hrun | apply emits_poll_once; assumption | exact Hu].
  - split; [|simpl; apply (in_transport_kinds ks Hk)].
    exists []. simpl. rewrite app_nil_r. split; [reflexivity | constructor].
Qed.

Lemma session_request_to (self : PixbinClient.t) (m : Method) (endpoint : string) (b : Body) :
  session_request self
    {| method := m; target := JStr (PixbinClient.base_url self ++ endpoint);
       headers := PixbinClient.session_headers self; body := b;
       req_timeout := PixbinClient.timeout self |}.
Proof. split; [reflexivity | exists endpoint; reflexivity]. Qed.

Lemma upload_kinds_transport : incl transport_kinds upload_kinds.
Proof. intros k Hk. unfold transport_kinds, upload_kinds in *. simpl in *. tauto. Qed.

Lemma emits_requests_post (L : Event -> Prop) (ks : list Kind) (rt : Runtime)
    (url data : Json) (files : list (string * (string * list byte * string))) (timeout : Z) :
  L (Sent {| method := POST; target := url; headers := []; body := MultipartBody data files;
             req_timeout := timeout |}) ->
  In KRequest ks -> incl [KValue; KType; KAttribute] ks ->
  emits L ks (requests_post rt url data files timeout).
Proof.
  intros Hq Hr Hk. unfold requests_post.
  destruct (check_url rt (py_str rt url)) as [|msg|msg];
    try (apply emits_raise; exact Hr);
    (destruct (encode_fields rt data) as [e|] eqn:Hdata;
     [apply emits_raise, Hk; exact (encode_fields_kind rt data e Hdata)|]);
    first [apply emits_send; assumption | apply emits_raise; exact Hr].
Qed.

Lemma emits_upload_file (rt : Runtime) (self : PixbinClient.t) (file_path : Source)
    (caption : string) (private : bool) (retention_hours : Z) (poll_interval : Q)
    (max_wait : Z) :
  emits (upload_event self poll_interval) upload_kinds
    (PixbinClient.upload_file rt self file_path caption private retention_hours
       poll_interval max_wait).
Proof.
  assert (Hin : forall k, In k upload_kinds <-> k <> KHTTP).
  { intros k. unfold upload_kinds. destruct k; split; intros H;
      first [ discriminate
            | solve [exfalso; apply H; reflexivity]
            | solve [simpl; auto 20]
            | solve [simpl in H; repeat (destruct H as [H|H]; try discriminate H);
                     contradiction] ]. }
  unfold PixbinClient.upload_file. apply emits_bind.
  - unfold PixbinClient.upload_phases. apply emits_bind.
    + apply emits_pure.
      * intros w.
        destruct (PixbinClient.open_source rt file_path w) as [r w0] eqn:Hopen.
        exact (open_source_world _ _ _ _ _ Hopen).
      * intros w. destruct file_path as [p|name data]; simpl.
        -- destruct (fs w (path_str p)) as [[]|]; simpl; try exact I; apply Hin; discriminate.
        -- destruct name; simpl; try exact I; apply Hin; discriminate.
    + intros [[[filename file_size] content_type] file_data].
      apply emits_bind.
      * unfold PixbinClient.start_upload.
        apply emits_bind;
          [apply emits_post; [left; apply session_request_to | apply upload_kinds_transport]|].
        intros start_response.
        apply emits_bind; [apply emits_response_json, Hin; discriminate|]. intros start_data.
        apply emits_bind; [apply emits_py_get, Hin; discriminate|]. intros status.
        destruct (negb (is_str status "success"));
          [apply emits_raise, Hin; discriminate|].
        repeat (apply emits_bind;
                [apply emits_py_index; apply Hin; discriminate | intros ?]).
        apply emits_ret.
      * intros [[image_id upload_url] upload_fields].
        apply emits_bind.
        -- unfold PixbinClient.upload_to_s3. cbv zeta.
           apply (emits_try _ [KRequest; KHTTP; KValue; KType; KAttribute]).
           ++ apply emits_bind.
              ** apply emits_requests_post; [|simpl; tauto|intros k Hk; simpl in *; tauto].
                 right.
                 split; [reflexivity|]. split; [reflexivity|]. eexists _, _. reflexivity.
              ** intros s3_response. apply emits_raise_for_status. simpl. tauto.
           ++ intros msg. apply emits_raise, Hin. discriminate.
           ++ intros k Hk Hr Hh. apply Hin. simpl in Hk.
              destruct Hk as [<-|[<-|[<-|[<-|[<-|[]]]]]]; try contradiction; discriminate.
        -- intros _. apply emits_bind.
           ++ unfold PixbinClient.complete_upload.
              apply emits_bind;
                [apply emits_post;
                   [left; apply session_request_to | apply upload_kinds_transport]|].
              intros complete_response.
              apply emits_bind; [apply emits_response_json, Hin; discriminate|].
              intros complete_data.
              apply emits_bind; [apply emits_py_get, Hin; discriminate|]. intros status.
              destruct (negb (is_str status "success"));
                [apply emits_raise, Hin; discriminate | apply emits_ret].
           ++ intros _. apply emits_ret.
  - intros image_id. apply emits_bind; [|intros _; apply emits_ret].
    unfold PixbinClient.poll_for_completion. destruct (max_wait >? 0); [|apply emits_ret].
    apply emits_wait_for_completion; try (apply Hin; discriminate);
      [ left; apply session_request_to | reflexivity | apply upload_kinds_transport ].
Qed.

(** X3. Whatever its source and its server, [upload_file] never lets the
    [HTTPError] of [requests] out: a refusal of the storage host is
    always wrapped in the upload error, and the API host's responses go
    through the transport's own mapping. *)
Theorem upload_file_never_http_error (rt : Runtime) (self : PixbinClient.t)
    (file_path : Source) (caption : string) (private : bool) (retention_hours : Z)
    (poll_interval : Q) (max_wait : Z) (w : World) (e : Exn) :
  fst (PixbinClient.upload_file rt self file_path caption private retention_hours
         poll_interval max_wait w) = Raise e ->
  In (kind_of e) upload_kinds /\ forall msg, e <> HTTPError msg.
Proof.
  intros He.
  destruct (emits_upload_file rt self file_path caption private retention_hours
              poll_interval max_wait w) as [_ Hk].
  rewrite He in Hk. split; [exact Hk|].
  intros msg ->. unfold upload_kinds in Hk. simpl in Hk.
  repeat (destruct Hk as [Hk|Hk]; try discriminate Hk). exact Hk.
Qed.

Lemma upload_file_never_http_error_witness :
  In (kind_of (PixbinUploadError "S3 upload failed: 403 Client Error: R for url: U"))
    upload_kinds.
Proof.
  refine (proj1 (upload_file_never_http_error Sample.rt Sample.client Sample.photo "" false
                   (-1) 1 60
                   (Sample.world [Sample.start_ok; Sample.store 403]) _ _)).
  vm_compute. reflexivity.
Defined.


Lemma post_world (rt : Runtime) (self : PixbinClient.t) (endpoint : string) (payload : Json)
    (w : World) :
  snd (PixbinClient._post rt self endpoint payload w)
  = snd (send {| method := POST; target := JStr (PixbinClient.base_url self ++ endpoint);
                 headers := PixbinClient.session_headers self; body := JsonBody payload;
                 req_timeout := PixbinClient.timeout self |} w).
Proof.
  unfold PixbinClient._post. cbv zeta. apply bind_pure_snd. intros resp. effects.
Qed.

Lemma complete_upload_log (rt : Runtime) (self : PixbinClient.t) (image_id : Json)
    (file_data : list byte) (w : World) :
  log (snd (PixbinClient.complete_upload rt self image_id file_data w))
  = (log w ++ [Sent (complete_request self
                       (PixbinClient.complete_payload rt image_id file_data))])%list.
Proof.
  unfold PixbinClient.complete_upload.
  rewrite bind_pure_snd; [|intros resp; effects].
  rewrite post_world. apply send_log.
Qed.

Lemma start_upload_log (rt : Runtime) (self : PixbinClient.t) (filename : string)
    (file_size : Z) (content_type caption : string) (private : bool) (retention_hours : Z)
    (w : World) :
  log (snd (PixbinClient.start_upload rt self filename file_size content_type caption private
              retention_hours w))
  = (log w ++ [Sent (start_request self filename file_size content_type caption private
                       retention_hours)])%list.
Proof. rewrite start_upload_world. apply send_log. Qed.

(** X5. The phases before the poll are never retried: they send at most
    three requests, the start, the storage and the complete request in
    this order, all three when they succeed, and they never sleep. With
    [max_wait <= 0] that is all [upload_file] does. *)
Theorem upload_phases_requests (rt : Runtime) (self : PixbinClient.t) (file_path : Source)
    (caption : string) (private : bool) (retention_hours : Z) (w : World) :
  let run := PixbinClient.upload_phases rt self file_path caption private retention_hours w in
  (exists more,
     log (snd run) = (log w ++ more)%list
     /\ Forall is_request more /\ (List.length more <= 3)%nat
     /\ (forall image_id, fst run = Ok image_id ->
         exists filename file_size content_type file_data upload_url upload_fields,
           more = [Sent (start_request self filename file_size content_type caption private
                           retention_hours);
                   Sent (store_request self upload_url upload_fields filename file_data
                           content_type);
                   Sent (complete_request self
                           (PixbinClient.complete_payload rt image_id file_data))]))
  /\ (forall poll_interval max_wait, max_wait <= 0 ->
      snd (PixbinClient.upload_file rt self file_path caption private retention_hours
             poll_interval max_wait w) = snd run).
Proof.
  cbv zeta. split.
  - unfold PixbinClient.upload_phases. rewrite run_bind.
    destruct (PixbinClient.open_source rt file_path w) as [[src|e] w0] eqn:Hopen;
      pose proof (open_source_world _ _ _ _ _ Hopen); subst w0.
    2:{ exists []. simpl. rewrite app_nil_r. repeat split; try constructor; try lia.
        intros image_id H. discriminate H. }
    destruct src as [[[filename file_size] content_type] file_data]. rewrite run_bind.
    pose proof (start_upload_log rt self filename file_size content_type caption private
                  retention_hours w) as Hstart.
    destruct (PixbinClient.start_upload rt self filename file_size content_type caption
                private retention_hours w) as [[[[image_id upload_url] upload_fields]|e] w1];
      simpl in Hstart.
    2:{ eexists. split; [exact Hstart|]. repeat split; try (simpl; lia).
        - repeat constructor. eexists. reflexivity.
        - intros image_id H. discriminate H. }
    rewrite run_bind.
    destruct (upload_to_s3_log rt self upload_url upload_fields filename file_data
                content_type w1) as [[_ Hstore]|[_ [e Hrefused]]].
    2:{ rewrite Hrefused. cbv beta iota. cbn [fst snd].
        eexists. split; [exact Hstart|]. repeat split; try (simpl; lia).
        - repeat constructor. eexists. reflexivity.
        - intros i H. discriminate H. }
    destruct (PixbinClient.upload_to_s3 rt self upload_url upload_fields filename file_data
                content_type w1) as [[[]|e] w2]; simpl in Hstore.
    2:{ cbn [fst snd]. eexists. split; [rewrite Hstore, Hstart, <- app_assoc; reflexivity|].
        repeat split; try (simpl; lia).
        - repeat constructor; eexists; reflexivity.
        - intros i H. discriminate H. }
    rewrite run_bind.
    pose proof (complete_upload_log rt self image_id file_data w2) as Hcomplete.
    destruct (PixbinClient.complete_upload rt self image_id file_data w2) as [[[]|e] w3];
      simpl in Hcomplete; unfold ret; cbv beta iota; cbn [fst snd];
      (eexists; split;
       [rewrite Hcomplete, Hstore, Hstart, <- !app_assoc; reflexivity|]);
      repeat split; try (simpl; lia);
      try (repeat constructor; eexists; reflexivity).
    + intros i H. inversion H; subst.
      exists filename, file_size, content_type, file_data, upload_url, upload_fields.
      reflexivity.
    + intros i H. discriminate H.
  - intros poll_interval max_wait Hle.
    unfold PixbinClient.upload_file, PixbinClient.poll_for_completion. rewrite run_bind.
    destruct (PixbinClient.upload_phases rt self file_path caption private retention_hours w)
      as [[image_id|e] w1]; [|reflexivity].
    destruct (Z.gtb_spec max_wait 0); [lia | reflexivity].
Qed.

Lemma upload_phases_requests_witness :
  snd (PixbinClient.upload_file Sample.rt Sample.client Sample.photo "" false (-1) 1 0
         (Sample.world [Sample.start_ok; Sample.store 200; Sample.complete_ok;
                        Sample.status "completed"]))
  = snd (PixbinClient.upload_phases Sample.rt Sample.client Sample.photo "" false (-1)
           (Sample.world [Sample.start_ok; Sample.store 200; Sample.complete_ok;
                          Sample.status "completed"])).
Proof.
  apply (proj2 (upload_phases_requests Sample.rt Sample.client Sample.photo "" false (-1)
                  (Sample.world [Sample.start_ok; Sample.store 200; Sample.complete_ok;
                                 Sample.status "completed"])) 1%Q 0).
  lia.
Defined.

(** ** The complete phase *)

(** X6. A completion response that passes the error check and is a JSON
    object ends the phase by its status alone: "success" goes on, anything
    else, a missing status too, is the upload error "Upload completion
    failed" with the response in its message. An upload whose complete
    phase raises ends there: no status is polled, whatever [max_wait]. *)
Theorem complete_upload_outcome (rt : Runtime) (self : PixbinClient.t) (image_id : Json)
    (file_data : list byte) (w : World) (x : Exchange) (rest : list Exchange)
    (resp : Response) (d : list (string * Json)) :
  pending w = x :: rest -> reply x = Answers resp -> status_code resp < 400 ->
  json resp = Some (JDict d) ->
  let w1 := answered (complete_request self
                        (PixbinClient.complete_payload rt image_id file_data)) x rest w in
  let run := PixbinClient.complete_upload rt self image_id file_data w in
  (dict_get d "status" = Some (JStr "success") -> run = (Ok tt, w1))
  /\ (dict_get d "status" <> Some (JStr "success") ->
      run = (Raise (PixbinUploadError ("Upload completion failed: " ++ py_str rt (JDict d))),
             w1))
  /\ (forall file_path caption private retention_hours poll_interval max_wait w0 filename
        file_size content_type upload_url upload_fields w' e w2,
        PixbinClient.open_source rt file_path w0
        = (Ok (filename, file_size, content_type, file_data), w0) ->
        PixbinClient.start_upload rt self filename file_size content_type caption private
          retention_hours w0 = (Ok (image_id, upload_url, upload_fields), w') ->
        PixbinClient.upload_to_s3 rt self upload_url upload_fields filename file_data
          content_type w' = (Ok tt, w) ->
        run = (Raise e, w2) ->
        PixbinClient.upload_file rt self file_path caption private retention_hours
          poll_interval max_wait w0 = (Raise e, w2)).
Proof.
  intros Hpend Hreply Hlt Hjson. cbv zeta. split; [|split].
  - intros Hstatus. unfold PixbinClient.complete_upload.
    rewrite run_bind, (post_answered _ _ _ _ _ _ _ _ Hpend Hreply Hlt).
    unfold response_json. rewrite Hjson. unfold py_get. unfold bind, ret. cbv beta iota.
    rewrite Hstatus. reflexivity.
  - intros Hstatus. unfold PixbinClient.complete_upload.
    rewrite run_bind, (post_answered _ _ _ _ _ _ _ _ Hpend Hreply Hlt).
    unfold response_json. rewrite Hjson. unfold py_get. unfold bind, ret, raise.
    cbv beta iota.
    destruct (dict_get d "status") as [v|]; [|reflexivity].
    destruct (is_str_spec v "success") as [->|_]; [congruence | reflexivity].
  - intros file_path caption private retention_hours poll_interval max_wait w0 filename
      file_size content_type upload_url upload_fields w' e w2 Hopen Hstart Hstore Hrun.
    apply upload_file_raises.
    destruct (upload_phases_run rt self file_path caption private retention_hours w0
                filename file_size content_type file_data Hopen) as [_ Hrest].
    destruct (Hrest image_id upload_url upload_fields w' Hstart) as [_ Hgo].
    rewrite (Hgo w Hstore), Hrun. reflexivity.
Qed.

Lemma complete_upload_outcome_witness :
  fst (PixbinClient.complete_upload Sample.rt Sample.client (JStr "img-1") ["a"%byte]
         (Sample.world [Sample.json_ok (JDict [("status", JStr "error")])]))
  = Raise (PixbinUploadError "Upload completion failed: {'status': 'error'}").
Proof.
  destruct (complete_upload_outcome Sample.rt Sample.client (JStr "img-1") ["a"%byte]
              (Sample.world [Sample.json_ok (JDict [("status", JStr "error")])])
              (Sample.json_ok (JDict [("status", JStr "error")])) []
              (Sample.response 200 "" (Some (JDict [("status", JStr "error")])))
              [("status", JStr "error")] eq_refl eq_refl) as (_ & H & _).
  - simpl. lia.
  - reflexivity.
  - rewrite H; [reflexivity | discriminate].
Defined.

(** ** The polling phase: its log, its bound, its success *)

Lemma poll_once_log (rt : Runtime) (self : PixbinClient.t) (image_id : Json)
    (poll_interval : Q) (w : World) :
  let run := PixbinClient.poll_once rt self image_id poll_interval w in
  (fst run = Ok false
   /\ log (snd run) = (log w ++ [Sent (status_request rt self image_id);
                                 Slept poll_interval])%list
   /\ exists x rest, pending w = x :: rest /\ pending (snd run) = rest
                     /\ clock (snd run) = (clock w + latency x + poll_interval)%Q)
  \/ (fst run <> Ok false
      /\ log (snd run) = (log w ++ [Sent (status_request rt self image_id)])%list).
Proof.
  cbv zeta. unfold PixbinClient.poll_once. rewrite run_bind.
  pose proof (get_status_world rt self image_id w) as Hw.
  pose proof (send_log (status_request rt self image_id) w) as Hlog.
  rewrite <- Hw in Hlog.
  assert (Hx : forall data w1, PixbinClient.get_status rt self image_id w = (Ok data, w1) ->
               exists x rest, pending w = x :: rest /\ pending w1 = rest
                              /\ clock w1 = (clock w + latency x)%Q).
  { intros data w1 Hst. rewrite Hst in Hw. simpl in Hw. subst w1.
    unfold send, record. simpl.
    destruct (pending w) as [|x rest] eqn:Hp.
    - exfalso. unfold PixbinClient.get_status, PixbinClient._get in Hst.
      rewrite !run_bind in Hst. unfold send, record in Hst. simpl in Hst.
      rewrite Hp in Hst. discriminate Hst.
    - exists x, rest. destruct (reply x); repeat split; reflexivity. }
  destruct (PixbinClient.get_status rt self image_id w) as [[data|e] w1]; simpl in Hlog.
  2:{ right. split; [simpl; discriminate | exact Hlog]. }
  destruct (Hx data w1 eq_refl) as (x & rest & Hp & Hp1 & Hc1).
  rewrite run_bind. unfold py_get.
  destruct data; try (right; split; [simpl; discriminate | exact Hlog]).
  unfold ret. cbv beta iota.
  generalize (match dict_get d "processing_status" with Some v => v | None => JNull end).
  intros v.
  destruct (is_str v "completed"); [right; split; [simpl; discriminate | exact Hlog]|].
  destruct (is_str v "failed" || is_str v "expired");
    [right; split; [simpl; discriminate | exact Hlog]|].
  rewrite run_bind. unfold time_sleep. destruct (Qle_bool 0 poll_interval).
  - left. simpl. split; [reflexivity|]. split.
    + rewrite Hlog, <- app_assoc. reflexivity.
    + exists x, rest. repeat split; [exact Hp | exact Hp1 | rewrite Hc1; reflexivity].
  - right. split; [simpl; discriminate | exact Hlog].
Qed.

Lemma poll_log_cons (q : Request) (d : Q) (l : list Event) :
  poll_log q d l -> poll_log q d (Sent q :: Slept d :: l).
Proof. intros H. simpl. auto. Qed.

Lemma wait_loop_log (rt : Runtime) (self : PixbinClient.t) (image_id : Json)
    (poll_interval : Q) (max_wait : Z) (start_time : Q) (fuel : nat) :
  forall w r w',
    PixbinClient.wait_loop rt self fuel image_id poll_interval max_wait start_time w
    = Some (r, w') ->
    exists more, log w' = (log w ++ more)%list
                 /\ poll_log (status_request rt self image_id) poll_interval more.
Proof.
  induction fuel as [|fuel IH]; intros w r w' Hrun; [discriminate|].
  cbn [PixbinClient.wait_loop] in Hrun.
  destruct (Qlt_bool (clock w - start_time) (inject_Z max_wait)).
  2:{ inversion Hrun; subst. exists []. rewrite app_nil_r. split; [reflexivity | exact I]. }
  destruct (poll_once_log rt self image_id poll_interval w) as [(Hr & Hl & _)|(Hr & Hl)];
    destruct (PixbinClient.poll_once rt self image_id poll_interval w) as [[[]|e] w1];
    simpl in Hr, Hl; try discriminate Hr; try (exfalso; apply Hr; reflexivity);
    try (inversion Hrun; subst; eexists; split; [exact Hl | simpl; auto]).
  destruct (IH w1 r w' Hrun) as (more & Hmore & Hshape).
  eexists. split; [rewrite Hmore, Hl, <- app_assoc; reflexivity|].
  apply poll_log_cons, Hshape.
Qed.

(** X7. The polling phase logs nothing but polls of the one status URL,
    made with the session's headers, and between two polls exactly one
    sleep of [poll_interval]: it never polls twice in a row and never
    sleeps before its first poll. *)
Theorem wait_for_completion_log (rt : Runtime) (self : PixbinClient.t) (image_id : Json)
    (poll_interval : Q) (max_wait : Z) (w : World) :
  exists more,
    log (snd (PixbinClient._wait_for_completion rt self image_id poll_interval max_wait w))
    = (log w ++ more)%list
    /\ poll_log (status_request rt self image_id) poll_interval more
    /\ session_request self (status_request rt self image_id).
Proof.
  unfold PixbinClient._wait_for_completion, bind, time_time.
  destruct (wait_loop_polling rt self image_id poll_interval max_wait (clock w)
              (S (List.length (pending w))) w (Nat.lt_succ_diag_r _)) as (r & w' & Hrun & _).
  rewrite Hrun. apply wait_loop_log in Hrun. destruct Hrun as (more & Hmore & Hshape).
  exists more. split; [exact Hmore|]. split; [exact Hshape|].
  apply session_request_to.
Qed.

Lemma sleeps_mult (n : nat) (d : Q) : (sleeps n d == inject_Z (Z.of_nat n) * d)%Q.
Proof.
  induction n as [|n IH]; [simpl; ring|].
  cbn [sleeps]. rewrite IH, Nat2Z.inj_succ. unfold Z.succ. rewrite inject_Z_plus. ring.
Qed.

Lemma wait_loop_bound (rt : Runtime) (self : PixbinClient.t) (image_id : Json)
    (poll_interval : Q) (max_wait : Z) (start_time : Q) (Hd : (0 <= poll_interval)%Q)
    (fuel : nat) :
  forall w r w' lb,
    Forall prompt (pending w) -> (lb <= clock w - start_time)%Q ->
    PixbinClient.wait_loop rt self fuel image_id poll_interval max_wait start_time w
    = Some (r, w') ->
    exists more,
      log w' = (log w ++ more)%list
      /\ (requests_sent more = 0%nat
          \/ (lb + sleeps (requests_sent more - 1) poll_interval < inject_Z max_wait)%Q).
Proof.
  induction fuel as [|fuel IH]; intros w r w' lb Hprompt Hlb Hrun; [discriminate|].
  cbn [PixbinClient.wait_loop] in Hrun.
  destruct (Qlt_bool_spec (clock w - start_time) (inject_Z max_wait)) as [Hlt|_].
  2:{ inversion Hrun; subst. exists []. rewrite app_nil_r. split; [reflexivity|].
      left. reflexivity. }
  destruct (poll_once_log rt self image_id poll_interval w)
    as [(Hr & Hl & x & rest & Hp & Hp1 & Hc1)|(Hr & Hl)];
    destruct (PixbinClient.poll_once rt self image_id poll_interval w) as [[[]|e] w1];
    simpl in Hr, Hl; try discriminate Hr; try (exfalso; apply Hr; reflexivity);
    try (inversion Hrun; subst; eexists; split; [exact Hl|]; right; simpl; lra).
  simpl in Hp1, Hc1.
  assert (Hx : (0 <= latency x)%Q).
  { rewrite Hp in Hprompt. apply Forall_inv in Hprompt. exact Hprompt. }
  destruct (IH w1 r w' (lb + poll_interval)%Q) as (more & Hmore & Hbound).
  - rewrite Hp1. rewrite Hp in Hprompt. apply Forall_inv_tail in Hprompt. exact Hprompt.
  - rewrite Hc1. lra.
  - exact Hrun.
  - eexists. split; [rewrite Hmore, Hl, <- app_assoc; reflexivity|].
    right. cbn [app requests_sent Nat.sub]. rewrite Nat.sub_0_r.
    destruct Hbound as [H0|Hb].
    + rewrite H0. simpl. lra.
    + destruct (requests_sent more) as [|k]; [simpl; lra|].
      cbn [Nat.sub] in Hb. rewrite Nat.sub_0_r in Hb. cbn [sleeps]. lra.
Qed.

(** X8. When no answer comes back in negative time and the interval is not
    negative, the polling phase polls [n] times only if the [n - 1] sleeps
    before the last poll fit within [max_wait]:
    [(n - 1) * poll_interval < max_wait]. *)
Theorem wait_for_completion_bounded (rt : Runtime) (self : PixbinClient.t) (image_id : Json)
    (poll_interval : Q) (max_wait : Z) (w : World) :
  Forall prompt (pending w) -> (0 <= poll_interval)%Q ->
  exists more,
    log (snd (PixbinClient._wait_for_completion rt self image_id poll_interval max_wait w))
    = (log w ++ more)%list
    /\ (requests_sent more = 0%nat
        \/ (inject_Z (Z.of_nat (requests_sent more - 1)) * poll_interval
            < inject_Z max_wait)%Q).
Proof.
  intros Hprompt Hd. unfold PixbinClient._wait_for_completion, bind, time_time.
  destruct (wait_loop_polling rt self image_id poll_interval max_wait (clock w)
              (S (List.length (pending w))) w (Nat.lt_succ_diag_r _)) as (r & w' & Hrun & _).
  rewrite Hrun.
  destruct (wait_loop_bound rt self image_id poll_interval max_wait (clock w) Hd
              (S (List.length (pending w))) w r w' 0%Q Hprompt)
    as (more & Hmore & Hbound); [lra | exact Hrun |].
  exists more. split; [exact Hmore|].
  destruct Hbound as [H0|Hb]; [left; exact H0 | right].
  rewrite <- sleeps_mult. lra.
Qed.

Lemma wait_for_completion_bounded_witness :
  exists more,
    log (snd (PixbinClient._wait_for_completion Sample.rt Sample.client (JStr "img-1") 1 2
                (Sample.world [Sample.status "pending"; Sample.status "pending";
                               Sample.status "pending"; Sample.status "pending"])))
    = ([] ++ more)%list
    /\ (requests_sent more = 0%nat
        \/ (inject_Z (Z.of_nat (requests_sent more - 1)) * 1 < inject_Z 2)%Q).
Proof.
  apply (wait_for_completion_bounded Sample.rt Sample.client (JStr "img-1") 1 2
           (Sample.world [Sample.status "pending"; Sample.status "pending";
                          Sample.status "pending"; Sample.status "pending"])).
  - repeat constructor; unfold prompt; simpl; lra.
  - lra.
Defined.

(** ** An upload that goes through *)

Lemma poll_time_nonneg (d : Q) (script : list Exchange) :
  (0 <= d)%Q -> Forall prompt script -> (0 <= poll_time d script)%Q.
Proof.
  intros Hd Hall. induction Hall as [|x r Hx _ IH]; simpl; [lra|].
  unfold prompt in Hx. lra.
Qed.

Lemma get_status_answered (rt : Runtime) (self : PixbinClient.t) (image_id v : Json)
    (w : World) (x : Exchange) (rest : list Exchange) :
  status_answer v x -> pending w = x :: rest ->
  exists data,
    PixbinClient.get_status rt self image_id w
    = (Ok (JDict data), answered (status_request rt self image_id) x rest w)
    /\ dict_get data "processing_status" = Some v.
Proof.
  intros (resp & d & data & Hreply & Hlt & Hjson & Hdata & Hv) Hpend.
  exists data. split; [|exact Hv].
  unfold PixbinClient.get_status.
  rewrite run_bind, (get_answered rt self _ w x rest resp Hpend Hreply Hlt), run_bind.
  unfold response_json. rewrite Hjson. unfold ret at 1. cbv beta iota.
  unfold py_get, ret. rewrite Hdata. reflexivity.
Qed.

Lemma poll_once_completed (rt : Runtime) (self : PixbinClient.t) (image_id : Json)
    (poll_interval : Q) (w : World) (x : Exchange) (rest : list Exchange) :
  status_answer (JStr "completed") x -> pending w = x :: rest ->
  PixbinClient.poll_once rt self image_id poll_interval w
  = (Ok true, answered (status_request rt self image_id) x rest w).
Proof.
  intros Hx Hpend.
  destruct (get_status_answered rt self image_id _ w x rest Hx Hpend) as (data & Hst & Hv).
  unfold PixbinClient.poll_once. rewrite run_bind, Hst, run_bind.
  unfold py_get, ret. cbv beta iota. rewrite Hv. reflexivity.
Qed.

Lemma poll_once_in_progress (rt : Runtime) (self : PixbinClient.t) (image_id : Json)
    (poll_interval : Q) (w : World) (x : Exchange) (rest : list Exchange) :
  in_progress x -> pending w = x :: rest -> (0 <= poll_interval)%Q ->
  PixbinClient.poll_once rt self image_id poll_interval w
  = (Ok false, slept poll_interval (answered (status_request rt self image_id) x rest w)).
Proof.
  intros (v & Hx & Hc & Hf & He) Hpend Hd.
  destruct (get_status_answered rt self image_id _ w x rest Hx Hpend) as (data & Hst & Hv).
  unfold PixbinClient.poll_once. rewrite run_bind, Hst, run_bind.
  unfold py_get, ret. cbv beta iota. rewrite Hv.
  destruct (is_str_spec v "completed"); [contradiction|].
  destruct (is_str_spec v "failed"); [contradiction|].
  destruct (is_str_spec v "expired"); [contradiction|].
  cbn [orb]. rewrite run_bind, (time_sleep_ok _ _ Hd). reflexivity.
Qed.

Lemma wait_loop_completes (rt : Runtime) (self : PixbinClient.t) (image_id : Json)
    (poll_interval : Q) (max_wait : Z) (start_time : Q) (Hd : (0 <= poll_interval)%Q)
    (done : Exchange) (rest : list Exchange)
    (Hdone : status_answer (JStr "completed") done) (script : list Exchange) :
  forall w fuel,
    pending w = (script ++ done :: rest)%list ->
    Forall in_progress script -> Forall prompt script ->
    (clock w - start_time + poll_time poll_interval script < inject_Z max_wait)%Q ->
    (List.length (pending w) < fuel)%nat ->
    exists w',
      PixbinClient.wait_loop rt self fuel image_id poll_interval max_wait start_time w
      = Some (Ok tt, w')
      /\ pending w' = rest
      /\ requests_sent (log w') = (requests_sent (log w) + S (List.length script))%nat.
Proof.
  induction script as [|y script IH]; intros w fuel Hpend Hprog Hprompt Htime Hfuel;
    (destruct fuel as [|fuel]; [lia|]); cbn [PixbinClient.wait_loop].
  - simpl in Htime, Hpend.
    destruct (Qlt_bool_spec (clock w - start_time) (inject_Z max_wait)) as [_|Hn];
      [|exfalso; apply Hn; lra].
    rewrite (poll_once_completed rt self image_id poll_interval w done rest Hdone Hpend).
    eexists. split; [reflexivity|]. split; [reflexivity|].
    simpl. rewrite requests_sent_app. simpl. lia.
  - simpl in Hpend. cbn [poll_time] in Htime.
    pose proof (Forall_inv Hprompt) as Hy. unfold prompt in Hy.
    pose proof (poll_time_nonneg poll_interval script Hd (Forall_inv_tail Hprompt)) as Hpt.
    destruct (Qlt_bool_spec (clock w - start_time) (inject_Z max_wait)) as [_|Hn];
      [|exfalso; apply Hn; lra].
    rewrite (poll_once_in_progress rt self image_id poll_interval w y _
               (Forall_inv Hprog) Hpend Hd).
    destruct (IH (slept poll_interval
                    (answered (status_request rt self image_id) y
                       (script ++ done :: rest)%list w)) fuel) as (w' & Hrun & Hrest & Hn).
    + reflexivity.
    + exact (Forall_inv_tail Hprog).
    + exact (Forall_inv_tail Hprompt).
    + simpl. lra.
    + simpl. rewrite Hpend in Hfuel. simpl in Hfuel. lia.
    + exists w'. split; [exact Hrun|]. split; [exact Hrest|].
      rewrite Hn. simpl. rewrite !requests_sent_app. simpl. lia.
Qed.

Lemma start_upload_ok (rt : Runtime) (self : PixbinClient.t) (filename : string)
    (file_size : Z) (content_type caption : string) (private : bool) (retention_hours : Z)
    (w : World) (x : Exchange) (rest : list Exchange)
    (image_id upload_url upload_fields : Json) :
  start_answer image_id upload_url upload_fields x -> pending w = x :: rest ->
  PixbinClient.start_upload rt self filename file_size content_type caption private
    retention_hours w
  = (Ok (image_id, upload_url, upload_fields),
     answered (start_request self filename file_size content_type caption private
                 retention_hours) x rest w).
Proof.
  intros (resp & d & data & Hreply & Hlt & Hjson & Hstatus & Hdata & Hid & Hurl & Hf) Hpend.
  run_start Hpend Hreply Hlt Hjson.
  rewrite Hstatus, Hdata. cbn [is_str String.eqb Ascii.eqb Bool.eqb negb].
  rewrite Hid, Hurl, Hf. reflexivity.
Qed.

Lemma upload_to_s3_ok (rt : Runtime) (self : PixbinClient.t)
    (upload_url upload_fields : Json) (filename : string) (file_data : list byte)
    (content_type : string) (w : World) (x : Exchange) (rest : list Exchange) :
  postable rt upload_url upload_fields -> store_answer x -> pending w = x :: rest ->
  PixbinClient.upload_to_s3 rt self upload_url upload_fields filename file_data content_type w
  = (Ok tt, answered (store_request self upload_url upload_fields filename file_data
                        content_type) x rest w).
Proof.
  intros Hpost (resp & Hreply & Hcode) Hpend.
  unfold PixbinClient.upload_to_s3, try_RequestException. cbv zeta.
  rewrite (requests_post_sends _ _ _ _ _ Hpost), run_bind.
  fold (store_request self upload_url upload_fields filename file_data content_type).
  rewrite (send_answers _ w x rest resp Hpend Hreply). unfold raise_for_status.
  destruct (Z.leb_spec 400 (status_code resp));
    destruct (Z.ltb_spec (status_code resp) 500);
    destruct (Z.leb_spec 500 (status_code resp));
    destruct (Z.ltb_spec (status_code resp) 600); cbn [andb];
    first [reflexivity | exfalso; apply Hcode; lia | lia].
Qed.

Lemma complete_upload_ok (rt : Runtime) (self : PixbinClient.t) (image_id : Json)
    (file_data : list byte) (w : World) (x : Exchange) (rest : list Exchange) :
  complete_answer x -> pending w = x :: rest ->
  PixbinClient.complete_upload rt self image_id file_data w
  = (Ok tt, answered (complete_request self
                        (PixbinClient.complete_payload rt image_id file_data)) x rest w).
Proof.
  intros (resp & d & Hreply & Hlt & Hjson & Hstatus) Hpend.
  unfold PixbinClient.complete_upload.
  rewrite run_bind, (post_answered _ _ _ _ _ _ _ _ Hpend Hreply Hlt).
  unfold response_json. rewrite Hjson. unfold py_get. unfold bind, ret. cbv beta iota.
  rewrite Hstatus. reflexivity.
Qed.

(** X9. With a server that opens a session whose URL and form fields
    [requests] takes, takes the bytes, confirms the completion and reports
    the image in progress [k] times before it reports it completed,
    [upload_file] returns the image id of the session after exactly
    [k + 4] requests, provided no answer comes back in negative time and
    the [k] polls with their sleeps take less than [max_wait]. What the
    server would answer later is left unread. *)
Theorem upload_file_succeeds (rt : Runtime) (self : PixbinClient.t) (file_path : Source)
    (caption : string) (private : bool) (retention_hours : Z) (poll_interval : Q)
    (max_wait : Z) (w : World) (filename : string) (file_size : Z) (content_type : string)
    (file_data : list byte) (image_id upload_url upload_fields : Json)
    (started stored completed done : Exchange) (script rest : list Exchange) :
  PixbinClient.open_source rt file_path w
  = (Ok (filename, file_size, content_type, file_data), w) ->
  pending w = started :: stored :: completed :: (script ++ done :: rest)%list ->
  start_answer image_id upload_url upload_fields started ->
  postable rt upload_url upload_fields ->
  store_answer stored -> complete_answer completed ->
  Forall in_progress script -> Forall prompt script -> (0 <= poll_interval)%Q ->
  status_answer (JStr "completed") done ->
  (poll_time poll_interval script < inject_Z max_wait)%Q ->
  let run := PixbinClient.upload_file rt self file_path caption private retention_hours
               poll_interval max_wait w in
  fst run = Ok image_id
  /\ pending (snd run) = rest
  /\ requests_sent (log (snd run)) = (requests_sent (log w) + (List.length script + 4))%nat.
Proof.
  intros Hopen Hpend Hstart Hpost Hstore Hcomplete Hprog Hprompt Hd Hdone Htime. cbv zeta.
  assert (Hpos : 0 < max_wait).
  { pose proof (poll_time_nonneg poll_interval script Hd Hprompt) as Hpt.
    rewrite Zlt_Qlt. change (inject_Z 0) with 0%Q. lra. }
  unfold PixbinClient.upload_file.
  destruct (upload_phases_run rt self file_path caption private retention_hours w
              filename file_size content_type file_data Hopen) as [_ Hrest].
  pose proof (start_upload_ok rt self filename file_size content_type caption private
                retention_hours w started _ image_id upload_url upload_fields Hstart Hpend)
    as Hs.
  set (w1 := answered (start_request self filename file_size content_type caption private
                         retention_hours) started
               (stored :: completed :: (script ++ done :: rest))%list w) in *.
  pose proof (upload_to_s3_ok rt self upload_url upload_fields filename file_data
                content_type w1 stored (completed :: (script ++ done :: rest))%list Hpost
                Hstore eq_refl) as Ht.
  set (w2 := answered (store_request self upload_url upload_fields filename file_data
                         content_type) stored
               (completed :: (script ++ done :: rest))%list w1) in *.
  pose proof (complete_upload_ok rt self image_id file_data w2 completed
                (script ++ done :: rest)%list Hcomplete eq_refl) as Hc.
  destruct (Hrest image_id upload_url upload_fields w1 Hs) as [_ Hgo].
  rewrite run_bind, (Hgo w2 Ht), Hc.
  rewrite run_bind. unfold PixbinClient.poll_for_completion.
  destruct (Z.gtb_spec max_wait 0) as [_|]; [|lia].
  unfold PixbinClient._wait_for_completion, bind, time_time.
  match goal with |- context [PixbinClient.wait_loop rt self ?fuel image_id poll_interval
                                max_wait ?start ?w3] =>
    destruct (wait_loop_completes rt self image_id poll_interval max_wait start Hd done rest
                Hdone script w3 fuel) as (w' & Hrun & Hp' & Hn)
  end; try assumption; try reflexivity.
  - simpl. lra.
  - simpl. lia.
  - rewrite Hrun. unfold ret. simpl. split; [reflexivity|]. split; [exact Hp'|].
    rewrite Hn. simpl. rewrite !requests_sent_app. simpl. lia.
Qed.

Lemma upload_file_succeeds_witness :
  let run := PixbinClient.upload_file Sample.rt Sample.client Sample.photo "" false (-1)
               (1 # 2) 2
               (Sample.world [Sample.start_ok; Sample.store 204; Sample.complete_ok;
                              Sample.status "pending"; Sample.status "processing";
                              Sample.status "completed"; Sample.status "failed"]) in
  fst run = Ok (JStr "img-1")
  /\ pending (snd run) = [Sample.status "failed"]
  /\ requests_sent (log (snd run)) = (0 + (2 + 4))%nat.
Proof.
  apply (upload_file_succeeds Sample.rt Sample.client Sample.photo "" false (-1) (1 # 2) 2
           (Sample.world [Sample.start_ok; Sample.store 204; Sample.complete_ok;
                          Sample.status "pending"; Sample.status "processing";
                          Sample.status "completed"; Sample.status "failed"])
           "photo.jpg" 3 "image/jpeg" ["003"; "002"; "a"]%byte
           (JStr "img-1") (JStr "https://s3.example/bucket") (JDict [("key", JStr "k")])
           Sample.start_ok (Sample.store 204) Sample.complete_ok (Sample.status "completed")
           [Sample.status "pending"; Sample.status "processing"] [Sample.status "failed"]).
  - reflexivity.
  - reflexivity.
  - eexists _, _, _. repeat split; reflexivity.
  - split; reflexivity.
  - eexists. split; [reflexivity|]. simpl. lia.
  - eexists _, _. repeat split; reflexivity.
  - repeat constructor; eexists;
      (split; [eexists _, _, _; repeat split; reflexivity|]); repeat split; discriminate.
  - repeat constructor; unfold prompt; simpl; lra.
  - lra.
  - eexists _, _, _. repeat split; reflexivity.
  - vm_compute. reflexivity.
Defined.

(** ** The signed download: what it sends, what it raises, when it returns *)

Lemma emits_download_loop (self : PixbinClient.t) (url : string) (max_retries : Z)
    (retry_delay : Q) (remaining : nat) :
  forall attempt,
    emits (download_event (download_request self url) retry_delay) download_kinds
      (PixbinClient.download_loop self remaining attempt url max_retries retry_delay).
Proof.
  induction remaining as [|n IH]; intros attempt; cbn [PixbinClient.download_loop].
  - apply emits_raise. simpl. tauto.
  - apply emits_bind.
    + apply emits_send; [left; reflexivity | simpl; tauto].
    + intros response. destruct (status_code response =? 200); [apply emits_ret|].
      destruct (status_code response =? 202).
      * destruct (attempt <? max_retries - 1); [|apply emits_raise; simpl; tauto].
        apply emits_bind; [|intros _; apply IH].
        apply emits_time_sleep; [right; reflexivity | simpl; tauto].
      * apply emits_bind; [|intros _; apply IH].
        apply emits_raise_for_status. simpl. tauto.
Qed.

(** X10. Every request of [download_transformed] is the same GET of the
    signed URL without any header of the client, so the bearer token is
    never sent with it, and every sleep is [retry_delay]. What it raises is
    a [PixbinError], a failure of the transport, the [HTTPError] of
    [requests] or the [ValueError] of a negative sleep: a 401 or a 413 on
    the signed URL is never the authentication or the quota error. *)
Theorem download_transformed_events (self : PixbinClient.t) (image_id params : string)
    (max_retries : Z) (retry_delay : Q) (w : World) :
  let q := download_request self (PixbinClient.transform_url self image_id params true) in
  let run := PixbinClient.download_transformed self image_id params max_retries retry_delay w in
  headers q = [] /\ method q = GET
  /\ (exists more, log (snd run) = (log w ++ more)%list
                   /\ Forall (download_event q retry_delay) more)
  /\ (forall e, fst run = Raise e ->
        In (kind_of e) download_kinds
        /\ (forall msg, e <> PixbinAuthError msg) /\ (forall msg, e <> PixbinQuotaError msg)).
Proof.
  cbv zeta. split; [reflexivity|]. split; [reflexivity|].
  unfold PixbinClient.download_transformed. cbv zeta.
  destruct (emits_download_loop self (PixbinClient.transform_url self image_id params true)
              max_retries retry_delay (Z.to_nat max_retries) 0 w) as [Hlog Hk].
  split; [exact Hlog|].
  intros e He. rewrite He in Hk. split; [exact Hk|].
  split; intros msg ->; unfold download_kinds in Hk; simpl in Hk;
    repeat (destruct Hk as [Hk|Hk]; try discriminate Hk); exact Hk.
Qed.

Lemma download_transformed_events_witness :
  In (kind_of (HTTPError "401 Client Error: R for url: U")) download_kinds.
Proof.
  destruct (download_transformed_events Sample.client "img-1" "p" 3 2
              (Sample.world [Sample.store 401])) as (_ & _ & _ & H).
  refine (proj1 (H _ _)). vm_compute. reflexivity.
Defined.

Lemma download_loop_returns (self : PixbinClient.t) (url : string) (max_retries : Z)
    (retry_delay : Q) (Hdelay : (0 <= retry_delay)%Q) (ready : Exchange) (resp : Response)
    (rest : list Exchange) (Hready : reply ready = Answers resp)
    (Hcode : status_code resp = 200) (script : list Exchange) :
  forall attempt remaining w,
    pending w = (script ++ ready :: rest)%list ->
    Forall (answers_with 202) script ->
    attempt + Z.of_nat (List.length script) < max_retries ->
    (List.length script < remaining)%nat ->
    let run := PixbinClient.download_loop self remaining attempt url max_retries
                 retry_delay w in
    fst run = Ok (content resp)
    /\ pending (snd run) = rest
    /\ log (snd run)
       = (log w ++ List.concat (map (fun _ => [Sent (download_request self url);
                                          Slept retry_delay]) script)
            ++ [Sent (download_request self url)])%list.
Proof.
  induction script as [|y script IH]; intros attempt remaining w Hpend Hall Hlt Hrem;
    (destruct remaining as [|remaining]; [simpl in Hrem; lia|]);
    cbv zeta; cbn [PixbinClient.download_loop]; rewrite run_bind.
  - simpl in Hpend. rewrite (send_answers _ w ready rest resp Hpend Hready), Hcode.
    cbn [Z.eqb Pos.eqb]. simpl. repeat split; reflexivity.
  - simpl in Hpend. apply Forall_cons_iff in Hall.
    destruct Hall as [(r202 & Hr & Hc) Hall].
    rewrite (send_answers _ w y (script ++ ready :: rest)%list r202 Hpend Hr), Hc.
    cbn [Z.eqb Pos.eqb]. cbv beta iota. cbn [List.length] in Hlt, Hrem.
    destruct (Z.ltb_spec attempt (max_retries - 1)); [|lia].
    rewrite run_bind, (time_sleep_ok _ _ Hdelay).
    destruct (IH (attempt + 1) remaining
                (slept retry_delay
                   (answered (download_request self url) y (script ++ ready :: rest)%list w)))
      as (Hok & Hp & Hl); [reflexivity | exact Hall | lia | lia |].
    cbv zeta in Hok, Hp, Hl. unfold download_request, answered in Hok, Hp, Hl.
    split; [exact Hok|]. split; [exact Hp|].
    rewrite Hl. simpl. rewrite <- !app_assoc. reflexivity.
Qed.

(** X11. When the variant is ready after [k] answers of 202, with [k]
    below [max_retries], [download_transformed] returns the body of the
    200 after [k + 1] requests with one sleep of [retry_delay] between two
    of them, and leaves the server's later answers unread. With
    [max_retries <= 0] it sends nothing at all and raises. *)
Theorem download_transformed_returns (self : PixbinClient.t) (image_id params : string)
    (max_retries : Z) (retry_delay : Q) (w : World) :
  let q := download_request self (PixbinClient.transform_url self image_id params true) in
  let run := PixbinClient.download_transformed self image_id params max_retries retry_delay w in
  (forall script ready resp rest,
     pending w = (script ++ ready :: rest)%list ->
     Forall (answers_with 202) script -> reply ready = Answers resp ->
     status_code resp = 200 -> Z.of_nat (List.length script) < max_retries ->
     (0 <= retry_delay)%Q ->
     fst run = Ok (content resp)
     /\ pending (snd run) = rest
     /\ log (snd run)
        = (log w ++ List.concat (map (fun _ => [Sent q; Slept retry_delay]) script)
             ++ [Sent q])%list)
  /\ (max_retries <= 0 ->
      run = (Raise (PixbinError "Failed to download transformed image"), w)).
Proof.
  cbv zeta. unfold PixbinClient.download_transformed. cbv zeta. split.
  - intros script ready resp rest Hpend Hall Hready Hcode Hlt Hdelay.
    apply (download_loop_returns self _ max_retries retry_delay Hdelay ready resp rest
             Hready Hcode script 0 (Z.to_nat max_retries) w Hpend Hall); lia.
  - intros Hle. replace (Z.to_nat max_retries) with 0%nat by lia. reflexivity.
Qed.

Lemma download_transformed_returns_witness :
  fst (PixbinClient.download_transformed Sample.client "img-1" "p" 3 2
         (Sample.world [Sample.store 202; Sample.store 202;
                        Sample.answers (Sample.response 200 "imgbytes" None)]))
  = Ok (Str.encode "imgbytes").
Proof.
  destruct (download_transformed_returns Sample.client "img-1" "p" 3 2
              (Sample.world [Sample.store 202; Sample.store 202;
                             Sample.answers (Sample.response 200 "imgbytes" None)]))
    as [H _].
  destruct (H [Sample.store 202; Sample.store 202]
              (Sample.answers (Sample.response 200 "imgbytes" None))
              (Sample.response 200 "imgbytes" None) []) as (Hok & _).
  - reflexivity.
  - repeat constructor; eexists; split; reflexivity.
  - reflexivity.
  - reflexivity.
  - simpl. lia.
  - lra.
  - exact Hok.
Defined.

(** ** The base URL *)

Lemma rstrip_slash_slashes (n : nat) : Str.rstrip_slash (Str.slashes n) = "".
Proof. induction n as [|n IH]; [reflexivity|]. simpl. rewrite IH. reflexivity. Qed.

Lemma rstrip_slash_app_slashes (s : string) (n : nat) :
  Str.rstrip_slash (s ++ Str.slashes n) = Str.rstrip_slash s.
Proof.
  induction s as [|c s IH]; simpl; [apply rstrip_slash_slashes|].
  rewrite IH. reflexivity.
Qed.

(** X12. Trailing slashes of the base URL make no difference: a client
    built from a base URL with any number of them added is the same
    client, with the same URLs, and building a client from the base URL of
    a client changes nothing. *)
Theorem base_url_trailing_slashes (api_token base_url : string) (timeout : Z) (n : nat) :
  PixbinClient.__init__ api_token (base_url ++ Str.slashes n) timeout
  = PixbinClient.__init__ api_token base_url timeout
  /\ PixbinClient.__init__ api_token
       (PixbinClient.base_url (PixbinClient.__init__ api_token base_url timeout)) timeout
     = PixbinClient.__init__ api_token base_url timeout
  /\ (forall image_id params include_host,
        PixbinClient.transform_url
          (PixbinClient.__init__ api_token (base_url ++ Str.slashes n) timeout)
          image_id params include_host
        = PixbinClient.transform_url (PixbinClient.__init__ api_token base_url timeout)
            image_id params include_host)
  /\ (forall rt image_id,
        status_request rt (PixbinClient.__init__ api_token (base_url ++ Str.slashes n) timeout)
          image_id
        = status_request rt (PixbinClient.__init__ api_token base_url timeout) image_id).
Proof.
  assert (H1 : PixbinClient.__init__ api_token (base_url ++ Str.slashes n) timeout
               = PixbinClient.__init__ api_token base_url timeout).
  { unfold PixbinClient.__init__. rewrite rstrip_slash_app_slashes. reflexivity. }
  split; [exact H1|]. split; [|split].
  - unfold PixbinClient.__init__. cbn [PixbinClient.base_url].
    destruct (rstrip_slash_spec base_url) as [m Hm].
    rewrite Hm at 2. rewrite rstrip_slash_app_slashes. reflexivity.
  - intros image_id params include_host. rewrite H1. reflexivity.
  - intros rt image_id. rewrite H1. reflexivity.
Qed.

(** ** The payload of the complete request *)

(** X13. The payload of the complete request always holds the image id
    under [image_id]; it holds a width exactly when it holds a height, and
    then both are positive integers: one or three members, never two. *)
Theorem complete_payload_invariant (rt : Runtime) (image_id : Json) (file_data : list byte) :
  let payload := PixbinClient.complete_payload rt image_id file_data in
  dict_get payload "image_id" = Some image_id
  /\ (dict_get payload "width" = None <-> dict_get payload "height" = None)
  /\ (forall v, dict_get payload "width" = Some v \/ dict_get payload "height" = Some v ->
      exists n, v = JInt n /\ 0 < n)
  /\ (List.length payload = 1%nat \/ List.length payload = 3%nat).
Proof.
  cbv zeta. unfold PixbinClient.complete_payload.
  destruct (PixbinClient._extract_dimensions rt file_data) as [width height].
  destruct (Z.gtb_spec width 0) as [Hw|Hw]; destruct (Z.gtb_spec height 0) as [Hh|Hh];
    cbn [andb];
    (split; [reflexivity|]);
    (split; [split; intros Hget; first [reflexivity | discriminate Hget]|]);
    (split; [|simpl; auto]);
    intros v [Hget|Hget]; simpl in Hget; try discriminate Hget; injection Hget as <-;
    eexists; (split; [reflexivity | lia]).
Qed.

Lemma complete_payload_invariant_witness :
  exists n, JInt 3 = JInt n /\ 0 < n.
Proof.
  destruct (complete_payload_invariant Sample.rt (JStr "img-1") ["003"; "002"]%byte)
    as (_ & _ & H & _).
  apply H. left. reflexivity.
Defined.

(** ** The presets: their alphabet, and that they do not collide *)

Lemma all_app (p : ascii -> bool) (a b : string) :
  Str.all p (a ++ b) = Str.all p a && Str.all p b.
Proof. induction a as [|c a IH]; simpl; [reflexivity|]. rewrite IH, andb_assoc. reflexivity. Qed.

Lemma all_impl (p q : ascii -> bool) (s : string) :
  (forall c, p c = true -> q c = true) -> Str.all p s = true -> Str.all q s = true.
Proof.
  intros Hpq. induction s as [|c s IH]; simpl; [reflexivity|].
  intros H. apply andb_true_iff in H. destruct H as [Hc Hs].
  rewrite (Hpq c Hc), (IH Hs). reflexivity.
Qed.

Lemma uint_digits (d : Decimal.uint) : Str.all is_digit (NilEmpty.string_of_uint d) = true.
Proof. induction d; simpl; auto. Qed.

Lemma of_int_decimal (n : Z) : Str.all is_decimal_char (Str.of_int n) = true.
Proof.
  assert (Hu : forall d, Str.all is_decimal_char (NilZero.string_of_uint d) = true).
  { intros d. apply (all_impl is_digit).
    - intros c Hc. unfold is_decimal_char. rewrite Hc. reflexivity.
    - destruct d; try apply uint_digits. reflexivity. }
  unfold Str.of_int. destruct (Z.to_int n) as [d|d]; simpl; [apply Hu|].
  rewrite Hu. reflexivity.
Qed.

Lemma of_int_inj (a b : Z) : Str.of_int a = Str.of_int b -> a = b.
Proof.
  intros H. pose proof (of_int_roundtrip a) as Ha. rewrite H, of_int_roundtrip in Ha.
  congruence.
Qed.

(** Two texts over an alphabet, each followed by a character outside of it,
    are cut at the same place. *)
Lemma split_at (p : ascii -> bool) (c : ascii) (a : string) :
  forall a' r r',
    Str.all p a = true -> Str.all p a' = true -> p c = false ->
    a ++ String c r = a' ++ String c r' -> a = a' /\ r = r'.
Proof.
  induction a as [|x a IH]; intros a' r r' Ha Ha' Hc Heq; destruct a' as [|x' a'];
    simpl in *.
  - injection Heq as <-. split; reflexivity.
  - injection Heq as <- _. apply andb_true_iff in Ha'. destruct Ha'. congruence.
  - injection Heq as -> _. apply andb_true_iff in Ha. destruct Ha. congruence.
  - injection Heq as <- Heq. apply andb_true_iff in Ha, Ha'.
    destruct Ha as [_ Ha], Ha' as [_ Ha'].
    destruct (IH a' r r' Ha Ha' Hc Heq) as [-> ->]. split; reflexivity.
Qed.

Lemma append_cancel_l (a b c : string) : a ++ b = a ++ c -> b = c.
Proof. induction a as [|x a IH]; simpl; intros H; [exact H|]. injection H as H. auto. Qed.

(** X14. The presets do not collide: two calls of a builder give the same
    string only for the same settings, a default counting as its value.
    For [crop_square] the modes must be free of commas. *)
Theorem builders_injective (width height size width' height' size' : Z)
    (quality quality' max_width max_width' : option Z) (mode mode' : option string) :
  (thumbnail width height quality = thumbnail width' height' quality' ->
   width = width' /\ height = height' /\ or_default 85 quality = or_default 85 quality')
  /\ (optimize_web max_width quality = optimize_web max_width' quality' ->
      or_default 1920 max_width = or_default 1920 max_width'
      /\ or_default 85 quality = or_default 85 quality')
  /\ (Str.all no_comma (or_default "center" mode) = true ->
      Str.all no_comma (or_default "center" mode') = true ->
      crop_square size mode = crop_square size' mode' ->
      size = size' /\ or_default "center" mode = or_default "center" mode').
Proof.
  assert (Hx : is_decimal_char "x" = false) by reflexivity.
  assert (Hcolon : is_decimal_char ":" = false) by reflexivity.
  assert (Hcomma : is_decimal_char "," = false) by reflexivity.
  split; [|split].
  - unfold thumbnail. cbv zeta. generalize (or_default 85 quality) (or_default 85 quality').
    intros q q' H. simpl in H.
    repeat match type of H with String _ _ = String _ _ => injection H as H end.
    apply (split_at is_decimal_char "x") in H; try apply of_int_decimal; [|exact Hx].
    destruct H as [Hw H]. apply of_int_inj in Hw.
    apply (split_at is_decimal_char ":") in H; try apply of_int_decimal; [|exact Hcolon].
    destruct H as [Hh H]. apply of_int_inj in Hh.
    repeat match type of H with String _ _ = String _ _ => injection H as H end.
    apply of_int_inj in H. auto.
  - unfold optimize_web. cbv zeta.
    generalize (or_default 1920 max_width) (or_default 1920 max_width')
      (or_default 85 quality) (or_default 85 quality').
    intros m m' q q' H. simpl in H.
    repeat match type of H with String _ _ = String _ _ => injection H as H end.
    apply (split_at is_decimal_char "x") in H; try apply of_int_decimal; [|exact Hx].
    destruct H as [Hm H]. apply of_int_inj in Hm. subst m'.
    apply append_cancel_l in H.
    repeat match type of H with String _ _ = String _ _ => injection H as H end.
    apply (split_at is_decimal_char ",") in H; try apply of_int_decimal; [|exact Hcomma].
    destruct H as [Hq _]. apply of_int_inj in Hq. auto.
  - unfold crop_square. cbv zeta.
    generalize (or_default "center" mode) (or_default "center" mode').
    intros m m' Hm Hm' H. simpl in H.
    repeat match type of H with String _ _ = String _ _ => injection H as H end.
    apply (split_at no_comma ",") in H; [|assumption|assumption|reflexivity].
    destruct H as [-> H].
    repeat match type of H with String _ _ = String _ _ => injection H as H end.
    apply (split_at is_decimal_char "x") in H; try apply of_int_decimal; [|exact Hx].
    destruct H as [Hs _]. apply of_int_inj in Hs. auto.
Qed.

Lemma builders_injective_witness :
  300 = 300 /\ 200 = 200 /\ or_default 85 None = or_default 85 (Some 85).
Proof.
  refine (proj1 (builders_injective 300 200 0 300 200 0 None (Some 85) None None None None)
            _).
  reflexivity.
Defined.

Lemma param_char_not_slash (s : string) :
  Str.all is_param_char s = true -> Str.contains "/" s = false.
Proof.
  induction s as [|c s IH]; [reflexivity|]. intros H.
  cbn [Str.all] in H. apply andb_true_iff in H. destruct H as [Hc Hs].
  cbn [Str.contains prefix]. rewrite (IH Hs), orb_false_r.
  destruct (ascii_dec "/" c) as [<-|_]; [discriminate Hc | reflexivity].
Qed.

Lemma decimal_param_char (c : ascii) : is_decimal_char c = true -> is_param_char c = true.
Proof.
  unfold is_decimal_char, is_param_char. intros H. apply orb_true_iff in H.
  destruct H as [-> | ->]; [reflexivity|]. apply orb_true_r.
Qed.

Lemma of_int_param (n : Z) : Str.all is_param_char (Str.of_int n) = true.
Proof. apply (all_impl is_decimal_char); [apply decimal_param_char | apply of_int_decimal]. Qed.

(** X15. What [thumbnail] and [optimize_web] return is made of digits,
    lowercase letters, colons, commas and minus signs, and so is what
    [crop_square] returns when its mode is: the presets hold no slash, and
    take one segment of the signed path. *)
Theorem builders_alphabet (width height size : Z) (quality max_width : option Z)
    (mode : option string) :
  Str.all is_param_char (thumbnail width height quality) = true
  /\ Str.all is_param_char (optimize_web max_width quality) = true
  /\ (Str.all is_param_char (or_default "center" mode) = true ->
      Str.all is_param_char (crop_square size mode) = true)
  /\ Str.contains "/" (thumbnail width height quality) = false
  /\ Str.contains "/" (optimize_web max_width quality) = false
  /\ (Str.all is_param_char (or_default "center" mode) = true ->
      Str.contains "/" (crop_square size mode) = false).
Proof.
  assert (Ht : Str.all is_param_char (thumbnail width height quality) = true).
  { unfold thumbnail. cbv zeta. rewrite !all_app, !of_int_param. reflexivity. }
  assert (Ho : Str.all is_param_char (optimize_web max_width quality) = true).
  { unfold optimize_web. cbv zeta. rewrite !all_app, !of_int_param. reflexivity. }
  assert (Hc : Str.all is_param_char (or_default "center" mode) = true ->
               Str.all is_param_char (crop_square size mode) = true).
  { intros Hm. unfold crop_square. cbv zeta. rewrite !all_app, !of_int_param, Hm.
    reflexivity. }
  repeat split; auto using param_char_not_slash.
Qed.

Lemma builders_alphabet_witness :
  Str.contains "/" (crop_square 200 None) = false.
Proof.
  destruct (builders_alphabet 0 0 200 None None None) as (_ & _ & _ & _ & _ & H).
  apply H. reflexivity.
Defined.
